(* ===== verification/_CoqProject ===== *)
-Q . S2P
Prelude.v
PyLogic.v
PyDatetime.v
Calendar.v
Money.v
Numbering.v
Store.v
StoreSpec.v
Stats.v
History.v
Pdf.v
Settings.v
World.v
Imports.v
Creation.v
Views.v
App.v
Session.v
Rerun.v
