(* ===== verification/Prelude.v ===== *)
(** * A verification development for the VTC invoicing tool (src/app.py)

    The program is one Streamlit script, [src/app.py], used by a for-hire
    vehicle driver: a form creates an invoice for a trip (fare, 20% VAT,
    invoice number, a PDF and a row of an SQLite table), a history view
    filters the table by date and status and exports it, a dashboard
    filters it by period and aggregates statistics, and a settings view
    saves or deletes a JSON configuration and a logo.

    ** The parts and how they interact

    - Python's [datetime] library, which the script calls (dates, times,
      ordering, [timedelta] subtraction, [strftime], [str]) and pandas'
      [to_datetime]: modelled from the library's documented semantics in
      [PyDatetime.v].  Not code of the repository: its definitions are
      tied to the lines of app.py that call them.
    - The calendar arithmetic behind [today - timedelta(days=k)] (lines
      296-299), CPython's [_ord2ymd] and [_ymd2ord]: its correctness is
      proved in [Calendar.v].
    - The fare computation (app.py lines 193-194) and the [:.2f]
      formatting of amounts: [Money.v].
    - The invoice number (line 191) and its decoding: [Numbering.v].
    - The SQLite table [factures] (lines 45-65: [init_db]; line 222: the
      append by [DataFrame.to_sql]; lines 248/288: [SELECT *]):
      [Store.v].  The store is an append-only list of rows with the
      AUTOINCREMENT counter; the date column is stored as text and parsed
      back with [pd.to_datetime].  [StoreSpec.v] states what the store
      promises its clients as the class [AppendLog] with its laws, proves
      the consequences of the laws once, and makes the table an instance.
    - The statistics (lines 131-143: [calculer_statistiques]), the period
      filter of the dashboard (lines 295-301) and the two daily series of
      its charts (lines 347, 357): [Stats.v].
    - The history filter (lines 255-260) and its export: [History.v].
    - The PDF renderer (lines 68-128: [generer_facture_pdf]): [Pdf.v],
      which builds the list of flowables the script hands to reportlab.
    - The settings view (lines 364-455): [Settings.v].
    - The file system and the Python run time (the exceptions raised),
      on which the views are handlers: [World.v].
    - The name [datetime] as lines 4 and 16 bind it, and what a run
      shows: [Imports.v].  The creation flow of lines 167-229 (form,
      validation, PDF, append): [Creation.v].  The history, dashboard and
      settings views: [Views.v].  [init_db] and [main], which dispatches
      on the page chosen to those handlers: [App.v].  Streamlit's rerun
      after the reset button: [Rerun.v].

    - Successive runs ([Session.v]): Streamlit reruns [main] on every
      interaction, and only the working directory carries over; the step
      relation [app_step] is one run with any widget values, and the
      reachable worlds are its reflexive transitive closure ([rtc]).

    Every handler is a function from the inputs of one Streamlit run and
    the state of the world (files, directories, database) to the message
    shown and the new world.  Python exceptions are values of [py_exc]
    and effectful code is written in the small state-and-exception monad
    [pyM] of this file.  [PyLogic.v] gives [pyM] a program logic
    ([triple Inv m R]: [m] keeps the invariant [Inv], raising or not, and
    its result satisfies [R]) with one rule per combinator and the tactic
    [triple_auto].

    ** What the theorems show

    - Prelude: fixed-width decimal printing and its parser are inverse
      ([take_digits_zpad]).
    - PyDatetime: [str] then [pd.to_datetime] of a valid timestamp gives
      it back; comparison of timestamps is a total order.
    - Calendar: the lemmas the dashboard's period filter rests on:
      [_ord2ymd] inverts [_ymd2ord] on [1..MAXORDINAL] and the valid
      dates, the order of dates is the order of their ordinals, and
      [timedelta] subtraction within range moves exactly [k] days.  The
      proof follows [_ord2ymd]'s 400/100/4/1-year blocks;
      only the month-and-day step is checked by evaluation, on the 730
      days of a common and a leap year.
    - Money: the VAT and total of the creation flow, their bounds, and the
      fixed-decimal formatting [f"{x:.kf}"] ([format_fixed], with [:.2f]
      as its case [k = 2]), which reads back within half a unit of its
      last decimal; for a fare in whole cents the printed total is the
      sum of the printed fare and VAT.
    - Numbering: the invoice number decodes back to the trip date and the
      wall-clock time of day it was built from, so it is injective in
      those, and only in those: two trips on the same day created at the
      same second collide.
    - Store, StoreSpec: appending keeps the ids strictly increasing and
      fresh, a full scan returns the old rows followed by the new one, and
      the table refines the append-only log: a sequence of creations adds
      exactly its records, numbered consecutively from the counter.
    - Stats: the aggregate of the empty frame is empty, the mean number
      of trips per day is the number of trips over the number of distinct
      days, the daily series are sorted by date and sum to the totals,
      the mean
      ticket and duration times the number of trips give the revenue
      and the total duration, the 7-
      and 30-day filters keep exactly the trips after the cutoff day or
      on it at or after the current time of day, and what the dashboard
      reads back is the stored records with their timestamps.
    - History: the filter keeps exactly the rows inside the date range
      with the chosen status, and an inverted range keeps none; every
      cell the table formats (lines 264-268) reads back within half a
      unit of its last decimal.
    - Pdf: the invoice table prints the fare, the VAT and the total in
      the rows labelled with them, each reading back within half a cent.
    - World: how each [os] call and SQLite's connect and commit run,
      as step lemmas of the hint database [vtc_py].
    - Imports, Creation, Views and App: the module-level imports bind [datetime] to the module, so
      the creation flow, the dashboard and the footer of [main] raise
      [AttributeError] on every run that reaches them; with the binding
      the code means, the creation flow stores exactly the record of the
      form, a failed commit leaves a PDF without its row, a zero field
      is rejected before any effect, an empty table makes the dashboard
      raise [KeyError], [init_db] fails without a [data] directory, and
      the reset button deletes exactly the configuration and the logo.
      The history export writes exactly the rows shown (and is not
      guarded by [try]), saving the settings writes exactly the form's
      configuration, the dashboard's indicators agree with its charts,
      and two invoices
      whose numbers collide keep both rows but only the second PDF.
    - Session: every rule of the program logic is proved once for any
      invariant of the database file ([db_inv P]); two instances follow.
      In every world reachable by runs of the script the table keeps its
      invariant and its date column parses, so reading it never fails;
      and with the imports as written the database file never changes
      once it holds the table: no sequence of runs stores an invoice.
      The handlers' rules are also proved for any invariant the primitive
      writes keep, among them the frame (directories only grow, the
      read-only set is fixed); with it, once line 16 is dropped, a
      creation run appends its record in every reachable world
      ([creation_progress]): creating stays possible forever.
    - Rerun: [st.experimental_rerun()] (line 452) stops the run and
      Streamlit starts it again with the buttons released; only the reset
      button asks for a rerun, so every user action takes at most two
      runs of [main].

    ** Numbers, bounds and fuel

    Python floats are modelled as exact rationals [Q] (the VAT literal
    [0.20] as [1/5]); the formatting [:.2f] rounds the exact value half to
    even.  CPython rounds the binary value correctly, which agrees with
    this whenever the amount is a binary fraction; for a decimal such as
    [2.675], whose binary value lies just below the tie, CPython prints
    [2.67] where the model gives [2.68].  The theorems on formatting bound
    the error by half a cent, which holds for both.  Integers are [Z].
    Years are kept to 1..9999 (Python's [datetime.MINYEAR..MAXYEAR]); the
    invoice number's decoding uses 4-digit years.  One definition uses
    fuel: Streamlit's rerun loop ([Rerun.streamlit_session]), which
    [streamlit_session_terminates] shows needs two runs and gives the
    same result for any larger fuel; every other recursion is
    structural.

    ** Not modelled

    Streamlit's widget rendering and the CSS (lines 18-42, 148-165),
    reportlab's layout engine (the flowables are modelled, not the bytes of
    the PDF), plotly's drawing (the data it is given is modelled), SMTP
    (the settings only hold its parameters) and the Excel writer (the
    exported rows are modelled, not the file format). *)

From Stdlib Require Import ZArith QArith String Ascii List Lia Sorted.
From Stdlib Require Import Lqa DecimalString DecimalN.
Import ListNotations.

Declare Scope vtc_scope.
Delimit Scope vtc_scope with vtc.
Local Open Scope Z_scope.

Create HintDb vtc.
Create Rewrite HintDb vtc_rw.
(** Lemmas that run one operation of the monad [pyM]. *)
Create HintDb vtc_py.

(** ** Fixed-width decimal printing, as [%02d], [%04d] and [strftime] *)

Definition digit_char (n : Z) : ascii := ascii_of_nat (48 + Z.to_nat n).

(** [zpad w n] prints [n mod 10^w] on exactly [w] digits, most significant
    first. *)
Fixpoint zpad (w : nat) (n : Z) : string :=
  match w with
  | O => EmptyString
  | S w' => String (digit_char ((n / 10 ^ Z.of_nat w') mod 10)) (zpad w' n)
  end.

Definition char_digit (c : ascii) : option Z :=
  let k := nat_of_ascii c in
  if (48 <=? k)%nat && (k <=? 57)%nat then Some (Z.of_nat k - 48) else None.

(** Read exactly [w] digits, accumulating into [acc]. *)
Fixpoint take_digits (w : nat) (s : string) (acc : Z) : option (Z * string) :=
  match w with
  | O => Some (acc, s)
  | S w' =>
      match s with
      | EmptyString => None
      | String c s' =>
          match char_digit c with
          | Some d => take_digits w' s' (acc * 10 + d)
          | None => None
          end
      end
  end.

(** Read one expected character. *)
Definition expect_char (c : ascii) (s : string) : option string :=
  match s with
  | String c' s' => if Ascii.eqb c c' then Some s' else None
  | EmptyString => None
  end.

(** The option monad of the parsers. *)
Definition obind {A B} (m : option A) (k : A -> option B) : option B :=
  match m with Some a => k a | None => None end.

Notation "x <-? m ;; k" := (obind m (fun x => k))
  (at level 62, m at next level, right associativity) : vtc_scope.
Notation "'let?' p := m 'in' k" := (obind m (fun x => match x with p => k end))
  (at level 10, p pattern, m at level 100, k at level 200) : vtc_scope.

(** Decimal printing of a natural number, as Python's [str] of an [int]. *)
Definition str_N (n : N) : string := DecimalString.NilEmpty.string_of_uint (N.to_uint n).

Definition py_str_int (z : Z) : string :=
  if z <? 0 then String "-" (str_N (Z.to_N (- z))) else str_N (Z.to_N z).

(** ** Python exceptions and the state-and-exception monad *)

Inductive py_exc :=
| AttributeError (attr : string)
| KeyError (key : string)
| OperationalError (msg : string)
| OSError (path : string)
| OverflowError (msg : string)
| ValueError (msg : string)
| NameError (name : string).

Inductive outcome (A : Type) :=
| Ok (a : A)
| Raise (e : py_exc).
Arguments Ok {A} a.
Arguments Raise {A} e.

(** [str(e)] of an exception, as the error messages of the script show it. *)
Definition exc_str (e : py_exc) : string :=
  match e with
  | AttributeError a => "has no attribute '" ++ a ++ "'"
  | KeyError k => "'" ++ k ++ "'"
  | OperationalError m | OverflowError m | ValueError m => m
  | OSError p => "[Errno] " ++ p
  | NameError n => "name '" ++ n ++ "' is not defined"
  end%string.

(** A computation on a state [S]: its outcome and the state it leaves.
    A raised exception keeps the effects done before it, as in Python. *)
Definition pyM (S A : Type) : Type := S -> outcome A * S.

Definition py_ret {S A} (a : A) : pyM S A := fun s => (Ok a, s).
Definition py_raise {S A} (e : py_exc) : pyM S A := fun s => (Raise e, s).
Definition py_bind {S A B} (m : pyM S A) (k : A -> pyM S B) : pyM S B :=
  fun s => match m s with
           | (Ok a, s') => k a s'
           | (Raise e, s') => (Raise e, s')
           end.
Definition py_get {S} : pyM S S := fun s => (Ok s, s).
Definition py_put {S} (s : S) : pyM S unit := fun _ => (Ok tt, s).

(** [try: m except Exception as e: h e] *)
Definition py_try {S A} (m : pyM S A) (h : py_exc -> pyM S A) : pyM S A :=
  fun s => match m s with
           | (Ok a, s') => (Ok a, s')
           | (Raise e, s') => h e s'
           end.

(** Lift a fallible state update ([None] is the exception [e]). *)
Definition py_lift {S} (e : py_exc) (f : S -> option S) : pyM S unit :=
  fun s => match f s with
           | Some s' => (Ok tt, s')
           | None => (Raise e, s)
           end.

Notation "x <- m ;; k" := (py_bind m (fun x => k))
  (at level 62, m at next level, right associativity) : vtc_scope.
Notation "m ;;; k" := (py_bind m (fun _ => k))
  (at level 62, right associativity) : vtc_scope.

(** ** Exact sums, as pandas' [Series.sum] on the modelled values *)

Definition sumQ (l : list Q) : Q := fold_right Qplus 0%Q l.

(** ** Tactics *)

(** Unfold the monad and reduce the [match]es on concrete outcomes. *)
Ltac py_unfold :=
  unfold py_bind, py_ret, py_raise, py_get, py_put, py_try, py_lift in *.

(** ** Shared lemmas *)

Lemma digit_char_of_digit (d : Z) :
  0 <= d < 10 -> char_digit (digit_char d) = Some d.
Proof.
  intros Hd. unfold char_digit, digit_char.
  rewrite nat_ascii_embedding by lia.
  destruct (Nat.leb_spec 48 (48 + Z.to_nat d)); [|lia].
  destruct (Nat.leb_spec (48 + Z.to_nat d) 57); [|lia].
  cbn [andb]. f_equal. lia.
Qed.

Lemma zpad_length (w : nat) (n : Z) : String.length (zpad w n) = w.
Proof. induction w; simpl; auto. Qed.

Lemma string_length_app (a b : string) :
  String.length (a ++ b) = (String.length a + String.length b)%nat.
Proof. induction a; simpl; congruence. Qed.

Lemma string_app_nil_r (a : string) : (a ++ EmptyString)%string = a.
Proof. induction a; simpl; congruence. Qed.

Lemma string_app_assoc (a b c : string) : ((a ++ b) ++ c)%string = (a ++ (b ++ c))%string.
Proof. induction a; simpl; congruence. Qed.

Lemma pow10_pos (w : nat) : 0 < 10 ^ Z.of_nat w.
Proof. apply Z.pow_pos_nonneg; lia. Qed.

Lemma mod_pow10_succ (n : Z) (w : nat) :
  n mod 10 ^ Z.of_nat (S w) = (n / 10 ^ Z.of_nat w) mod 10 * 10 ^ Z.of_nat w + n mod 10 ^ Z.of_nat w.
Proof.
  pose proof (pow10_pos w).
  rewrite Nat2Z.inj_succ, Z.pow_succ_r by lia.
  rewrite Z.mul_comm, Z.rem_mul_r by lia. lia.
Qed.

(** Reading [w] digits back from [zpad w n] gives [n mod 10^w]: the
    round trip of fixed-width printing. *)
Lemma take_digits_zpad (w : nat) (n acc : Z) (s : string) :
  take_digits w (zpad w n ++ s) acc = Some (acc * 10 ^ Z.of_nat w + n mod 10 ^ Z.of_nat w, s).
Proof.
  revert acc. induction w as [|w IH]; intros acc.
  - cbn [zpad take_digits String.append]. rewrite Z.mod_1_r. f_equal. f_equal. lia.
  - cbn [zpad take_digits String.append]. pose proof (pow10_pos w).
    rewrite digit_char_of_digit by (apply Z.mod_pos_bound; lia).
    rewrite IH, mod_pow10_succ, Nat2Z.inj_succ, Z.pow_succ_r by lia.
    f_equal. f_equal. ring.
Qed.

Lemma take_digits_zpad_small (w : nat) (n : Z) (s : string) :
  0 <= n < 10 ^ Z.of_nat w -> take_digits w (zpad w n ++ s) 0 = Some (n, s).
Proof. intros H. rewrite take_digits_zpad, Z.mod_small by lia. reflexivity. Qed.

Lemma take_digits_zpad_end (w : nat) (n : Z) :
  0 <= n < 10 ^ Z.of_nat w -> take_digits w (zpad w n) 0 = Some (n, EmptyString).
Proof.
  intros H. rewrite <- (take_digits_zpad_small w n EmptyString H).
  f_equal. induction (zpad w n); cbn; congruence.
Qed.

Lemma expect_char_same (c : ascii) (s : string) : expect_char c (String c s) = Some s.
Proof. simpl. now rewrite Ascii.eqb_refl. Qed.

(** Read fixed-width fields printed by [zpad] back, one after the other. *)
Ltac take_fields :=
  repeat (rewrite ?string_app_assoc;
          cbn [obind expect_char Ascii.eqb Bool.eqb String.append];
          first [ rewrite take_digits_zpad_small by (cbn; lia)
                | rewrite take_digits_zpad_end by (cbn; lia) ]);
  cbn [obind expect_char Ascii.eqb Bool.eqb String.append].

#[export] Hint Rewrite take_digits_zpad_small expect_char_same string_app_assoc : vtc_rw.

Lemma str_N_inj (m n : N) : str_N m = str_N n -> m = n.
Proof.
  unfold str_N. intros H.
  apply (f_equal DecimalString.NilEmpty.uint_of_string) in H.
  rewrite !DecimalString.NilEmpty.usu in H. injection H as H.
  apply DecimalN.Unsigned.to_uint_inj. exact H.
Qed.

Lemma sumQ_nonneg (l : list Q) : Forall (fun q => 0 <= q)%Q l -> (0 <= sumQ l)%Q.
Proof.
  induction 1; unfold sumQ in *; simpl; [apply Qle_refl | lra].
Qed.

#[export] Hint Resolve sumQ_nonneg : vtc.

(** Appending an element above all others keeps a list strictly sorted. *)
Lemma StronglySorted_snoc {A} (R : A -> A -> Prop) (l : list A) (x : A) :
  StronglySorted R l -> Forall (fun y => R y x) l -> StronglySorted R (l ++ [x]).
Proof.
  induction 1 as [|a l Hs IH Ha]; intros Hx; simpl.
  - repeat constructor.
  - inversion Hx; subst. constructor; [now apply IH|].
    apply Forall_app; split; [exact Ha | now constructor].
Qed.

Lemma StronglySorted_NoDup {A} (R : A -> A -> Prop) (l : list A) :
  (forall x, ~ R x x) -> StronglySorted R l -> NoDup l.
Proof.
  intros Hirr. induction 1 as [|a l _ IH Ha]; constructor; auto.
  intros Hin. rewrite Forall_forall in Ha. exact (Hirr a (Ha a Hin)).
Qed.

Section SumQ.
Context {A : Type}.

Lemma sumQ_map_ext (f g : A -> Q) (l : list A) :
  (forall x, In x l -> (f x == g x)%Q) -> (sumQ (map f l) == sumQ (map g l))%Q.
Proof.
  induction l as [|x l IH]; intros H; [reflexivity|].
  unfold sumQ in *; cbn. rewrite (H x (or_introl eq_refl)), IH; [reflexivity|].
  intros y Hy. apply H. now right.
Qed.

Lemma sumQ_map_plus (f g : A -> Q) (l : list A) :
  (sumQ (map (fun x => f x + g x) l) == sumQ (map f l) + sumQ (map g l))%Q.
Proof. induction l as [|x l IH]; unfold sumQ in *; cbn; [ring|]. rewrite IH. ring. Qed.

Lemma sumQ_map_zero (l : list A) : (sumQ (map (fun _ => 0) l) == 0)%Q.
Proof. induction l as [|x l IH]; unfold sumQ in *; cbn; [reflexivity|]. rewrite IH. ring. Qed.

Lemma sumQ_map_one (l : list A) : (sumQ (map (fun _ => 1) l) == inject_Z (Z.of_nat (length l)))%Q.
Proof.
  induction l as [|x l IH]; unfold sumQ in *; cbn -[Z.of_nat]; [reflexivity|].
  rewrite IH, Nat2Z.inj_succ, <- Z.add_1_r, inject_Z_plus. ring.
Qed.

Variable eqb : A -> A -> bool.
Hypothesis eqb_iff : forall a b, eqb a b = true <-> a = b.

Lemma sumQ_indicator_absent (x : A) (v : Q) (ks : list A) :
  ~ In x ks -> (sumQ (map (fun k => if eqb x k then v else 0) ks) == 0)%Q.
Proof.
  induction ks as [|k ks IH]; intros Hn; [reflexivity|]. unfold sumQ in *; cbn.
  destruct (eqb x k) eqn:E.
  - apply eqb_iff in E. subst. exfalso. apply Hn. now left.
  - rewrite IH by (intros Hin; apply Hn; now right). ring.
Qed.

(** Summing an indicator over a list of distinct keys that contains [x]. *)
Lemma sumQ_indicator (x : A) (v : Q) (ks : list A) :
  NoDup ks -> In x ks -> (sumQ (map (fun k => if eqb x k then v else 0) ks) == v)%Q.
Proof.
  induction 1 as [|k ks Hk Hnd IH]; intros Hin; [destruct Hin|]. unfold sumQ in *; cbn.
  destruct (eqb x k) eqn:E.
  - apply eqb_iff in E. subst. rewrite sumQ_indicator_absent by exact Hk. ring.
  - destruct Hin as [Hkx|Hin]; [subst; rewrite (proj2 (eqb_iff x x) eq_refl) in E; discriminate|].
    rewrite IH by exact Hin. ring.
Qed.
End SumQ.

(** ** Running the monad *)

Section PyRun.
Context {S A B : Type}.

Lemma py_bind_ok (m : pyM S A) (k : A -> pyM S B) (s s' : S) (a : A) :
  m s = (Ok a, s') -> py_bind m k s = k a s'.
Proof. intros H. unfold py_bind. now rewrite H. Qed.

Lemma py_bind_raise (m : pyM S A) (k : A -> pyM S B) (s s' : S) (e : py_exc) :
  m s = (Raise e, s') -> py_bind m k s = (Raise e, s').
Proof. intros H. unfold py_bind. now rewrite H. Qed.

Lemma py_try_ok (m : pyM S A) (h : py_exc -> pyM S A) (s s' : S) (a : A) :
  m s = (Ok a, s') -> py_try m h s = (Ok a, s').
Proof. intros H. unfold py_try. now rewrite H. Qed.

Lemma py_try_raise (m : pyM S A) (h : py_exc -> pyM S A) (s s' : S) (e : py_exc) :
  m s = (Raise e, s') -> py_try m h s = h e s'.
Proof. intros H. unfold py_try. now rewrite H. Qed.

Lemma py_ret_run (a : A) (s : S) : py_ret a s = (Ok a, s).
Proof. reflexivity. Qed.

Lemma py_raise_run (e : py_exc) (s : S) : @py_raise S A e s = (Raise e, s).
Proof. reflexivity. Qed.

Lemma py_get_run (s : S) : py_get s = (Ok s, s).
Proof. reflexivity. Qed.

Lemma py_lift_ok (e : py_exc) (f : S -> option S) (s s' : S) :
  f s = Some s' -> py_lift e f s = (Ok tt, s').
Proof. intros H. unfold py_lift. now rewrite H. Qed.

Lemma py_lift_fail (e : py_exc) (f : S -> option S) (s : S) :
  f s = None -> py_lift e f s = (Raise e, s).
Proof. intros H. unfold py_lift. now rewrite H. Qed.
End PyRun.

#[export] Hint Resolve py_ret_run py_raise_run py_get_run : vtc_py.

(** One step of a computation in [pyM]: the first operation runs by a
    lemma of [vtc_py] (or a hypothesis), and its continuation is reduced. *)
Ltac py_step :=
  first [ erewrite py_bind_ok by (eauto with vtc_py)
        | erewrite py_bind_raise by (eauto with vtc_py)
        | erewrite py_try_ok by (eauto with vtc_py)
        | erewrite py_try_raise by (eauto with vtc_py) ];
  cbv beta.
