(* ===== verification/PyLogic.v ===== *)
(** A small program logic for the state-and-exception monad [pyM] of
    [Prelude.v]: [triple Inv m R] says that from a state satisfying the
    invariant [Inv], [m] leaves a state satisfying [Inv] whether it returns or
    raises, and that what it returns satisfies [R].  The rules follow the
    monad's combinators, so an invariant of the whole script is proved
    one handler at a time, and each primitive operation of [World.v] needs
    only its own rule. *)

From S2P Require Import Prelude.

Section Triple.
Context {S : Type} (Inv : S -> Prop).

Definition triple {A} (m : pyM S A) (R : A -> Prop) : Prop :=
  forall s, Inv s ->
  match m s with
  | (Ok a, s') => Inv s' /\ R a
  | (Raise _, s') => Inv s'
  end.

Lemma triple_ret {A} (a : A) (R : A -> Prop) : R a -> triple (py_ret a) R.
Proof. intros HR s Hs. now split. Qed.

Lemma triple_raise {A} (e : py_exc) (R : A -> Prop) : triple (py_raise e) R.
Proof. intros s Hs. exact Hs. Qed.

Lemma triple_bind {A B} (m : pyM S A) (k : A -> pyM S B) (R1 : A -> Prop) (R2 : B -> Prop) :
  triple m R1 -> (forall a, R1 a -> triple (k a) R2) -> triple (py_bind m k) R2.
Proof.
  intros Hm Hk s Hs. unfold py_bind. specialize (Hm s Hs).
  destruct (m s) as [[a|e] s']; [destruct Hm as [Hs' HR]; exact (Hk a HR s' Hs') | exact Hm].
Qed.

Lemma triple_try {A} (m : pyM S A) (h : py_exc -> pyM S A) (R : A -> Prop) :
  triple m R -> (forall e, triple (h e) R) -> triple (py_try m h) R.
Proof.
  intros Hm Hh s Hs. unfold py_try. specialize (Hm s Hs).
  destruct (m s) as [[a|e] s']; [exact Hm | exact (Hh e s' Hm)].
Qed.

Lemma triple_weaken {A} (m : pyM S A) (R R' : A -> Prop) :
  triple m R -> (forall a, R a -> R' a) -> triple m R'.
Proof.
  intros Hm HR s Hs. specialize (Hm s Hs).
  destruct (m s) as [[a|e] s']; [destruct Hm; split; auto | exact Hm].
Qed.

Lemma triple_if {A} (b : bool) (m1 m2 : pyM S A) (R : A -> Prop) :
  triple m1 R -> triple m2 R -> triple (if b then m1 else m2) R.
Proof. now destruct b. Qed.

(** A fallible update that keeps the invariant. *)
Lemma triple_lift (e : py_exc) (f : S -> option S) :
  (forall s s', Inv s -> f s = Some s' -> Inv s') -> triple (py_lift e f) (fun _ => True).
Proof.
  intros Hf s Hs. unfold py_lift. destruct (f s) as [s'|] eqn:E; [split; [exact (Hf s s' Hs E) | exact I] | exact Hs].
Qed.

(** A computation that does not change the state. *)
Lemma triple_pure {A} (m : pyM S A) (R : A -> Prop) :
  (forall s, match m s with (Ok a, s') => s' = s /\ R a | (Raise _, s') => s' = s end) -> triple m R.
Proof.
  intros Hm s Hs. specialize (Hm s). destruct (m s) as [[a|e] s'].
  - destruct Hm as [-> HR]. now split.
  - now subst.
Qed.

(** The invariant holds after every run of a computation that keeps it. *)
Lemma triple_run {A} (m : pyM S A) (R : A -> Prop) (s : S) : triple m R -> Inv s -> Inv (snd (m s)).
Proof. intros Hm Hs. specialize (Hm s Hs). destruct (m s) as [[a|e] s']; cbn; [apply Hm | exact Hm]. Qed.

(** What a run of a computation satisfying [triple] returns. *)
Lemma triple_result {A} (m : pyM S A) (R : A -> Prop) (s : S) :
  triple m R -> Inv s -> match fst (m s) with Ok a => R a | Raise _ => True end.
Proof. intros Hm Hs. specialize (Hm s Hs). destruct (m s) as [[a|e] s']; cbn; [apply Hm | exact I]. Qed.

End Triple.

(** Every computation keeps the trivial invariant. *)
Lemma triple_true {S A} (m : pyM S A) : triple (fun _ => True) m (fun _ => True).
Proof. intros s _. destruct (m s) as [[a|e] s']; auto. Qed.

Create HintDb vtc_inv.
#[export] Hint Resolve triple_true : vtc_inv.

(** One step of a proof that a computation keeps an invariant: the rule
    of its head combinator, or a case split on the test it makes. *)
Ltac triple_step :=
  match goal with
  | |- triple _ (py_bind _ _) _ =>
      first [ eapply triple_bind; [solve [eauto with vtc_inv] | intros ? ?; cbv beta in *; try subst]
            | apply (triple_bind _ _ _ (fun _ => True)); [|intros ? _] ]
  | |- triple _ (py_try _ _) _ => apply triple_try; [|intros ?]
  | |- triple _ (py_ret _) _ => apply triple_ret
  | |- triple _ (py_raise _) _ => apply triple_raise
  | |- triple _ (if ?b then _ else _) _ => destruct b
  | |- triple _ (match ?x with _ => _ end) _ => destruct x
  end.

Ltac triple_auto := repeat (triple_step; try solve [eauto with vtc_inv]).
