(* ===== verification/PyDatetime.v ===== *)
(** Python's [datetime] values as the script uses them: [date], [time] and
    [datetime] records, their validity, CPython's ordering, ordinals and
    [timedelta] subtraction, [strftime] on the directives the script uses,
    [str] of a timestamp (what SQLite stores) and pandas' [to_datetime] of
    that text.  These model the library's documented semantics; they are
    not code of the repository. *)

From Stdlib Require Import ZArith String Ascii List Lia Bool.
From S2P Require Import Prelude.
Import ListNotations.
Open Scope Z_scope.
Open Scope vtc_scope.

Record date := mkDate { year : Z; month : Z; day : Z }.
Record time := mkTime { hour : Z; minute : Z; second : Z; microsecond : Z }.
Record datetime := mkDatetime { dt_date : date; dt_time : time }.

(** ** Calendar (CPython's [_is_leap], [_days_in_month], [_ymd2ord]) *)

Definition MINYEAR : Z := 1.
Definition MAXYEAR : Z := 9999.

Definition is_leap (y : Z) : bool :=
  (y mod 4 =? 0) && (negb (y mod 100 =? 0) || (y mod 400 =? 0)).

Definition DAYS_IN_MONTH : list Z := [-1; 31; 28; 31; 30; 31; 30; 31; 31; 30; 31; 30; 31].
Definition DAYS_BEFORE_MONTH : list Z := [-1; 0; 31; 59; 90; 120; 151; 181; 212; 243; 273; 304; 334].

Definition days_in_month (y m : Z) : Z :=
  if (m =? 2) && is_leap y then 29 else nth (Z.to_nat m) DAYS_IN_MONTH 0.

Definition days_before_year (y : Z) : Z :=
  let y' := y - 1 in y' * 365 + y' / 4 - y' / 100 + y' / 400.

Definition days_before_month (y m : Z) : Z :=
  nth (Z.to_nat m) DAYS_BEFORE_MONTH 0 + (if (m >? 2) && is_leap y then 1 else 0).

(** [date.toordinal]: day 1 is 0001-01-01. *)
Definition toordinal (d : date) : Z :=
  days_before_year (year d) + days_before_month (year d) (month d) + day d.

Definition DI400Y : Z := 146097.
Definition DI100Y : Z := 36524.
Definition DI4Y : Z := 1461.

(** [_ord2ymd], step by step as CPython writes it. *)
Definition ord2ymd (n0 : Z) : date :=
  let n := n0 - 1 in
  let n400 := n / DI400Y in let n := n mod DI400Y in
  let n100 := n / DI100Y in let n := n mod DI100Y in
  let n4 := n / DI4Y in let n := n mod DI4Y in
  let n1 := n / 365 in let n := n mod 365 in
  let y := n400 * 400 + 1 + (n100 * 100 + n4 * 4 + n1) in
  if (n1 =? 4) || (n100 =? 4) then mkDate (y - 1) 12 31
  else
    let leapyear := (n1 =? 3) && (negb (n4 =? 24) || (n100 =? 3)) in
    let m := Z.shiftr (n + 50) 5 in
    let preceding := nth (Z.to_nat m) DAYS_BEFORE_MONTH 0 + (if (m >? 2) && leapyear then 1 else 0) in
    if preceding >? n then
      let m := m - 1 in
      let preceding := preceding - (nth (Z.to_nat m) DAYS_IN_MONTH 0 + (if (m =? 2) && leapyear then 1 else 0)) in
      mkDate y m (n - preceding + 1)
    else mkDate y m (n - preceding + 1).

(** The largest ordinal, [date.max.toordinal()]. *)
Definition MAXORDINAL : Z := 3652059.

(** [date.fromordinal]: [ValueError] outside [1, MAXORDINAL]. *)
Definition fromordinal (n : Z) : option date :=
  if (1 <=? n) && (n <=? MAXORDINAL) then Some (ord2ymd n) else None.

Definition date_valid (d : date) : bool :=
  (MINYEAR <=? year d) && (year d <=? MAXYEAR) && (1 <=? month d) && (month d <=? 12)
  && (1 <=? day d) && (day d <=? days_in_month (year d) (month d)).

Definition time_valid (t : time) : bool :=
  (0 <=? hour t) && (hour t <? 24) && (0 <=? minute t) && (minute t <? 60)
  && (0 <=? second t) && (second t <? 60) && (0 <=? microsecond t) && (microsecond t <? 1000000).

Definition dt_valid (dt : datetime) : bool := date_valid (dt_date dt) && time_valid (dt_time dt).

(** [datetime.combine(d, t)] and [dt.date()]. *)
Definition combine (d : date) (t : time) : datetime := mkDatetime d t.

(** ** Ordering: CPython compares the field tuples lexicographically *)

Definition lex (c : comparison) (k : comparison) : comparison :=
  match c with Eq => k | _ => c end.

Definition date_compare (a b : date) : comparison :=
  lex (year a ?= year b) (lex (month a ?= month b) (day a ?= day b)).

Definition time_compare (a b : time) : comparison :=
  lex (hour a ?= hour b) (lex (minute a ?= minute b)
    (lex (second a ?= second b) (microsecond a ?= microsecond b))).

Definition dt_compare (a b : datetime) : comparison :=
  lex (date_compare (dt_date a) (dt_date b)) (time_compare (dt_time a) (dt_time b)).

Definition cmp_le (c : comparison) : bool := match c with Gt => false | _ => true end.

(** [a <= b] and [a >= b] on dates and timestamps. *)
Definition date_le (a b : date) : bool := cmp_le (date_compare a b).
Definition dt_ge (a b : datetime) : bool := cmp_le (dt_compare b a).

(** [dt - timedelta(days=k)]: the time of day is kept, the date moves by
    [k] days; out of range it raises [OverflowError]. *)
Definition dt_sub_days (dt : datetime) (k : Z) : option datetime :=
  match fromordinal (toordinal (dt_date dt) - k) with
  | Some d => Some (mkDatetime d (dt_time dt))
  | None => None
  end.

(** ** [strftime] on the directives the script uses *)

Fixpoint strftime (fmt : string) (dt : datetime) : string :=
  match fmt with
  | EmptyString => EmptyString
  | String "%" (String c rest) =>
      let field :=
        match c with
        | "Y"%char => zpad 4 (year (dt_date dt))
        | "m"%char => zpad 2 (month (dt_date dt))
        | "d"%char => zpad 2 (day (dt_date dt))
        | "H"%char => zpad 2 (hour (dt_time dt))
        | "M"%char => zpad 2 (minute (dt_time dt))
        | "S"%char => zpad 2 (second (dt_time dt))
        | _ => String "%" (String c EmptyString)
        end in
      field ++ strftime rest dt
  | String c rest => String c (strftime rest dt)
  end.

(** ** [str(dt)] (= [dt.isoformat(" ")], SQLite's text) and its parser *)

Definition isoformat (dt : datetime) : string :=
  let d := dt_date dt in let t := dt_time dt in
  zpad 4 (year d) ++ "-" ++ zpad 2 (month d) ++ "-" ++ zpad 2 (day d) ++ " "
  ++ zpad 2 (hour t) ++ ":" ++ zpad 2 (minute t) ++ ":" ++ zpad 2 (second t)
  ++ (if microsecond t =? 0 then EmptyString else "." ++ zpad 6 (microsecond t)).

(** [pd.to_datetime] on text of that shape. *)
Definition to_datetime (s : string) : option datetime :=
  let? (y, s) := take_digits 4 s 0 in s <-? expect_char "-" s ;;
  let? (mo, s) := take_digits 2 s 0 in s <-? expect_char "-" s ;;
  let? (d, s) := take_digits 2 s 0 in s <-? expect_char " " s ;;
  let? (h, s) := take_digits 2 s 0 in s <-? expect_char ":" s ;;
  let? (mi, s) := take_digits 2 s 0 in s <-? expect_char ":" s ;;
  let? (sec, s) := take_digits 2 s 0 in
  let? (us, s) := (match s with
                   | EmptyString => Some (0, EmptyString)
                   | _ => s <-? expect_char "." s ;; take_digits 6 s 0
                   end) in
  match s with
  | EmptyString =>
      let dt := mkDatetime (mkDate y mo d) (mkTime h mi sec us) in
      if dt_valid dt then Some dt else None
  | _ => None
  end.

(** ** Lemmas *)

Lemma days_in_month_bound (y m : Z) : 1 <= m <= 12 -> 28 <= days_in_month y m <= 31.
Proof.
  intros Hm. unfold days_in_month.
  destruct ((m =? 2) && is_leap y); [lia|].
  assert (m = 1 \/ m = 2 \/ m = 3 \/ m = 4 \/ m = 5 \/ m = 6 \/ m = 7 \/ m = 8
          \/ m = 9 \/ m = 10 \/ m = 11 \/ m = 12) as Hc by lia.
  repeat destruct Hc as [-> | Hc]; try subst m; simpl; lia.
Qed.

(** The field ranges a valid timestamp has. *)
Lemma dt_valid_bounds (dt : datetime) :
  dt_valid dt = true ->
  1 <= year (dt_date dt) <= 9999 /\ 1 <= month (dt_date dt) <= 12
  /\ 1 <= day (dt_date dt) <= 31 /\ 0 <= hour (dt_time dt) < 24
  /\ 0 <= minute (dt_time dt) < 60 /\ 0 <= second (dt_time dt) < 60
  /\ 0 <= microsecond (dt_time dt) < 1000000.
Proof.
  unfold dt_valid, date_valid, time_valid, MINYEAR, MAXYEAR.
  rewrite !andb_true_iff, !Z.leb_le, !Z.ltb_lt. intros Hv.
  pose proof (days_in_month_bound (year (dt_date dt)) (month (dt_date dt))). lia.
Qed.

(** Reading back the text SQLite stores for a valid timestamp gives the
    timestamp: [pd.to_datetime(str(dt)) == dt]. *)
Lemma to_datetime_isoformat (dt : datetime) :
  dt_valid dt = true -> to_datetime (isoformat dt) = Some dt.
Proof.
  intros Hv. pose proof (dt_valid_bounds dt Hv) as B.
  destruct dt as [[y mo d] [h mi s us]]; cbn [dt_date dt_time year month day hour minute second microsecond] in *.
  unfold to_datetime, isoformat; cbn [dt_date dt_time year month day hour minute second microsecond].
  take_fields.
  destruct (us =? 0) eqn:Hus.
  - apply Z.eqb_eq in Hus. subst us. cbn [obind]. now rewrite Hv.
  - cbn [String.append obind expect_char Ascii.eqb Bool.eqb].
    take_fields. cbn [obind]. now rewrite Hv.
Qed.

Lemma lex_eq (c k : comparison) : lex c k = Eq <-> c = Eq /\ k = Eq.
Proof. destruct c; cbn; intuition congruence. Qed.

Lemma lex_opp (c k : comparison) : lex (CompOpp c) (CompOpp k) = CompOpp (lex c k).
Proof. destruct c; reflexivity. Qed.

Lemma date_compare_eq (a b : date) : date_compare a b = Eq <-> a = b.
Proof.
  destruct a as [ya ma da], b as [yb mb db]. unfold date_compare. cbn.
  rewrite !lex_eq, !Z.compare_eq_iff. split; [intros (-> & -> & ->) | intros [= -> -> ->]]; auto.
Qed.

Lemma date_compare_antisym (a b : date) : date_compare b a = CompOpp (date_compare a b).
Proof. unfold date_compare. rewrite <- !lex_opp, <- !Z.compare_antisym. reflexivity. Qed.

(** [date_le] is a total order on dates. *)
Lemma date_le_total (a b : date) : date_le a b = true \/ date_le b a = true.
Proof. unfold date_le. rewrite (date_compare_antisym a b). destruct (date_compare a b); auto. Qed.

Lemma date_le_refl (a : date) : date_le a a = true.
Proof. unfold date_le. now rewrite (proj2 (date_compare_eq a a) eq_refl). Qed.

Lemma lex_lt (c k : comparison) : lex c k = Lt <-> c = Lt \/ (c = Eq /\ k = Lt).
Proof. destruct c; cbn; intuition congruence. Qed.

Lemma date_compare_lt (a b : date) :
  date_compare a b = Lt <->
  year a < year b \/ (year a = year b /\ (month a < month b \/ (month a = month b /\ day a < day b))).
Proof.
  unfold date_compare. rewrite !lex_lt, !Z.compare_lt_iff, !Z.compare_eq_iff. reflexivity.
Qed.

(** The strict order on dates. *)
Definition date_lt (a b : date) : Prop := date_compare a b = Lt.

Lemma date_lt_trans (a b c : date) : date_lt a b -> date_lt b c -> date_lt a c.
Proof. unfold date_lt. rewrite !date_compare_lt. lia. Qed.

Lemma date_lt_irrefl (a : date) : ~ date_lt a a.
Proof. unfold date_lt. rewrite date_compare_lt. lia. Qed.

Lemma date_compare_gt (a b : date) : date_compare a b = Gt <-> date_lt b a.
Proof.
  unfold date_lt. rewrite (date_compare_antisym b a).
  destruct (date_compare b a); cbn; intuition congruence.
Qed.

Lemma date_le_iff (a b : date) : date_le a b = true <-> date_lt a b \/ a = b.
Proof.
  unfold date_le, date_lt. rewrite <- date_compare_eq.
  destruct (date_compare a b); cbn; intuition congruence.
Qed.

(** [date_le] is transitive and [date_lt] is its strict part. *)
Lemma date_le_lt_trans (a b c : date) : date_le a b = true -> date_lt b c -> date_lt a c.
Proof. rewrite date_le_iff. intros [H| ->]; [apply date_lt_trans; exact H | auto]. Qed.

(** [pd.to_datetime] only returns valid timestamps. *)
Lemma to_datetime_valid (s : string) (dt : datetime) : to_datetime s = Some dt -> dt_valid dt = true.
Proof.
  unfold to_datetime, obind. intros H.
  repeat match type of H with
         | context [match ?x with _ => _ end] => destruct x eqn:?; try discriminate H
         end.
  injection H as <-. assumption.
Qed.
