(* ===== verification/Calendar.v ===== *)
(** The proleptic Gregorian calendar of [PyDatetime.v]: CPython's
    [_ord2ymd] ([date.fromordinal]) inverts [_ymd2ord] ([date.toordinal])
    on the ordinals [1..MAXORDINAL] and yields valid dates, so
    [dt - timedelta(days=k)] (the cutoff of the dashboard's period
    filter, app.py lines 296-299) lands exactly [k] days earlier.

    The proof follows [_ord2ymd]'s own decomposition of an ordinal into
    400-, 100-, 4- and 1-year blocks: [days_before_year] and [is_leap] of
    the year it computes have closed forms in the block counts (by
    [lia]), and the last step, from the day of the year to the month and
    day, is checked by evaluation on the 730 days of a common and a leap
    year. *)

From Stdlib Require Import ZArith List Lia Bool.
From S2P Require Import Prelude PyDatetime.
Open Scope Z_scope.

(** The month and day computation that ends [_ord2ymd], from the year
    [y], the day [n] of the year (from 0) and [leapyear]. *)
Definition ord2ymd_tail (y n : Z) (leapyear : bool) : date :=
  let m := Z.shiftr (n + 50) 5 in
  let preceding := nth (Z.to_nat m) DAYS_BEFORE_MONTH 0 + (if (m >? 2) && leapyear then 1 else 0) in
  if preceding >? n then
    let m := m - 1 in
    let preceding := preceding - (nth (Z.to_nat m) DAYS_IN_MONTH 0 + (if (m =? 2) && leapyear then 1 else 0)) in
    mkDate y m (n - preceding + 1)
  else mkDate y m (n - preceding + 1).

(** [f r] for every [r] in [z, z + k). *)
Fixpoint all_from (f : Z -> bool) (k : nat) (z : Z) : bool :=
  match k with
  | O => true
  | S k' => if f z then all_from f k' (z + 1) else false
  end.

(** A year of the given leapness: 4 is a leap year, 1 is not. *)
Definition year_of_leap (leap : bool) : Z := if leap then 4 else 1.

(** The day [r] of a year of leapness [leap] (other than December 31 of
    a leap year, which [_ord2ymd] handles before) is a valid month and
    day that [days_before_month] maps back to [r]. *)
Definition tail_ok (leap : bool) (r : Z) : bool :=
  let y := year_of_leap leap in
  let d := ord2ymd_tail y r leap in
  (1 <=? month d) && (month d <=? 12) && (1 <=? day d) && (day d <=? days_in_month y (month d))
  && (days_before_month y (month d) + day d =? r + 1).

Lemma all_from_spec f k : forall z, all_from f k z = true -> forall r, z <= r < z + Z.of_nat k -> f r = true.
Proof.
  induction k as [|k IH]; cbn [all_from]; intros z H r Hr; [lia|].
  destruct (f z) eqn:E; [|discriminate].
  destruct (Z.eq_dec r z) as [->|Hne]; [exact E|]. apply (IH (z + 1)); [exact H|lia].
Qed.

Lemma tail_checked (leap : bool) : all_from (tail_ok leap) 365 0 = true.
Proof. destruct leap; vm_compute; reflexivity. Qed.

Lemma tail_ok_all leap r : 0 <= r < 365 -> tail_ok leap r = true.
Proof. intros Hr. apply (all_from_spec _ _ _ (tail_checked leap)). cbn. lia. Qed.

Lemma ord2ymd_tail_year y n l :
  ord2ymd_tail y n l = mkDate y (month (ord2ymd_tail 0 n l)) (day (ord2ymd_tail 0 n l)).
Proof. unfold ord2ymd_tail. cbv zeta. destruct (_ >? n); reflexivity. Qed.

Lemma days_in_month_leap y y' m : is_leap y = is_leap y' -> days_in_month y m = days_in_month y' m.
Proof. unfold days_in_month. now intros ->. Qed.

Lemma days_before_month_leap y y' m :
  is_leap y = is_leap y' -> days_before_month y m = days_before_month y' m.
Proof. unfold days_before_month. now intros ->. Qed.

Lemma is_leap_year_of_leap l : is_leap (year_of_leap l) = l.
Proof. now destruct l. Qed.

(** The tail on any year of leapness [l]. *)
Lemma ord2ymd_tail_spec y n l :
  is_leap y = l -> 0 <= n < 365 ->
  let d := ord2ymd_tail y n l in
  year d = y /\ 1 <= month d <= 12 /\ 1 <= day d <= days_in_month y (month d)
  /\ days_before_month y (month d) + day d = n + 1.
Proof.
  intros Hl Hn. pose proof (tail_ok_all l n Hn) as H. unfold tail_ok in H.
  rewrite (ord2ymd_tail_year (year_of_leap l)) in H. rewrite ord2ymd_tail_year. cbn [year month day] in *.
  rewrite <- (days_in_month_leap y), <- (days_before_month_leap y) in H
    by now rewrite Hl, is_leap_year_of_leap.
  repeat rewrite Bool.andb_true_iff in H. rewrite !Z.leb_le, Z.eqb_eq in H. lia.
Qed.

(** ** Closed forms on the block decomposition *)

Lemma div_blocks x q k : 0 <= x < k -> (x + q * k) / k = q.
Proof. intros Hx. rewrite Z.div_add by lia. rewrite Z.div_small by lia. lia. Qed.

Lemma mod_blocks x q k : 0 <= x < k -> (x + q * k) mod k = x.
Proof. intros Hx. rewrite Z.mod_add by lia. apply Z.mod_small; lia. Qed.

Lemma mod_blocks_eq0 x q k : 0 < x <= k -> ((x + q * k) mod k =? 0) = (x =? k).
Proof.
  intros Hx. rewrite Z.mod_add by lia.
  destruct (Z.eqb_spec x k) as [->|Hne]; [now rewrite Z.mod_same by lia|].
  rewrite Z.mod_small by lia. apply Z.eqb_neq. lia.
Qed.

Section Blocks.
Variables a b c e : Z.
Hypothesis Ha : 0 <= a.
Hypothesis Hb : 0 <= b <= 3.
Hypothesis Hc : 0 <= c <= 24.
Hypothesis He : 0 <= e <= 3.

Lemma days_before_year_blocks :
  days_before_year (400 * a + 100 * b + 4 * c + e + 1) = 146097 * a + 36524 * b + 1461 * c + 365 * e.
Proof.
  unfold days_before_year.
  replace (400 * a + 100 * b + 4 * c + e + 1 - 1) with (e + (100 * a + 25 * b + c) * 4) by lia.
  rewrite (div_blocks e) by lia.
  replace (e + (100 * a + 25 * b + c) * 4) with ((4 * c + e) + (4 * a + b) * 100) by lia.
  rewrite (div_blocks (4 * c + e)) by lia.
  replace ((4 * c + e) + (4 * a + b) * 100) with ((100 * b + 4 * c + e) + a * 400) by lia.
  rewrite (div_blocks (100 * b + 4 * c + e)) by lia. lia.
Qed.

Lemma is_leap_blocks :
  is_leap (400 * a + 100 * b + 4 * c + e + 1) = (e =? 3) && (negb (c =? 24) || (b =? 3)).
Proof.
  unfold is_leap.
  replace (400 * a + 100 * b + 4 * c + e + 1) with ((e + 1) + (100 * a + 25 * b + c) * 4) by lia.
  rewrite mod_blocks_eq0 by lia.
  replace ((e + 1) + (100 * a + 25 * b + c) * 4) with ((4 * c + e + 1) + (4 * a + b) * 100) by lia.
  rewrite mod_blocks_eq0 by lia.
  replace ((4 * c + e + 1) + (4 * a + b) * 100) with ((100 * b + 4 * c + e + 1) + a * 400) by lia.
  rewrite mod_blocks_eq0 by lia.
  destruct (Z.eqb_spec e 3), (Z.eqb_spec c 24), (Z.eqb_spec b 3); cbn [negb andb orb];
  repeat match goal with |- context [?x =? ?y] => destruct (Z.eqb_spec x y) end; cbn [negb andb orb];
  first [reflexivity | exfalso; lia].
Qed.

End Blocks.

(** [_ord2ymd] on its block decomposition: [n - 1] is [a] 400-year
    cycles, [b] centuries, [c] 4-year blocks, [e] years and [r] days. *)
Lemma ord2ymd_blocks n :
  1 <= n ->
  exists a b c e r,
    0 <= a /\ 0 <= b <= 4 /\ 0 <= c <= 24 /\ 0 <= e <= 4 /\ 0 <= r < 365
    /\ n - 1 = 146097 * a + 36524 * b + 1461 * c + 365 * e + r
    /\ (b = 4 -> c = 0 /\ e = 0 /\ r = 0) /\ (e = 4 -> r = 0 /\ c <= 23)
    /\ ord2ymd n = if (e =? 4) || (b =? 4) then mkDate (400 * a + 100 * b + 4 * c + e) 12 31
                   else ord2ymd_tail (400 * a + 100 * b + 4 * c + e + 1) r
                          ((e =? 3) && (negb (c =? 24) || (b =? 3))).
Proof.
  intros Hn.
  pose proof (Z.div_mod (n - 1) DI400Y ltac:(discriminate)) as E1.
  pose proof (Z.mod_pos_bound (n - 1) DI400Y ltac:(reflexivity)) as B1.
  set (r1 := (n - 1) mod DI400Y) in *.
  pose proof (Z.div_mod r1 DI100Y ltac:(discriminate)) as E2.
  pose proof (Z.mod_pos_bound r1 DI100Y ltac:(reflexivity)) as B2.
  set (r2 := r1 mod DI100Y) in *.
  pose proof (Z.div_mod r2 DI4Y ltac:(discriminate)) as E3.
  pose proof (Z.mod_pos_bound r2 DI4Y ltac:(reflexivity)) as B3.
  set (r3 := r2 mod DI4Y) in *.
  pose proof (Z.div_mod r3 365 ltac:(discriminate)) as E4.
  pose proof (Z.mod_pos_bound r3 365 ltac:(reflexivity)) as B4.
  assert (0 <= (n - 1) / DI400Y) by (apply Z.div_pos; [lia|reflexivity]).
  assert (0 <= r1 / DI100Y) by (apply Z.div_pos; [lia|reflexivity]).
  assert (0 <= r2 / DI4Y) by (apply Z.div_pos; [lia|reflexivity]).
  assert (0 <= r3 / 365) by (apply Z.div_pos; [lia|reflexivity]).
  exists ((n - 1) / DI400Y), (r1 / DI100Y), (r2 / DI4Y), (r3 / 365), (r3 mod 365).
  unfold DI400Y, DI100Y, DI4Y in *.
  split; [lia|]. split; [lia|]. split; [lia|]. split; [lia|]. split; [lia|].
  split; [lia|]. split; [lia|]. split; [lia|].
  subst r1 r2 r3. unfold ord2ymd, DI400Y, DI100Y, DI4Y; cbv zeta.
  match goal with |- context [mkDate (?y - 1) 12 31] => replace y with
    (400 * ((n - 1) / 146097) + 100 * ((n - 1) mod 146097 / 36524)
     + 4 * ((n - 1) mod 146097 mod 36524 / 1461) + (n - 1) mod 146097 mod 36524 mod 1461 / 365 + 1) by lia
  end.
  destruct (_ || _); [f_equal; lia | reflexivity].
Qed.

Lemma date_valid_iff d :
  date_valid d = true <->
  MINYEAR <= year d <= MAXYEAR /\ 1 <= month d <= 12 /\ 1 <= day d <= days_in_month (year d) (month d).
Proof. unfold date_valid. rewrite !Bool.andb_true_iff, !Z.leb_le. tauto. Qed.

(** December 31, the date of [_ord2ymd]'s two special cases. *)
Lemma dec31 y :
  toordinal (mkDate y 12 31) = days_before_year y + 365 + (if is_leap y then 1 else 0)
  /\ days_in_month y 12 = 31.
Proof.
  unfold toordinal, days_before_month, days_in_month. cbn [year month day].
  change (nth (Z.to_nat 12) DAYS_BEFORE_MONTH 0) with 334.
  change (nth (Z.to_nat 12) DAYS_IN_MONTH 0) with 31.
  change (12 >? 2) with true. change (12 =? 2) with false. cbn [andb].
  split; [lia | reflexivity].
Qed.

(** [_ord2ymd] on [1..MAXORDINAL]: a valid date with that ordinal. *)
Lemma ord2ymd_spec n :
  1 <= n <= MAXORDINAL -> date_valid (ord2ymd n) = true /\ toordinal (ord2ymd n) = n.
Proof.
  intros Hn. unfold MAXORDINAL in Hn.
  destruct (ord2ymd_blocks n ltac:(lia))
    as (a & b & c & e & r & Ha & Hb & Hc & He & Hr & En & H4b & H4e & ->).
  rewrite date_valid_iff. unfold MINYEAR, MAXYEAR.
  destruct (Z.eqb_spec e 4) as [E4|N4]; [|destruct (Z.eqb_spec b 4) as [B4|NB4]];
    cbn [orb year month day].
  - destruct (H4e E4) as [-> Hc']. subst e.
    assert (b <= 3) by (destruct (Z.eq_dec b 4) as [B|]; [destruct (H4b B); lia | lia]).
    replace (400 * a + 100 * b + 4 * c + 4) with (400 * a + 100 * b + 4 * c + 3 + 1) by lia.
    destruct (dec31 (400 * a + 100 * b + 4 * c + 3 + 1)) as [-> ->].
    rewrite days_before_year_blocks, is_leap_blocks by lia.
    replace (c =? 24) with false by (symmetry; apply Z.eqb_neq; lia).
    rewrite !Z.eqb_refl. cbn [andb orb negb]. lia.
  - destruct (H4b B4) as (-> & -> & ->). subst b.
    replace (400 * a + 100 * 4 + 4 * 0 + 0) with (400 * a + 100 * 3 + 4 * 24 + 3 + 1) by lia.
    destruct (dec31 (400 * a + 100 * 3 + 4 * 24 + 3 + 1)) as [-> ->].
    rewrite days_before_year_blocks, is_leap_blocks by lia. rewrite !Z.eqb_refl. cbn [andb orb negb]. lia.
  - rewrite <- is_leap_blocks with (a := a) by lia.
    destruct (ord2ymd_tail_spec (400 * a + 100 * b + 4 * c + e + 1) r _ eq_refl Hr)
      as (Hy & Hm & Hd & Hs).
    unfold toordinal. rewrite Hy, days_before_year_blocks by lia. lia.
Qed.

(** ** The way back: [_ord2ymd] after [_ymd2ord] *)

Lemma div_eq k a1 r1 a2 r2 :
  0 <= r1 < k -> 0 <= r2 < k -> k * a1 + r1 = k * a2 + r2 -> a1 = a2 /\ r1 = r2.
Proof.
  intros B1 B2 E.
  assert (a1 = a2) as ->.
  { rewrite (Z.div_unique_pos (k * a1 + r1) k a1 r1 B1 eq_refl),
            (Z.div_unique_pos (k * a2 + r2) k a2 r2 B2 eq_refl), E. reflexivity. }
  split; [reflexivity | lia].
Qed.

(** Two block decompositions whose partial sums stay below the next
    block size are equal. *)
Lemma blocks_eq a b c e r a' b' c' e' r' :
  0 <= r < 365 -> 0 <= r' < 365 ->
  0 <= 365 * e + r < 1461 -> 0 <= 365 * e' + r' < 1461 ->
  0 <= 1461 * c + 365 * e + r < 36524 -> 0 <= 1461 * c' + 365 * e' + r' < 36524 ->
  0 <= 36524 * b + 1461 * c + 365 * e + r < 146097 -> 0 <= 36524 * b' + 1461 * c' + 365 * e' + r' < 146097 ->
  146097 * a + 36524 * b + 1461 * c + 365 * e + r = 146097 * a' + 36524 * b' + 1461 * c' + 365 * e' + r' ->
  a = a' /\ b = b' /\ c = c' /\ e = e' /\ r = r'.
Proof.
  intros B0 B0' B1 B1' B2 B2' B3 B3' E.
  destruct (div_eq 146097 a _ a' _ B3 B3' ltac:(lia)) as [-> E3].
  destruct (div_eq 36524 b _ b' _ B2 B2' ltac:(lia)) as [-> E2].
  destruct (div_eq 1461 c _ c' _ B1 B1' ltac:(lia)) as [-> E1].
  destruct (div_eq 365 e _ e' _ B0 B0' ltac:(lia)) as [-> ->]. auto.
Qed.

Lemma divmod_split x k : 0 < k -> exists q r, x = k * q + r /\ 0 <= r < k.
Proof.
  intros Hk. exists (x / k), (x mod k).
  split; [apply Z.div_mod; lia | apply Z.mod_pos_bound; lia].
Qed.

(** A month and day of a year of leapness [leap]: its day of the year
    [q] (from 0) is in the year, is 365 only on December 31, and
    otherwise the tail of [_ord2ymd] maps it back. *)
Definition month_day_ok (leap : bool) (m dd : Z) : bool :=
  let y := year_of_leap leap in
  negb ((1 <=? dd) && (dd <=? days_in_month y m))
  || (let q := days_before_month y m + dd - 1 in
      (0 <=? q) && (q <? 365 + (if leap then 1 else 0))
      && (if q =? 365 then (m =? 12) && (dd =? 31)
          else (month (ord2ymd_tail 0 q leap) =? m) && (day (ord2ymd_tail 0 q leap) =? dd))).

Lemma month_day_checked (leap : bool) :
  all_from (fun m => all_from (month_day_ok leap m) 31 1) 12 1 = true.
Proof. destruct leap; vm_compute; reflexivity. Qed.

Lemma month_day_spec y m dd :
  1 <= m <= 12 -> 1 <= dd <= days_in_month y m ->
  let q := days_before_month y m + dd - 1 in
  0 <= q < 365 + (if is_leap y then 1 else 0)
  /\ (q = 365 -> m = 12 /\ dd = 31)
  /\ (q <> 365 -> ord2ymd_tail y q (is_leap y) = mkDate y m dd).
Proof.
  intros Hm Hd q. pose proof (days_in_month_bound y m Hm) as Hb.
  pose proof (all_from_spec _ _ _ (month_day_checked (is_leap y)) m ltac:(cbn; lia)) as Hc.
  pose proof (all_from_spec _ _ _ Hc dd ltac:(cbn; lia)) as H'. unfold month_day_ok in H'.
  rewrite <- (days_in_month_leap y), <- (days_before_month_leap y) in H'
    by now rewrite is_leap_year_of_leap.
  fold q in H'. rewrite ord2ymd_tail_year.
  replace ((1 <=? dd) && (dd <=? days_in_month y m)) with true in H'
    by (symmetry; rewrite Bool.andb_true_iff, !Z.leb_le; lia).
  cbn [negb orb] in H'. rewrite !Bool.andb_true_iff, Z.leb_le, Z.ltb_lt in H'.
  destruct H' as [[Hq1 Hq2] H'].
  destruct (Z.eqb_spec q 365) as [E|N].
  - rewrite !Bool.andb_true_iff, !Z.eqb_eq in H'. split; [lia | split; [intros; exact H' | intros []; exact E]].
  - rewrite !Bool.andb_true_iff, !Z.eqb_eq in H'. destruct H' as [-> ->].
    split; [lia | split; [intros; contradiction | reflexivity]].
Qed.

(** A year [y >= 1] as [400 a + 100 b + 4 c + e + 1]. *)
Lemma year_blocks y :
  1 <= y ->
  exists a b c e, 0 <= a /\ 0 <= b <= 3 /\ 0 <= c <= 24 /\ 0 <= e <= 3 /\ y = 400 * a + 100 * b + 4 * c + e + 1.
Proof.
  intros Hy.
  destruct (divmod_split (y - 1) 400) as (a & r1 & E1 & B1); [lia|].
  destruct (divmod_split r1 100) as (b & r2 & E2 & B2); [lia|].
  destruct (divmod_split r2 4) as (c & e & E3 & B3); [lia|].
  exists a, b, c, e. lia.
Qed.

(** [_ymd2ord] of a valid date is in [1..MAXORDINAL], and [_ord2ymd]
    gives the date back. *)
Lemma ord2ymd_toordinal d :
  date_valid d = true -> 1 <= toordinal d <= MAXORDINAL /\ ord2ymd (toordinal d) = d.
Proof.
  destruct d as [y m dd]. rewrite date_valid_iff. cbn [year month day]. intros (Hy & Hm & Hd).
  unfold MINYEAR, MAXYEAR in Hy. unfold MAXORDINAL.
  destruct (year_blocks y ltac:(lia)) as (a & b & c & e & Ha & Hb & Hc & He & Ey).
  assert (a <= 24) by lia.
  assert (El : is_leap y = (e =? 3) && (negb (c =? 24) || (b =? 3))) by (rewrite Ey; apply is_leap_blocks; lia).
  destruct (month_day_spec y m dd Hm Hd) as (Hq & H365 & Htail).
  set (q := days_before_month y m + dd - 1) in *.
  assert (Eo : toordinal (mkDate y m dd) = 146097 * a + 36524 * b + 1461 * c + 365 * e + q + 1).
  { unfold toordinal, q; cbn [year month day]. rewrite Ey at 1. rewrite days_before_year_blocks by lia. lia. }
  rewrite Eo.
  destruct (ord2ymd_blocks (146097 * a + 36524 * b + 1461 * c + 365 * e + q + 1) ltac:(lia))
    as (a' & b' & c' & e' & r' & Ha' & Hb' & Hc' & He' & Hr' & En & H4b & H4e & ->).
  assert (0 <= 365 * e' + r' < 1461 /\ 0 <= 1461 * c' + 365 * e' + r' < 36524
          /\ 0 <= 36524 * b' + 1461 * c' + 365 * e' + r' < 146097) as (T1 & T2 & T3) by lia.
  assert (Hq' : 0 <= q <= 365) by (destruct (is_leap y); lia).
  destruct (Z.eq_dec q 365) as [Q|Q].
  - destruct (H365 Q) as [-> ->]. rewrite El in Hq.
    destruct (Z.eqb_spec e 3) as [->|]; [|cbn in Hq; lia].
    destruct (Z.eqb_spec c 24) as [->|Nc]; cbn [negb orb] in Hq.
    + destruct (Z.eqb_spec b 3) as [->|]; [|cbn in Hq; lia].
      destruct (blocks_eq a 4 0 0 0 a' b' c' e' r' ltac:(lia) Hr' ltac:(lia) T1 ltac:(lia) T2 ltac:(lia) T3
                  ltac:(lia)) as (<- & <- & <- & <- & <-).
      split; [lia|]. rewrite Ey, Z.eqb_refl, Bool.orb_true_r. f_equal; lia.
    + destruct (blocks_eq a b c 4 0 a' b' c' e' r' ltac:(lia) Hr' ltac:(lia) T1 ltac:(lia) T2 ltac:(lia) T3
                  ltac:(lia)) as (<- & <- & <- & <- & <-).
      split; [lia|]. rewrite Ey, Z.eqb_refl. cbn [orb]. f_equal; lia.
  - destruct (blocks_eq a b c e q a' b' c' e' r' ltac:(lia) Hr' ltac:(lia) T1 ltac:(lia) T2 ltac:(lia) T3
                ltac:(lia)) as (<- & <- & <- & <- & <-).
    split; [lia|].
    replace (e =? 4) with false by (symmetry; apply Z.eqb_neq; lia).
    replace (b =? 4) with false by (symmetry; apply Z.eqb_neq; lia).
    cbn [orb]. rewrite <- Ey, <- El. exact (Htail Q).
Qed.

(** ** Ordinals and the order of dates *)

(** Year [y] has 365 days, 366 in a leap year. *)
Lemma days_before_year_succ y :
  1 <= y -> days_before_year (y + 1) = days_before_year y + 365 + (if is_leap y then 1 else 0).
Proof.
  intros Hy. destruct (year_blocks y Hy) as (a & b & c & e & Ha & Hb & Hc & He & ->).
  rewrite is_leap_blocks, days_before_year_blocks by lia.
  destruct (Z.eqb_spec e 3) as [->|Ne]; cbn [andb].
  - destruct (Z.eqb_spec c 24) as [->|Nc]; cbn [negb orb].
    + destruct (Z.eqb_spec b 3) as [->|Nb].
      * replace (400 * a + 100 * 3 + 4 * 24 + 3 + 1 + 1) with (400 * (a + 1) + 100 * 0 + 4 * 0 + 0 + 1) by lia.
        rewrite days_before_year_blocks by lia. lia.
      * replace (400 * a + 100 * b + 4 * 24 + 3 + 1 + 1) with (400 * a + 100 * (b + 1) + 4 * 0 + 0 + 1) by lia.
        rewrite days_before_year_blocks by lia. lia.
    + replace (400 * a + 100 * b + 4 * c + 3 + 1 + 1) with (400 * a + 100 * b + 4 * (c + 1) + 0 + 1) by lia.
      rewrite days_before_year_blocks by lia. lia.
  - replace (400 * a + 100 * b + 4 * c + e + 1 + 1) with (400 * a + 100 * b + 4 * c + (e + 1) + 1) by lia.
    rewrite days_before_year_blocks by lia. lia.
Qed.

Lemma days_before_year_le y y' : 1 <= y <= y' -> days_before_year y + 365 * (y' - y) <= days_before_year y'.
Proof.
  intros [Hy Hy']. remember (Z.to_nat (y' - y)) as k.
  assert (y' = y + Z.of_nat k) as -> by lia. clear Heqk Hy'.
  induction k as [|k IH]; [cbn [Z.of_nat]; rewrite Z.add_0_r; lia|].
  rewrite Nat2Z.inj_succ, Z.add_succ_r, <- Z.add_1_r, days_before_year_succ by lia.
  destruct (is_leap _); lia.
Qed.

(** Month [m] ends before month [m'] starts, in a year of leapness [leap]. *)
Definition months_ok (leap : bool) (m m' : Z) : bool :=
  let y := year_of_leap leap in
  (m' <=? m) || (days_before_month y m + days_in_month y m <=? days_before_month y m').

Lemma months_checked (leap : bool) : all_from (fun m => all_from (months_ok leap m) 12 1) 12 1 = true.
Proof. destruct leap; vm_compute; reflexivity. Qed.

Lemma months_spec y m m' :
  1 <= m < m' -> m' <= 12 -> days_before_month y m + days_in_month y m <= days_before_month y m'.
Proof.
  intros Hm Hm'.
  pose proof (all_from_spec _ _ _ (months_checked (is_leap y)) m ltac:(cbn; lia)) as Hc.
  pose proof (all_from_spec _ _ _ Hc m' ltac:(cbn; lia)) as H. unfold months_ok in H.
  rewrite <- (days_before_month_leap y _ m), <- (days_before_month_leap y _ m'),
    <- (days_in_month_leap y) in H by now rewrite is_leap_year_of_leap.
  apply Bool.orb_true_iff in H as [H|H]; apply Z.leb_le in H; lia.
Qed.

Lemma toordinal_lt a b :
  date_valid a = true -> date_valid b = true -> date_lt a b -> toordinal a < toordinal b.
Proof.
  destruct a as [ya ma da], b as [yb mb db]. rewrite !date_valid_iff. unfold date_lt.
  rewrite date_compare_lt. unfold toordinal. cbn [year month day]. unfold MINYEAR, MAXYEAR.
  intros (Hya & Hma & Hda) (Hyb & Hmb & Hdb) Hlt.
  destruct (month_day_spec ya ma da Hma Hda) as (Qa & _ & _).
  destruct (month_day_spec yb mb db Hmb Hdb) as (Qb & _ & _).
  destruct Hlt as [Hy | [<- [Hm | [<- Hd]]]].
  - pose proof (days_before_year_succ ya ltac:(lia)).
    pose proof (days_before_year_le (ya + 1) yb ltac:(lia)).
    destruct (is_leap ya), (is_leap yb); lia.
  - pose proof (months_spec ya ma mb ltac:(lia) ltac:(lia)). lia.
  - lia.
Qed.

(** On valid dates, CPython's comparison of dates (lexicographic on
    year, month, day) is the comparison of their ordinals. *)
Lemma date_compare_toordinal (a b : date) :
  date_valid a = true -> date_valid b = true -> date_compare a b = (toordinal a ?= toordinal b).
Proof.
  intros Ha Hb. destruct (date_compare a b) eqn:E.
  - apply date_compare_eq in E as ->. symmetry. apply Z.compare_refl.
  - symmetry. apply Z.compare_lt_iff. exact (toordinal_lt a b Ha Hb E).
  - apply date_compare_gt in E. symmetry. apply Z.compare_gt_iff. exact (toordinal_lt b a Hb Ha E).
Qed.

(** [dt - timedelta(days=k)] when the result is in range. *)
Lemma dt_sub_days_ok (dt : datetime) (k : Z) :
  1 <= toordinal (dt_date dt) - k <= MAXORDINAL ->
  dt_sub_days dt k = Some (mkDatetime (ord2ymd (toordinal (dt_date dt) - k)) (dt_time dt)).
Proof.
  intros Hb. unfold dt_sub_days, fromordinal.
  replace ((1 <=? toordinal (dt_date dt) - k) && (toordinal (dt_date dt) - k <=? MAXORDINAL)) with true
    by (symmetry; rewrite Bool.andb_true_iff, !Z.leb_le; lia).
  reflexivity.
Qed.


