(* ===== verification/Money.v ===== *)
(** Amounts of money: the VAT and total of the creation flow (app.py lines
    193-194) and the two-decimal formatting [f"{x:.2f}"] with which the PDF
    (lines 111-113) and the history view (line 265) print them.  Floats are
    modelled as exact rationals; [:.2f] rounds the exact value half to even,
    as CPython's correctly rounded formatting does.  [lire_cellule] reads a
    printed cell back; the lemmas bound what it reads by half a unit of
    the last decimal, for the PDF table and the history table alike. *)

From Stdlib Require Import ZArith QArith Qround Qabs String Ascii List Lia Lqa Bool.
From Stdlib Require Import DecimalString DecimalN.
From S2P Require Import Prelude.
Open Scope vtc_scope.
Open Scope Q_scope.

Module Fare.
(** [tva = tarif_base * 0.20] *)
Definition tva (tarif_base : Q) : Q := tarif_base * (20 # 100).
(** [montant_total = tarif_base + tva] *)
Definition montant_total (tarif_base tva : Q) : Q := tarif_base + tva.
End Fare.

(** ** [format(x, ".2f")] *)

(** Round to the nearest integer, ties to even. *)
Definition round_half_even (x : Q) : Z :=
  let f := Qfloor x in
  match Qcompare (x - inject_Z f) (1 # 2) with
  | Lt => f
  | Gt => (f + 1)%Z
  | Eq => if Z.even f then f else (f + 1)%Z
  end.

(** The number of hundredths printed for [x]. *)
Definition cents (x : Q) : Z := round_half_even (Qabs x * 100).

Definition format_2f (x : Q) : string :=
  let c := cents x in
  (if Qle_bool 0 x then EmptyString else "-") ++ str_N (Z.to_N (c / 100)) ++ "."
  ++ zpad 2 (c mod 100).

(** ** Reading a printed non-negative amount back (in hundredths) *)

Fixpoint split_dot (s : string) : string * string :=
  match s with
  | EmptyString => (EmptyString, EmptyString)
  | String c s' =>
      if Ascii.eqb c "." then (EmptyString, s)
      else let (a, b) := split_dot s' in (String c a, b)
  end.

Definition parse_2f (s : string) : option Z :=
  let (ip, rest) := split_dot s in
  u <-? NilEmpty.uint_of_string ip ;;
  rest <-? expect_char "." rest ;;
  let? (c, rest) := take_digits 2 rest 0 in
  match rest with
  | EmptyString => Some (Z.of_N (N.of_uint u) * 100 + c)%Z
  | _ => None
  end.

(** ** [repr] of a float in fixed notation ([str(x)] for [1e-4 <= |x| < 1e16]) *)

(** The fewest decimals, at least one, that write [x] exactly, if at most 17. *)
Definition decimals_needed (x : Q) : option nat :=
  List.find (fun k => (Qnum x * 10 ^ Z.of_nat k) mod Zpos (Qden x) =? 0)%Z (List.seq 1 17).

Definition py_float_repr (x : Q) : string :=
  let sign := if Qle_bool 0 x then EmptyString else "-"%string in
  let k := match decimals_needed x with Some k => k | None => 17%nat end in
  let n := Z.abs (round_half_even (x * inject_Z (10 ^ Z.of_nat k))) in
  sign ++ str_N (Z.to_N (n / 10 ^ Z.of_nat k)) ++ "." ++ zpad k (n mod 10 ^ Z.of_nat k).

(** ** [format(x, ".kf")] for any number [k] of decimals *)

(** The number of units of the last printed decimal. *)
Definition units (k : nat) (x : Q) : Z := round_half_even (Qabs x * inject_Z (10 ^ Z.of_nat k)).

(** [f"{x:.kf}"]: with no decimal point when [k] is [0]. *)
Definition format_fixed (k : nat) (x : Q) : string :=
  let c := units k x in
  (if Qle_bool 0 x then EmptyString else "-") ++ str_N (Z.to_N (c / 10 ^ Z.of_nat k))
  ++ match k with O => EmptyString | S _ => "." ++ zpad k (c mod 10 ^ Z.of_nat k) end.

(** Reading a printed non-negative number back, in units of its last
    decimal. *)
Definition parse_fixed (k : nat) (s : string) : option Z :=
  match k with
  | O => u <-? NilEmpty.uint_of_string s ;; Some (Z.of_N (N.of_uint u))
  | S _ =>
      let (ip, rest) := split_dot s in
      u <-? NilEmpty.uint_of_string ip ;;
      rest <-? expect_char "." rest ;;
      let? (c, rest) := take_digits k rest 0 in
      match rest with
      | EmptyString => Some (Z.of_N (N.of_uint u) * 10 ^ Z.of_nat k + c)%Z
      | _ => None
      end
  end.

(** Reading a printed cell back: the number before its unit, in units of
    its last decimal. *)
Definition lire_cellule (k : nat) (unite : string) (s : string) : option Z :=
  let n := (String.length s - String.length unite)%nat in
  if String.eqb (substring n (String.length unite) s) unite then parse_fixed k (substring 0 n s) else None.

(** ** Lemmas *)

Lemma Qfloor_unique (z : Z) (x : Q) :
  inject_Z z <= x -> x < inject_Z (z + 1) -> Qfloor x = z.
Proof.
  intros H1 H2. pose proof (Qfloor_le x) as F1. pose proof (Qlt_floor x) as F2.
  assert (inject_Z z < inject_Z (Qfloor x + 1)) as A by lra.
  assert (inject_Z (Qfloor x) < inject_Z (z + 1)) as B by lra.
  rewrite <- Zlt_Qlt in A, B. lia.
Qed.

#[export] Instance round_half_even_Proper : Proper (Qeq ==> eq) round_half_even.
Proof.
  intros x y Hxy. unfold round_half_even.
  rewrite (Qfloor_comp x y Hxy). now rewrite Hxy.
Qed.

(** Rounding moves a value by at most one half. *)
Lemma round_half_even_bound (x : Q) :
  inject_Z (round_half_even x) - (1 # 2) <= x <= inject_Z (round_half_even x) + (1 # 2).
Proof.
  unfold round_half_even. pose proof (Qfloor_le x) as F1. pose proof (Qlt_floor x) as F2.
  rewrite inject_Z_plus in F2. change (inject_Z 1) with 1 in F2.
  destruct (Qcompare_spec (x - inject_Z (Qfloor x)) (1 # 2)) as [E|E|E].
  - destruct (Z.even (Qfloor x)); rewrite ?inject_Z_plus; change (inject_Z 1) with 1; lra.
  - lra.
  - rewrite inject_Z_plus; change (inject_Z 1) with 1; lra.
Qed.

(** Adding an integer commutes with rounding away from ties. *)
Lemma round_half_even_add_int (k : Z) (x : Q) :
  ~ (x - inject_Z (Qfloor x) == 1 # 2) ->
  round_half_even (inject_Z k + x) = (k + round_half_even x)%Z.
Proof.
  intros Ht. unfold round_half_even.
  assert (Qfloor (inject_Z k + x) = (k + Qfloor x)%Z) as ->.
  { pose proof (Qfloor_le x). pose proof (Qlt_floor x).
    apply Qfloor_unique; rewrite !inject_Z_plus in *; lra. }
  assert (E : inject_Z k + x - inject_Z (k + Qfloor x) == x - inject_Z (Qfloor x))
    by (rewrite inject_Z_plus; ring).
  rewrite E.
  destruct (Qcompare_spec (x - inject_Z (Qfloor x)) (1 # 2)); [contradiction | lia | lia].
Qed.

Lemma round_half_even_int (k : Z) : round_half_even (inject_Z k) = k.
Proof.
  unfold round_half_even. rewrite Qfloor_Z.
  assert (E : inject_Z k - inject_Z k == 0) by ring. now rewrite E.
Qed.

Lemma units_nonneg_def (k : nat) (x : Q) :
  0 <= x -> units k x = round_half_even (x * inject_Z (10 ^ Z.of_nat k)).
Proof. intros H. unfold units. now rewrite Qabs_pos. Qed.

Lemma units_nonneg (k : nat) (x : Q) : 0 <= x -> (0 <= units k x)%Z.
Proof.
  intros H. rewrite units_nonneg_def by exact H.
  assert (Hp : 0 <= inject_Z (10 ^ Z.of_nat k))
    by (change 0 with (inject_Z 0); rewrite <- Zle_Qle; pose proof (pow10_pos k); lia).
  pose proof (round_half_even_bound (x * inject_Z (10 ^ Z.of_nat k))) as [_ B].
  assert (0 <= x * inject_Z (10 ^ Z.of_nat k)) by (apply Qmult_le_0_compat; assumption).
  destruct (Z.le_gt_cases 0 (round_half_even (x * inject_Z (10 ^ Z.of_nat k)))) as [|N]; [assumption|].
  assert (inject_Z (round_half_even (x * inject_Z (10 ^ Z.of_nat k))) <= inject_Z (-1))
    by (rewrite <- Zle_Qle; lia).
  change (inject_Z (-1)) with (-1) in *. exfalso. lra.
Qed.

(** Rounding to [k] decimals moves the value by at most half a unit of
    the last decimal. *)
Lemma units_bound (k : nat) (x : Q) :
  0 <= x ->
  inject_Z (units k x) - (1 # 2) <= x * inject_Z (10 ^ Z.of_nat k) <= inject_Z (units k x) + (1 # 2).
Proof. intros H. rewrite units_nonneg_def by exact H. apply round_half_even_bound. Qed.

Lemma split_dot_str_N (n : N) (r : string) :
  split_dot (str_N n ++ String "." r) = (str_N n, String "." r).
Proof.
  unfold str_N. induction (N.to_uint n); cbn; try rewrite IHu; reflexivity.
Qed.

Lemma parse_fixed_str_N (m : N) : parse_fixed 0 (str_N m) = Some (Z.of_N m).
Proof. cbn [parse_fixed]. unfold str_N. rewrite NilEmpty.usu. cbn [obind]. now rewrite DecimalN.Unsigned.of_to. Qed.

(** A printed non-negative number reads back as the units it shows. *)
Lemma parse_fixed_format (k : nat) (x : Q) : 0 <= x -> parse_fixed k (format_fixed k x) = Some (units k x).
Proof.
  intros Hx. pose proof (units_nonneg k x Hx) as Hc. pose proof (pow10_pos k) as Hp.
  unfold format_fixed. rewrite (proj2 (Qle_bool_iff 0 x) Hx). cbn [String.append].
  destruct k as [|k'].
  - rewrite string_app_nil_r, parse_fixed_str_N, Z2N.id by (apply Z.div_pos; cbn in *; lia).
    f_equal. apply Z.div_1_r.
  - cbn [parse_fixed]. rewrite split_dot_str_N. unfold str_N.
    rewrite NilEmpty.usu. cbn [obind]. rewrite expect_char_same. cbn [obind].
    rewrite take_digits_zpad_end by (apply Z.mod_pos_bound; lia).
    cbn [obind]. rewrite DecimalN.Unsigned.of_to. f_equal.
    rewrite Z2N.id by (apply Z.div_pos; lia). pose proof (Z.div_mod (units (S k') x) (10 ^ Z.of_nat (S k'))). lia.
Qed.

Lemma substring_app_l (a b : string) : substring 0 (String.length a) (a ++ b) = a.
Proof. induction a as [|c a IH]; cbn; [now destruct b | now rewrite IH]. Qed.

Lemma substring_app_r (a b : string) : substring (String.length a) (String.length b) (a ++ b) = b.
Proof.
  induction a as [|c a IH]; cbn; [|exact IH].
  rewrite <- (string_app_nil_r b) at 2. apply substring_app_l.
Qed.

Lemma lire_cellule_app (k : nat) (unite s : string) :
  lire_cellule k unite (s ++ unite) = parse_fixed k s.
Proof.
  unfold lire_cellule. rewrite string_length_app, Nat.add_sub.
  now rewrite substring_app_r, String.eqb_refl, substring_app_l.
Qed.

(** A cell printed with its unit reads back as the number printed. *)
Lemma lire_cellule_format (k : nat) (unite : string) (x : Q) :
  0 <= x -> lire_cellule k unite (format_fixed k x ++ unite) = Some (units k x).
Proof. intros Hx. rewrite lire_cellule_app. now apply parse_fixed_format. Qed.

(** [str(n)] of a non-negative integer reads back exactly. *)
Lemma lire_cellule_str_int (unite : string) (n : Z) :
  (0 <= n)%Z -> lire_cellule 0 unite (py_str_int n ++ unite) = Some n.
Proof.
  intros Hn. unfold py_str_int. rewrite (proj2 (Z.ltb_ge n 0) Hn).
  rewrite lire_cellule_app, parse_fixed_str_N. f_equal. now apply Z2N.id.
Qed.

(** ... and within half a unit of its last decimal of the number
    formatted. *)
Lemma lire_cellule_within (k : nat) (unite : string) (x : Q) :
  0 <= x ->
  exists c, lire_cellule k unite (format_fixed k x ++ unite) = Some c
    /\ Qabs (inject_Z c / inject_Z (10 ^ Z.of_nat k) - x) <= (1 # 2) / inject_Z (10 ^ Z.of_nat k).
Proof.
  intros Hx. exists (units k x). split; [now apply lire_cellule_format|].
  pose proof (units_bound k x Hx) as B. set (p := inject_Z (10 ^ Z.of_nat k)) in *.
  assert (Hp : 0 < p) by (unfold p; change 0 with (inject_Z 0); rewrite <- Zlt_Qlt; apply pow10_pos).
  assert (E : inject_Z (units k x) / p - x == (inject_Z (units k x) - x * p) * / p)
    by (field; intros H; rewrite H in Hp; discriminate).
  rewrite E, Qabs_Qmult, (Qabs_pos (/ p)) by (apply Qinv_le_0_compat; lra).
  apply Qmult_le_compat_r; [apply Qabs_Qle_condition; lra | apply Qinv_le_0_compat; lra].
Qed.

(** [:.2f] is the case [k = 2]. *)
Lemma format_2f_fixed (x : Q) : format_2f x = format_fixed 2 x.
Proof. reflexivity. Qed.

Lemma parse_2f_fixed (s : string) : parse_2f s = parse_fixed 2 s.
Proof. reflexivity. Qed.

Lemma cents_nonneg_def (x : Q) : 0 <= x -> cents x = round_half_even (x * 100).
Proof. exact (units_nonneg_def 2 x). Qed.

Lemma cents_nonneg (x : Q) : 0 <= x -> (0 <= cents x)%Z.
Proof. exact (units_nonneg 2 x). Qed.

(** A printed non-negative amount reads back as the hundredths it shows. *)
Lemma parse_2f_format (x : Q) : 0 <= x -> parse_2f (format_2f x) = Some (cents x).
Proof. rewrite format_2f_fixed, parse_2f_fixed. exact (parse_fixed_format 2 x). Qed.

Lemma Fare_tva_nonneg (b : Q) : 0 <= b -> 0 <= Fare.tva b.
Proof. unfold Fare.tva. intros. lra. Qed.

Lemma Fare_montant_total_eq (b : Q) : Fare.montant_total b (Fare.tva b) == b * (6 # 5).
Proof. unfold Fare.montant_total, Fare.tva. ring. Qed.

#[export] Hint Resolve Fare_tva_nonneg : vtc.

Lemma hundredths_nonneg (c : Z) : (0 <= c)%Z -> 0 <= inject_Z c / 100.
Proof.
  intros Hc. assert (0 <= inject_Z c) by (change 0 with (inject_Z 0); rewrite <- Zle_Qle; lia).
  unfold Qdiv. change (Qinv 100) with (1 # 100). lra.
Qed.

(** A fifth of an integer is never exactly halfway between two integers. *)
Lemma fifth_not_tie (c : Z) :
  ~ (inject_Z c / 5 - inject_Z (Qfloor (inject_Z c / 5)) == 1 # 2).
Proof.
  intros H. change (Qfloor (inject_Z c / 5)) with (Qfloor (inject_Z c / inject_Z 5)) in H.
  rewrite <- (Zdiv_Qdiv c 5) in H. unfold Qdiv in H. change (Qinv 5) with (1 # 5) in H.
  assert (E : inject_Z (2 * c) == inject_Z (10 * (c / 5) + 5)).
  { rewrite inject_Z_plus, !inject_Z_mult. change (inject_Z 2) with 2.
    change (inject_Z 10) with 10. change (inject_Z 5) with 5. lra. }
  rewrite inject_Z_injective in E. lia.
Qed.

(** C16. For a fare in whole cents, the fare, VAT and total printed on the
    invoice add up: the printed total is the sum of the printed fare and
    the printed VAT. *)
Theorem printed_amounts_add_up (c : Z) :
  (0 <= c)%Z ->
  exists p1 p2,
    parse_2f (format_2f (inject_Z c / 100)) = Some p1
    /\ parse_2f (format_2f (Fare.tva (inject_Z c / 100))) = Some p2
    /\ parse_2f (format_2f (Fare.montant_total (inject_Z c / 100) (Fare.tva (inject_Z c / 100))))
       = Some (p1 + p2)%Z.
Proof.
  intros Hc. set (b := inject_Z c / 100).
  assert (Hb : 0 <= b) by (now apply hundredths_nonneg).
  exists (cents b), (cents (Fare.tva b)).
  split; [now apply parse_2f_format|]. split; [auto using parse_2f_format with vtc|].
  rewrite parse_2f_format by (rewrite Fare_montant_total_eq; lra). f_equal.
  rewrite !cents_nonneg_def by (auto with vtc || (rewrite Fare_montant_total_eq; lra)).
  assert (E1 : Fare.tva b * 100 == inject_Z c / 5) by (unfold Fare.tva, b; field; discriminate).
  assert (E2 : Fare.montant_total b (Fare.tva b) * 100 == inject_Z c + inject_Z c / 5)
    by (rewrite Fare_montant_total_eq; unfold b; field; discriminate).
  rewrite E1, E2, round_half_even_add_int by apply fifth_not_tie.
  f_equal. assert (E3 : b * 100 == inject_Z c) by (unfold b; field; discriminate).
  rewrite E3. symmetry. apply round_half_even_int.
Qed.

Lemma printed_amounts_add_up_witness :
  exists p1 p2,
    parse_2f (format_2f (inject_Z 4999 / 100)) = Some p1
    /\ parse_2f (format_2f (Fare.tva (inject_Z 4999 / 100))) = Some p2
    /\ parse_2f (format_2f (Fare.montant_total (inject_Z 4999 / 100) (Fare.tva (inject_Z 4999 / 100))))
       = Some (p1 + p2)%Z.
Proof. apply printed_amounts_add_up. discriminate. Defined.
