(* ===== verification/Numbering.v ===== *)
(** The invoice number of the creation flow (app.py line 191):
    [f"VTC-{datetime_course.strftime('%Y%m%d')}-{datetime.now().strftime('%H%M%S')}"],
    its decoding, and what it does and does not distinguish. *)

From Stdlib Require Import ZArith String Ascii Lia Bool.
From S2P Require Import Prelude PyDatetime.
Open Scope Z_scope.
Open Scope vtc_scope.

(** The number from the trip's timestamp and the wall-clock instant. *)
Definition numero_facture (datetime_course now : datetime) : string :=
  "VTC-" ++ strftime "%Y%m%d" datetime_course ++ "-" ++ strftime "%H%M%S" now.

(** The six fields a number carries: trip year, month, day, and the hour,
    minute and second of creation. *)
Record numero_fields := mkFields
  { nf_year : Z; nf_month : Z; nf_day : Z; nf_hour : Z; nf_minute : Z; nf_second : Z }.

Definition fields_of (datetime_course now : datetime) : numero_fields :=
  mkFields (year (dt_date datetime_course)) (month (dt_date datetime_course))
           (day (dt_date datetime_course)) (hour (dt_time now))
           (minute (dt_time now)) (second (dt_time now)).

Definition parse_numero (s : string) : option numero_fields :=
  s <-? expect_char "V" s ;; s <-? expect_char "T" s ;; s <-? expect_char "C" s ;;
  s <-? expect_char "-" s ;;
  let? (y, s) := take_digits 4 s 0 in let? (mo, s) := take_digits 2 s 0 in
  let? (d, s) := take_digits 2 s 0 in s <-? expect_char "-" s ;;
  let? (h, s) := take_digits 2 s 0 in let? (mi, s) := take_digits 2 s 0 in
  let? (sec, s) := take_digits 2 s 0 in
  match s with
  | EmptyString => Some (mkFields y mo d h mi sec)
  | _ => None
  end.

(** ** Lemmas *)

Lemma numero_facture_length (dc now : datetime) : String.length (numero_facture dc now) = 19%nat.
Proof.
  unfold numero_facture. cbn [strftime String.append String.length].
  rewrite !string_length_app, !zpad_length. reflexivity.
Qed.

Lemma parse_numero_fields (dc now : datetime) :
  dt_valid dc = true -> dt_valid now = true ->
  parse_numero (numero_facture dc now) = Some (fields_of dc now).
Proof.
  intros H1 H2. pose proof (dt_valid_bounds dc H1). pose proof (dt_valid_bounds now H2).
  unfold numero_facture, parse_numero. cbn [strftime String.append].
  take_fields. reflexivity.
Qed.

(** C5. The invoice number decodes back to the trip's date and the hour,
    minute and second of creation. *)
Theorem parse_numero_facture (dc now : datetime) :
  dt_valid dc = true -> dt_valid now = true ->
  parse_numero (numero_facture dc now) = Some (fields_of dc now).
Proof. apply parse_numero_fields. Qed.

Lemma parse_numero_facture_witness :
  parse_numero (numero_facture (mkDatetime (mkDate 2024 3 15) (mkTime 9 30 0 0))
                               (mkDatetime (mkDate 2024 3 14) (mkTime 18 4 59 123)))
  = Some (mkFields 2024 3 15 18 4 59).
Proof.
  exact (parse_numero_facture (mkDatetime (mkDate 2024 3 15) (mkTime 9 30 0 0))
           (mkDatetime (mkDate 2024 3 14) (mkTime 18 4 59 123)) eq_refl eq_refl).
Defined.

(** C6. Two invoices get the same number exactly when their trips fall on
    the same day and they were created at the same hour, minute and second:
    the number is injective in these fields and in nothing else. *)
Theorem numero_facture_eq_iff (dc1 now1 dc2 now2 : datetime) :
  dt_valid dc1 = true -> dt_valid now1 = true -> dt_valid dc2 = true -> dt_valid now2 = true ->
  numero_facture dc1 now1 = numero_facture dc2 now2 <-> fields_of dc1 now1 = fields_of dc2 now2.
Proof.
  intros V1 V2 V3 V4. split.
  - intros E. apply (f_equal parse_numero) in E.
    rewrite !parse_numero_fields in E by assumption. congruence.
  - unfold numero_facture, fields_of. intros [= Ey Emo Ed Eh Emi Es].
    cbn [strftime]. now rewrite Ey, Emo, Ed, Eh, Emi, Es.
Qed.

Lemma numero_facture_eq_iff_witness :
  numero_facture (mkDatetime (mkDate 2024 3 15) (mkTime 9 0 0 0)) (mkDatetime (mkDate 2024 3 15) (mkTime 9 1 2 0))
  = numero_facture (mkDatetime (mkDate 2024 3 15) (mkTime 17 45 0 0)) (mkDatetime (mkDate 2024 4 2) (mkTime 9 1 2 999)).
Proof.
  apply (proj2 (numero_facture_eq_iff
    (mkDatetime (mkDate 2024 3 15) (mkTime 9 0 0 0)) (mkDatetime (mkDate 2024 3 15) (mkTime 9 1 2 0))
    (mkDatetime (mkDate 2024 3 15) (mkTime 17 45 0 0)) (mkDatetime (mkDate 2024 4 2) (mkTime 9 1 2 999))
    eq_refl eq_refl eq_refl eq_refl)).
  reflexivity.
Defined.
