(* ===== verification/Store.v ===== *)
(** The SQLite table [factures] (app.py lines 45-65 create it, line 222
    appends to it with [DataFrame.to_sql], lines 248 and 288 read it with
    [SELECT * FROM factures]).  A table is its rows in rowid order and the
    AUTOINCREMENT counter ([sqlite_sequence]); the [date_course] column
    holds the text SQLite's adapter writes for a [datetime]. *)

From Stdlib Require Import ZArith QArith String List Lia Sorted.
From S2P Require Import Prelude PyDatetime.
Import ListNotations.
Open Scope Z_scope.
Open Scope vtc_scope.

Module Store.

(** The [data] dictionary of the creation flow (lines 197-210). *)
Record facture_data := mkData {
  d_numero_facture : string;
  d_date_course : datetime;
  d_depart : string;
  d_arrivee : string;
  d_kilometrage : Q;
  d_duree : Z;
  d_tarif_base : Q;
  d_tva : Q;
  d_montant_total : Q;
  d_client_email : string;
  d_notes : string;
  d_statut : string }.

(** A row of [factures], column for column (lines 50-62). *)
Record row := mkRow {
  id : Z;
  numero_facture : string;
  date_course : string;
  depart : string;
  arrivee : string;
  kilometrage : Q;
  duree : Z;
  tarif_base : Q;
  montant_total : Q;
  tva : Q;
  client_email : string;
  statut : string;
  notes : string }.

Record table := mkTable { rows : list row; seq : Z }.

(** [CREATE TABLE IF NOT EXISTS factures (...)]: [None] is a database file
    without the table. *)
Definition init_db (db : option table) : table :=
  match db with
  | Some t => t
  | None => mkTable [] 0
  end.

Definition max_id (rs : list row) : Z := fold_right (fun r m => Z.max (id r) m) 0 rs.

(** The row [to_sql] inserts for [data]: the timestamp is stored as
    [str(datetime)], the other values as they are. *)
Definition row_of_data (i : Z) (d : facture_data) : row :=
  mkRow i (d_numero_facture d) (isoformat (d_date_course d)) (d_depart d) (d_arrivee d)
        (d_kilometrage d) (d_duree d) (d_tarif_base d) (d_montant_total d) (d_tva d)
        (d_client_email d) (d_statut d) (d_notes d).

(** [pd.DataFrame([data]).to_sql('factures', conn, if_exists='append')]:
    the id is AUTOINCREMENT's, one more than the largest ever used. *)
Definition to_sql (d : facture_data) (t : table) : table :=
  let i := Z.max (seq t) (max_id (rows t)) + 1 in
  mkTable (rows t ++ [row_of_data i d]) i.

(** [SELECT * FROM factures]: rowid order. *)
Definition select_all (t : table) : list row := rows t.

(** The table's invariant: ids positive, strictly increasing, at most the
    counter. *)
Definition table_wf (t : table) : Prop :=
  StronglySorted (fun r1 r2 => id r1 < id r2) (rows t)
  /\ Forall (fun r => 0 < id r <= seq t) (rows t) /\ 0 <= seq t.

End Store.

Module StoreFacts.
Import Store.

Lemma max_id_bound (rs : list row) : Forall (fun r => id r <= max_id rs) rs /\ 0 <= max_id rs.
Proof.
  induction rs as [|r rs [IH H0]]; simpl; [split; [constructor | lia]|].
  split; [|lia]. constructor; [lia|].
  eapply Forall_impl; [|exact IH]. intros a Ha; simpl in Ha; lia.
Qed.

Lemma max_id_le (rs : list row) (s : Z) :
  Forall (fun r => 0 < id r <= s) rs -> 0 <= s -> max_id rs <= s.
Proof. induction 1; simpl; lia. Qed.

(** Under the invariant the next id is the counter plus one. *)
Lemma next_id (t : table) : table_wf t -> Z.max (seq t) (max_id (rows t)) = seq t.
Proof. intros (_ & Hb & Hs). pose proof (max_id_le _ _ Hb Hs). lia. Qed.

(** Under the invariant, [to_sql] appends the row numbered one more than
    the counter and advances the counter to it. *)
Lemma to_sql_eq (d : facture_data) (t : table) :
  table_wf t -> to_sql d t = mkTable (rows t ++ [row_of_data (seq t + 1) d]) (seq t + 1).
Proof. intros Hwf. unfold to_sql. now rewrite next_id. Qed.

(** Appending a row whose id exceeds the counter and becomes the new
    counter keeps the invariant. *)
Lemma table_wf_snoc (t : table) (r : row) :
  table_wf t -> seq t < id r -> table_wf (mkTable (rows t ++ [r]) (id r)).
Proof.
  intros (Hsort & Hb & Hs) Hr. unfold table_wf; cbn [rows seq]. split; [|split].
  - apply StronglySorted_snoc; [exact Hsort|].
    eapply Forall_impl; [|exact Hb]. intros r' Hr'; cbn in *; lia.
  - apply Forall_app; split.
    + eapply Forall_impl; [|exact Hb]. intros r' Hr'; cbn in *; lia.
    + repeat constructor; lia.
  - lia.
Qed.

(** C4. Appending a record keeps ids positive, strictly increasing and
    bounded by the AUTOINCREMENT counter. *)
Theorem to_sql_wf (d : facture_data) (t : table) : table_wf t -> table_wf (to_sql d t).
Proof.
  intros Hwf. rewrite (to_sql_eq d t Hwf). apply (table_wf_snoc t (row_of_data (seq t + 1) d) Hwf).
  cbn. lia.
Qed.

(** C3. A full scan after an append returns the rows before it followed by
    the new row, whose id is fresh: one more than the counter, used by no
    earlier row. *)
Theorem select_all_to_sql (d : facture_data) (t : table) :
  table_wf t ->
  select_all (to_sql d t) = select_all t ++ [row_of_data (seq t + 1) d]
  /\ ~ In (seq t + 1) (map id (select_all t)).
Proof.
  intros Hwf. split; [now rewrite (to_sql_eq d t Hwf)|].
  destruct Hwf as (_ & Hb & _). unfold select_all. rewrite in_map_iff.
  intros (r & Hr & Hin). rewrite Forall_forall in Hb. specialize (Hb r Hin). lia.
Qed.

Lemma init_db_wf (db : option table) :
  match db with Some t => table_wf t | None => True end -> table_wf (init_db db).
Proof. destruct db; simpl; [auto|]. repeat constructor; simpl; lia. Qed.

(** The stored timestamp reads back as the trip's timestamp. *)
Lemma date_course_row_of_data (i : Z) (d : facture_data) :
  dt_valid (d_date_course d) = true -> to_datetime (date_course (row_of_data i d)) = Some (d_date_course d).
Proof. intros H. apply to_datetime_isoformat, H. Qed.

Definition exemple_data : facture_data :=
  mkData "VTC-20240315-081245" (mkDatetime (mkDate 2024 3 15) (mkTime 9 30 0 0)) "Gare de Lyon" "Orly"
         25 35 50 10 60 "client@example.com" "" "émise".

Lemma to_sql_wf_witness : table_wf (to_sql exemple_data (to_sql exemple_data (mkTable [] 0))).
Proof. apply to_sql_wf. apply to_sql_wf. split; [constructor | split; [constructor | cbn; lia]]. Defined.

Lemma select_all_to_sql_witness :
  select_all (to_sql exemple_data (mkTable [] 0)) = [row_of_data 1 exemple_data]
  /\ ~ In 1 (map id (select_all (mkTable [] 0))).
Proof.
  apply (select_all_to_sql exemple_data (mkTable [] 0)). split; [constructor | split; [constructor | cbn; lia]].
Defined.

End StoreFacts.
