(* ===== verification/StoreSpec.v ===== *)
(** What the invoice record store promises its clients (the history view,
    the dashboard and the creation flow): an append-only log whose
    appends number the records consecutively from a counter.  The
    interface is the class [AppendLog] with its laws [AppendLogLaws]; the
    section [Client] derives, from the laws alone, what a sequence of
    appends produces; the SQLite table of [Store.v] ([to_sql] and
    [SELECT *]) is an instance, so the derived theorems apply to it. *)

From Stdlib Require Import ZArith List Lia Sorted.
From S2P Require Import Prelude PyDatetime Store.
Import ListNotations.
Open Scope Z_scope.

Import Store.

(** The operations of a record store and its invariant. *)
Class AppendLog (T : Type) := {
  log_append : facture_data -> T -> T;
  log_rows : T -> list row;
  log_next : T -> Z;
  log_inv : T -> Prop }.

(** The laws: an append adds the row numbered [log_next] at the end,
    advances the counter by one and keeps the invariant, under which every
    stored id is below the counter. *)
Class AppendLogLaws (T : Type) `{AppendLog T} := {
  log_append_rows d s : log_inv s -> log_rows (log_append d s) = log_rows s ++ [row_of_data (log_next s) d];
  log_append_next d s : log_inv s -> log_next (log_append d s) = log_next s + 1;
  log_append_inv d s : log_inv s -> log_inv (log_append d s);
  log_fresh s : log_inv s -> Forall (fun r => id r < log_next s) (log_rows s) }.

(** Appending the records [ds] in order (one creation run each). *)
Definition log_append_all {T} `{AppendLog T} (ds : list facture_data) (s : T) : T :=
  fold_left (fun s d => log_append d s) ds s.

(** The rows the records [ds] become when numbered from [i]. *)
Fixpoint numbered (i : Z) (ds : list facture_data) : list row :=
  match ds with
  | [] => []
  | d :: ds' => row_of_data i d :: numbered (i + 1) ds'
  end.

Section Client.
Context {T : Type} `{AppendLogLaws T}.

Lemma log_append_all_spec (ds : list facture_data) (s : T) :
  log_inv s ->
  log_rows (log_append_all ds s) = log_rows s ++ numbered (log_next s) ds
  /\ log_next (log_append_all ds s) = log_next s + Z.of_nat (length ds)
  /\ log_inv (log_append_all ds s).
Proof.
  revert s. induction ds as [|d ds IH]; intros s Hs; cbn [log_append_all fold_left numbered length].
  - rewrite app_nil_r. split; [reflexivity | split; [lia | exact Hs]].
  - destruct (IH (log_append d s) (log_append_inv d s Hs)) as (Hr & Hn & Hi).
    unfold log_append_all in Hr, Hn, Hi. rewrite Hr, Hn, log_append_rows, log_append_next by exact Hs.
    rewrite <- app_assoc. split; [reflexivity | split; [lia | exact Hi]].
Qed.

Lemma numbered_ids (i : Z) (ds : list facture_data) :
  map id (numbered i ds) = map (fun k => i + Z.of_nat k) (List.seq 0 (length ds)).
Proof.
  revert i. induction ds as [|d ds IH]; intros i; cbn [numbered map length List.seq]; [reflexivity|].
  rewrite IH, Z.add_0_r. f_equal. rewrite <- seq_shift, map_map. apply map_ext. intros k. lia.
Qed.

Lemma numbered_sorted (i : Z) (ds : list facture_data) :
  StronglySorted (fun r1 r2 => id r1 < id r2) (numbered i ds) /\ Forall (fun r => i <= id r) (numbered i ds).
Proof.
  revert i. induction ds as [|d ds IH]; intros i; cbn [numbered]; [split; constructor|].
  destruct (IH (i + 1)) as [Hs Hb]. split.
  - constructor; [exact Hs|]. eapply Forall_impl; [|exact Hb]. intros r Hr. cbn in *. lia.
  - constructor; [cbn; lia|]. eapply Forall_impl; [|exact Hb]. intros r Hr. cbn in *. lia.
Qed.

(** The ids after a sequence of appends are the old ones followed by
    consecutive new ones, all above the old ones. *)
Lemma log_append_all_ids (ds : list facture_data) (s : T) :
  log_inv s ->
  StronglySorted (fun r1 r2 => id r1 < id r2) (log_rows s) ->
  StronglySorted (fun r1 r2 => id r1 < id r2) (log_rows (log_append_all ds s)).
Proof.
  intros Hs Hsort. destruct (log_append_all_spec ds s Hs) as (-> & _ & _).
  destruct (numbered_sorted (log_next s) ds) as [Hn Hb]. pose proof (log_fresh s Hs) as Hf.
  induction Hsort as [|r rs Hrs IH Hall]; cbn [app]; [exact Hn|].
  inversion Hf as [|? ? Hr Hf']; subst. constructor; [exact (IH Hf')|].
  apply Forall_app. split; [exact Hall|]. eapply Forall_impl; [|exact Hb]. intros r' Hr'. cbn in *. lia.
Qed.

End Client.

(** ** The SQLite table is a record store *)

#[export] Instance table_log : AppendLog table := {|
  log_append := to_sql;
  log_rows := select_all;
  log_next t := seq t + 1;
  log_inv := table_wf |}.

#[export] Instance table_log_laws : AppendLogLaws table.
Proof.
  constructor; cbn [log_append log_rows log_next log_inv table_log].
  - intros d t Hwf. unfold select_all. now rewrite (StoreFacts.to_sql_eq d t Hwf).
  - intros d t Hwf. now rewrite (StoreFacts.to_sql_eq d t Hwf).
  - intros d t Hwf. rewrite (StoreFacts.to_sql_eq d t Hwf). apply StoreFacts.table_wf_snoc; [exact Hwf|]. cbn. lia.
  - intros t (_ & Hb & _). eapply Forall_impl; [|exact Hb]. intros r Hr. cbn in *. lia.
Qed.

(** ** The table refines the append-only log *)

(** C25. On a table satisfying its invariant, a sequence of creations
    appends exactly the records, in order, numbered consecutively from
    one more than the AUTOINCREMENT counter; the counter advances by the
    number of records and the invariant holds after. *)
Theorem table_append_all (ds : list facture_data) (t : table) :
  table_wf t ->
  select_all (log_append_all ds t) = select_all t ++ numbered (seq t + 1) ds
  /\ seq (log_append_all ds t) = seq t + Z.of_nat (length ds)
  /\ table_wf (log_append_all ds t).
Proof.
  intros Hwf. destruct (@log_append_all_spec table table_log table_log_laws ds t Hwf) as (Hr & Hn & Hi).
  cbn [log_rows log_next log_inv table_log] in Hr, Hn, Hi.
  split; [exact Hr | split; [lia | exact Hi]].
Qed.

Lemma table_append_all_witness :
  table_wf (init_db None) /\
  select_all (log_append_all [StoreFacts.exemple_data; StoreFacts.exemple_data] (init_db None))
  = select_all (init_db None) ++ numbered (seq (init_db None) + 1) [StoreFacts.exemple_data; StoreFacts.exemple_data]
  /\ seq (log_append_all [StoreFacts.exemple_data; StoreFacts.exemple_data] (init_db None))
     = seq (init_db None) + Z.of_nat (length [StoreFacts.exemple_data; StoreFacts.exemple_data])
  /\ table_wf (log_append_all [StoreFacts.exemple_data; StoreFacts.exemple_data] (init_db None)).
Proof.
  assert (H : table_wf (init_db None)) by (apply (StoreFacts.init_db_wf None); exact I).
  split; [exact H | exact (table_append_all _ _ H)].
Defined.
