(* ===== verification/Stats.v ===== *)
(** The dashboard's data (app.py lines 287-301, 131-143, 347, 357): the
    frame read from the table with its [date_course] column parsed, the
    period filter, [calculer_statistiques] and the two daily series given
    to the charts.  [groupby] on [dt.date] is modelled as pandas does it:
    one group per distinct date, in ascending order of the dates. *)

From Stdlib Require Import ZArith QArith String List Lia Lqa Sorted Bool.
From S2P Require Import Prelude PyDatetime Calendar Store StoreSpec.
Import ListNotations.
Open Scope vtc_scope.

Module Stats.
Import Store.

(** A row of the frame after [df['date_course'] = pd.to_datetime(...)]. *)
Record frow := mkFrow { f_row : row; f_date : datetime }.

(** [pd.to_datetime(df['date_course'])]: [None] when a cell does not parse
    (pandas raises). *)
Fixpoint to_frame (rs : list row) : option (list frow) :=
  match rs with
  | [] => Some []
  | r :: rs' =>
      dt <-? to_datetime (date_course r) ;;
      fr <-? to_frame rs' ;;
      Some (mkFrow r dt :: fr)
  end.

Definition f_day (r : frow) : date := dt_date (f_date r).

(** The period filter (lines 296-301); any other choice keeps every row.
    [today - timedelta(days=k)] may raise [OverflowError] ([None]). *)
Definition filtre_periode (periode : string) (today : datetime) (df : list frow) : option (list frow) :=
  if String.eqb periode "7 derniers jours" then
    cutoff <-? dt_sub_days today 7 ;; Some (filter (fun r => dt_ge (f_date r) cutoff) df)
  else if String.eqb periode "30 derniers jours" then
    cutoff <-? dt_sub_days today 30 ;; Some (filter (fun r => dt_ge (f_date r) cutoff) df)
  else if String.eqb periode "Cette année" then
    Some (filter (fun r => year (f_day r) =? year (dt_date today))%Z df)
  else Some df.

(** ** [groupby(df['date_course'].dt.date)] *)

Definition date_eqb (a b : date) : bool :=
  match date_compare a b with Eq => true | _ => false end.

(** Insert a key into an ascending list of distinct keys. *)
Fixpoint insert_key (k : date) (ks : list date) : list date :=
  match ks with
  | [] => [k]
  | k' :: ks' =>
      match date_compare k k' with
      | Lt => k :: ks
      | Eq => ks
      | Gt => k' :: insert_key k ks'
      end
  end.

(** The group keys: the distinct dates, ascending. *)
Definition group_keys (df : list frow) : list date :=
  fold_right (fun r ks => insert_key (f_day r) ks) [] df.

Definition group (k : date) (df : list frow) : list frow :=
  filter (fun r => date_eqb (f_day r) k) df.

Definition groupby_date (df : list frow) : list (date * list frow) :=
  map (fun k => (k, group k df)) (group_keys df).

(** ** [calculer_statistiques] (lines 131-143) *)

Definition montant (r : frow) : Q := montant_total (f_row r).
Definition km (r : frow) : Q := kilometrage (f_row r).
Definition duree_q (r : frow) : Q := inject_Z (duree (f_row r)).

(** [Series.mean()] of a non-empty series. *)
Definition mean (l : list Q) : Q := sumQ l / inject_Z (Z.of_nat (length l)).

(** [groupby(...)['numero_facture'].count()]: the number of non-null
    invoice numbers of each group, that is its size. *)
Definition courses_par_jour (df : list frow) : list Q :=
  map (fun g => inject_Z (Z.of_nat (length (snd g)))) (groupby_date df).

Record stats := mkStats {
  total_courses : Z;
  ca_total : Q;
  km_total : Q;
  duree_moyenne : Q;
  ticket_moyen : Q;
  courses_jour : Q }.

(** [None] is the empty dictionary returned for an empty frame. *)
Definition calculer_statistiques (df : list frow) : option stats :=
  match df with
  | [] => None
  | _ => Some (mkStats (Z.of_nat (length df)) (sumQ (map montant df)) (sumQ (map km df))
                       (mean (map duree_q df)) (mean (map montant df))
                       (mean (courses_par_jour df)))
  end.

(** ** The two charts' data (lines 347 and 357) *)

Definition serie_ca (df : list frow) : list (date * Q) :=
  map (fun g => (fst g, sumQ (map montant (snd g)))) (groupby_date df).

Definition serie_courses (df : list frow) : list (date * Z) :=
  map (fun g => (fst g, Z.of_nat (length (snd g)))) (groupby_date df).

End Stats.

Module StatsFacts.
Import Store Stats.

Lemma date_eqb_iff (a b : date) : date_eqb a b = true <-> a = b.
Proof.
  unfold date_eqb. rewrite <- date_compare_eq. destruct (date_compare a b); intuition congruence.
Qed.

Lemma insert_key_In (k : date) (ks : list date) (x : date) :
  In x (insert_key k ks) <-> k = x \/ In x ks.
Proof.
  induction ks as [|k' ks IH]; cbn; [tauto|].
  destruct (date_compare k k') eqn:E.
  - apply date_compare_eq in E. subst. cbn. tauto.
  - cbn. tauto.
  - cbn. rewrite IH. tauto.
Qed.

Lemma insert_key_sorted (k : date) (ks : list date) :
  StronglySorted date_lt ks -> StronglySorted date_lt (insert_key k ks).
Proof.
  induction 1 as [|k' ks Hs IH Hf]; cbn; [repeat constructor|].
  destruct (date_compare k k') eqn:E.
  - now constructor.
  - constructor; [now constructor|]. constructor; [exact E|].
    eapply Forall_impl; [|exact Hf]. intros x Hx. eapply date_lt_trans; eauto.
  - constructor; [exact IH|]. apply Forall_forall. intros x Hx.
    apply insert_key_In in Hx as [<-|Hx]; [now apply date_compare_gt|].
    rewrite Forall_forall in Hf; auto.
Qed.

Lemma group_keys_sorted (df : list frow) : StronglySorted date_lt (group_keys df).
Proof. induction df; cbn; [constructor|]. now apply insert_key_sorted. Qed.

Lemma group_keys_NoDup (df : list frow) : NoDup (group_keys df).
Proof. apply (StronglySorted_NoDup date_lt); [apply date_lt_irrefl | apply group_keys_sorted]. Qed.

(** The group keys are the days that carry a trip. *)
Lemma group_keys_In (df : list frow) (k : date) :
  In k (group_keys df) <-> exists r, In r df /\ f_day r = k.
Proof.
  induction df as [|r df IH]; cbn; [firstorder|]. rewrite insert_key_In, IH.
  split; [intros [<-|(r' & H1 & H2)]; eauto | intros (r' & [<-|H1] & H2); eauto].
Qed.

(** Summing a weight group by group gives its sum over the frame. *)
Lemma sum_over_groups (f : frow -> Q) (ks : list date) (l : list frow) :
  NoDup ks -> (forall r, In r l -> In (f_day r) ks) ->
  (sumQ (map (fun k => sumQ (map f (group k l))) ks) == sumQ (map f l))%Q.
Proof.
  intros Hnd. induction l as [|r l IH]; intros Hcov.
  - apply sumQ_map_zero.
  - transitivity (sumQ (map (fun k => (if date_eqb (f_day r) k then f r else 0)
                                     + sumQ (map f (group k l))) ks))%Q.
    { apply sumQ_map_ext. intros k _. unfold group; cbn.
      destruct (date_eqb (f_day r) k); unfold sumQ; cbn; ring. }
    rewrite sumQ_map_plus, (sumQ_indicator date_eqb date_eqb_iff) by (auto; apply Hcov; now left).
    rewrite IH by (intros r' Hr'; apply Hcov; now right). unfold sumQ; cbn; reflexivity.
Qed.

Lemma sum_over_group_keys (f : frow -> Q) (df : list frow) :
  (sumQ (map (fun k => sumQ (map f (group k df))) (group_keys df)) == sumQ (map f df))%Q.
Proof.
  apply sum_over_groups; [apply group_keys_NoDup|].
  intros r Hr. apply group_keys_In. eauto.
Qed.

Lemma courses_par_jour_sum (df : list frow) :
  (sumQ (courses_par_jour df) == inject_Z (Z.of_nat (length df)))%Q.
Proof.
  unfold courses_par_jour, groupby_date. rewrite map_map. cbn [snd].
  rewrite <- (sumQ_map_one df), <- (sum_over_group_keys (fun _ => 1%Q)).
  apply sumQ_map_ext. intros k _. now rewrite sumQ_map_one.
Qed.

Lemma mean_courses_par_jour (df : list frow) :
  (mean (courses_par_jour df)
   == inject_Z (Z.of_nat (length df)) / inject_Z (Z.of_nat (length (group_keys df))))%Q.
Proof.
  unfold mean. rewrite courses_par_jour_sum. unfold courses_par_jour, groupby_date.
  now rewrite !length_map.
Qed.

(** C13. For a non-empty frame, the mean number of trips per day is the
    number of trips over the number of distinct days that carry a trip
    (days without a trip do not count), and those days are what [groupby]
    groups by. *)
Theorem courses_jour_spec (df : list frow) :
  df <> [] ->
  exists s, calculer_statistiques df = Some s
  /\ (courses_jour s == inject_Z (Z.of_nat (length df)) / inject_Z (Z.of_nat (length (group_keys df))))%Q
  /\ NoDup (group_keys df)
  /\ (forall k, In k (group_keys df) <-> exists r, In r df /\ f_day r = k).
Proof.
  intros Hne. destruct df as [|r df]; [contradiction|].
  eexists; split; [reflexivity|]. cbn [courses_jour].
  split; [apply mean_courses_par_jour|]. split; [apply group_keys_NoDup | apply group_keys_In].
Qed.

Lemma courses_jour_spec_witness :
  exists s, calculer_statistiques
    [mkFrow (mkRow 1 "VTC-20240303-090000" "2024-03-03 09:00:00" "A" "B" 3 10 10 12 2 "c@x" "émise" "")
            (mkDatetime (mkDate 2024 3 3) (mkTime 9 0 0 0));
     mkFrow (mkRow 2 "VTC-20240303-100000" "2024-03-03 10:00:00" "B" "A" 3 10 15 18 3 "c@x" "émise" "")
            (mkDatetime (mkDate 2024 3 3) (mkTime 10 0 0 0));
     mkFrow (mkRow 3 "VTC-20240304-100000" "2024-03-04 10:00:00" "A" "C" 9 30 25 30 5 "c@x" "émise" "")
            (mkDatetime (mkDate 2024 3 4) (mkTime 10 0 0 0))] = Some s
  /\ (courses_jour s == 3 # 2)%Q.
Proof.
  destruct (courses_jour_spec
    [mkFrow (mkRow 1 "VTC-20240303-090000" "2024-03-03 09:00:00" "A" "B" 3 10 10 12 2 "c@x" "émise" "")
            (mkDatetime (mkDate 2024 3 3) (mkTime 9 0 0 0));
     mkFrow (mkRow 2 "VTC-20240303-100000" "2024-03-03 10:00:00" "B" "A" 3 10 15 18 3 "c@x" "émise" "")
            (mkDatetime (mkDate 2024 3 3) (mkTime 10 0 0 0));
     mkFrow (mkRow 3 "VTC-20240304-100000" "2024-03-04 10:00:00" "A" "C" 9 30 25 30 5 "c@x" "émise" "")
            (mkDatetime (mkDate 2024 3 4) (mkTime 10 0 0 0))] ltac:(discriminate))
    as (s & Hs & Hc & _).
  exists s. split; [exact Hs|]. rewrite Hc. reflexivity.
Defined.

(** A mean times the number of values is their sum. *)
Lemma mean_mul (l : list Q) :
  l <> [] -> (mean l * inject_Z (Z.of_nat (length l)) == sumQ l)%Q.
Proof.
  intros Hl. unfold mean. field. destruct l as [|x l]; [contradiction|].
  change 0%Q with (inject_Z 0). rewrite inject_Z_injective. cbn [length]. lia.
Qed.

(** C33. For a non-empty frame, the indicators agree with the rows (spec,
    example 6): the number of trips is the number of rows, the revenue is
    the sum of the totals, the mean ticket times the number of trips is
    the revenue, and the mean duration times the number of trips is the
    total duration. *)
Theorem calculer_statistiques_moyennes (df : list frow) :
  df <> [] ->
  exists s, calculer_statistiques df = Some s
  /\ total_courses s = Z.of_nat (length df)
  /\ ca_total s = sumQ (map montant df)
  /\ (ticket_moyen s * inject_Z (total_courses s) == ca_total s)%Q
  /\ (duree_moyenne s * inject_Z (total_courses s) == sumQ (map duree_q df))%Q.
Proof.
  intros Hne. destruct df as [|r df]; [contradiction|].
  eexists; split; [reflexivity|]. cbn [total_courses ca_total ticket_moyen duree_moyenne].
  split; [reflexivity|]. split; [reflexivity|].
  rewrite <- (length_map montant (r :: df)), <- (length_map duree_q (r :: df)) at 1.
  split; apply mean_mul; discriminate.
Qed.

Lemma calculer_statistiques_moyennes_witness :
  exists s, calculer_statistiques
    [mkFrow (mkRow 1 "VTC-20240303-090000" "2024-03-03 09:00:00" "A" "B" 3 10 10 12 2 "c@x" "émise" "")
            (mkDatetime (mkDate 2024 3 3) (mkTime 9 0 0 0));
     mkFrow (mkRow 2 "VTC-20240304-100000" "2024-03-04 10:00:00" "B" "A" 3 10 15 18 3 "c@x" "émise" "")
            (mkDatetime (mkDate 2024 3 4) (mkTime 10 0 0 0));
     mkFrow (mkRow 3 "VTC-20240305-100000" "2024-03-05 10:00:00" "A" "C" 9 30 25 30 5 "c@x" "émise" "")
            (mkDatetime (mkDate 2024 3 5) (mkTime 10 0 0 0))] = Some s
  /\ (ca_total s == 60)%Q /\ (ticket_moyen s == 20)%Q /\ (courses_jour s == 1)%Q.
Proof.
  destruct (calculer_statistiques_moyennes
    [mkFrow (mkRow 1 "VTC-20240303-090000" "2024-03-03 09:00:00" "A" "B" 3 10 10 12 2 "c@x" "émise" "")
            (mkDatetime (mkDate 2024 3 3) (mkTime 9 0 0 0));
     mkFrow (mkRow 2 "VTC-20240304-100000" "2024-03-04 10:00:00" "B" "A" 3 10 15 18 3 "c@x" "émise" "")
            (mkDatetime (mkDate 2024 3 4) (mkTime 10 0 0 0));
     mkFrow (mkRow 3 "VTC-20240305-100000" "2024-03-05 10:00:00" "A" "C" 9 30 25 30 5 "c@x" "émise" "")
            (mkDatetime (mkDate 2024 3 5) (mkTime 10 0 0 0))] ltac:(discriminate))
    as (s & Hs & _ & _ & _ & _).
  exists s. split; [exact Hs|]. injection Hs as <-. vm_compute. auto.
Defined.

(** C14. The daily revenue series given to the line chart has one point per
    day that carries a trip, in strictly ascending order of the days, and
    its values add up to the total revenue. *)
Theorem serie_ca_spec (df : list frow) :
  StronglySorted date_lt (map fst (serie_ca df))
  /\ (forall k, In k (map fst (serie_ca df)) <-> exists r, In r df /\ f_day r = k)
  /\ (sumQ (map snd (serie_ca df)) == sumQ (map montant df))%Q.
Proof.
  assert (Hk : map fst (serie_ca df) = group_keys df)
    by (unfold serie_ca, groupby_date; rewrite !map_map; apply map_id).
  rewrite Hk. split; [apply group_keys_sorted|]. split; [apply group_keys_In|].
  unfold serie_ca, groupby_date. rewrite !map_map. cbn [fst snd].
  apply sum_over_group_keys.
Qed.

(** Every timestamp of a parsed frame is valid. *)
Lemma to_frame_valid (rows : list row) (df : list frow) :
  to_frame rows = Some df -> Forall (fun r => dt_valid (f_date r) = true) df.
Proof.
  revert df. induction rows as [|r rows IH]; cbn; intros df H.
  - injection H as <-. constructor.
  - unfold obind in H. destruct (to_datetime (date_course r)) as [dt|] eqn:E; [|discriminate].
    destruct (to_frame rows) as [fr|]; [|discriminate]. injection H as <-.
    constructor; [exact (to_datetime_valid _ _ E) | exact (IH fr eq_refl)].
Qed.

(** The comparison [df['date_course'] >= cutoff] of the period filter,
    for the cutoff [k] days before [today], on ordinals and times of day. *)
Lemma dt_ge_cutoff (today : datetime) (k : Z) (r : frow) :
  dt_valid (f_date r) = true -> 1 <= toordinal (dt_date today) - k <= MAXORDINAL ->
  dt_ge (f_date r) (mkDatetime (ord2ymd (toordinal (dt_date today) - k)) (dt_time today))
  = ((toordinal (dt_date today) - k <? toordinal (f_day r))
     || ((toordinal (f_day r) =? toordinal (dt_date today) - k)
         && cmp_le (time_compare (dt_time today) (dt_time (f_date r)))))%Z.
Proof.
  intros Hr Hb. destruct (ord2ymd_spec _ Hb) as [Hv Ho].
  unfold dt_valid in Hr. apply andb_true_iff in Hr as [Hd _].
  unfold dt_ge, dt_compare, f_day. cbn [dt_date dt_time].
  rewrite (date_compare_toordinal _ _ Hv Hd), Ho.
  destruct (Z.compare_spec (toordinal (dt_date today) - k) (toordinal (dt_date (f_date r)))) as [E|E|E];
    cbn [lex cmp_le].
  - rewrite E, Z.ltb_irrefl, Z.eqb_refl. reflexivity.
  - apply Z.ltb_lt in E. rewrite E. reflexivity.
  - replace (_ <? _)%Z with false by (symmetry; apply Z.ltb_ge; lia).
    replace (_ =? _)%Z with false by (symmetry; apply Z.eqb_neq; lia). reflexivity.
Qed.

(** C20. The dashboard's "7 derniers jours" and "30 derniers jours"
    filters on a frame parsed from the table: when [today] is less than
    [k] days after 0001-01-01 they raise [OverflowError]; otherwise they
    keep exactly the trips of the last [k - 1] days and those of the day
    [k] days back at or after the current time of day. *)
Theorem filtre_periode_jours (p : string) (k : Z) (today : datetime) (rows : list row) (df : list frow) :
  (p = "7 derniers jours"%string /\ k = 7%Z) \/ (p = "30 derniers jours"%string /\ k = 30%Z) ->
  dt_valid today = true -> to_frame rows = Some df ->
  filtre_periode p today df =
    let t := (toordinal (dt_date today) - k)%Z in
    if (t <? 1)%Z then None
    else Some (filter (fun r => (t <? toordinal (f_day r))
                                || ((toordinal (f_day r) =? t)
                                    && cmp_le (time_compare (dt_time today) (dt_time (f_date r)))))%Z df).
Proof.
  intros Hp Hv Hf. pose proof (to_frame_valid _ _ Hf) as Hall.
  unfold dt_valid in Hv. apply andb_true_iff in Hv as [Hd _].
  destruct (ord2ymd_toordinal _ Hd) as [Hb _].
  assert (Hk : (0 <= k)%Z) by (destruct Hp as [[_ ->]|[_ ->]]; lia).
  replace (filtre_periode p today df)
    with (cutoff <-? dt_sub_days today k ;; Some (filter (fun r => dt_ge (f_date r) cutoff) df))
    by (destruct Hp as [[-> ->]|[-> ->]]; reflexivity).
  cbv zeta. destruct (Z.ltb_spec (toordinal (dt_date today) - k) 1).
  - unfold dt_sub_days, fromordinal.
    replace (1 <=? toordinal (dt_date today) - k)%Z with false by (symmetry; apply Z.leb_gt; lia).
    reflexivity.
  - rewrite dt_sub_days_ok by lia. cbn [obind]. f_equal. apply filter_ext_in.
    intros r Hr. apply dt_ge_cutoff; [exact (proj1 (Forall_forall _ _) Hall r Hr) | lia].
Qed.

Lemma to_frame_app (l1 l2 : list row) (df1 df2 : list frow) :
  to_frame l1 = Some df1 -> to_frame l2 = Some df2 -> to_frame (l1 ++ l2) = Some (df1 ++ df2).
Proof.
  revert df1. induction l1 as [|r l1 IH]; cbn; intros df1 H1 H2.
  - injection H1 as <-. exact H2.
  - unfold obind in *. destruct (to_datetime (date_course r)); [|discriminate].
    destruct (to_frame l1) as [fr|]; [|discriminate]. injection H1 as <-.
    now rewrite (IH fr eq_refl H2).
Qed.

(** The records numbered from [i] parse back to frames carrying their
    rows and their timestamps. *)
Lemma to_frame_numbered (i : Z) (ds : list facture_data) :
  Forall (fun d => dt_valid (d_date_course d) = true) ds ->
  exists df, to_frame (numbered i ds) = Some df
             /\ map f_row df = numbered i ds /\ map f_date df = map d_date_course ds.
Proof.
  revert i. induction ds as [|d ds IH]; intros i Hv; [exists []; auto|].
  inversion Hv as [|? ? Hd Hv']; subst. destruct (IH (i + 1)%Z Hv') as (df & Hdf & Hr & Hdt).
  exists (mkFrow (row_of_data i d) (d_date_course d) :: df). cbn [numbered to_frame].
  rewrite (StoreFacts.date_course_row_of_data i d Hd). cbn [obind]. rewrite Hdf.
  cbn [map f_row f_date]. now rewrite Hr, Hdt.
Qed.

(** C26. What the dashboard and the history view read back is what the
    creation flow stored: after a sequence of creations on a table whose
    rows parse to [df0], [pd.to_datetime] of a full scan gives [df0]
    followed by one row per new record, in order, carrying exactly its
    trip timestamp. *)
Theorem to_frame_append_all (ds : list facture_data) (t : table) (df0 : list frow) :
  table_wf t -> to_frame (select_all t) = Some df0 ->
  Forall (fun d => dt_valid (d_date_course d) = true) ds ->
  exists df, to_frame (select_all (log_append_all ds t)) = Some (df0 ++ df)
             /\ map f_row df = numbered (seq t + 1) ds /\ map f_date df = map d_date_course ds.
Proof.
  intros Hwf H0 Hv. destruct (@log_append_all_spec table table_log table_log_laws ds t Hwf) as (Hr & _ & _).
  cbn [log_rows log_next table_log] in Hr. destruct (to_frame_numbered (seq t + 1) ds Hv) as (df & Hdf & Hf & Hd).
  exists df. split; [|split; assumption]. rewrite Hr. exact (to_frame_app _ _ _ _ H0 Hdf).
Qed.

Lemma filtre_periode_jours_witness :
  let rows := [mkRow 1 "n1" "2024-03-03 09:00:00" "A" "B" 3 10 10 12 2 "c@x" "émise" "";
               mkRow 2 "n2" "2024-02-20 10:00:00" "A" "C" 9 30 25 30 5 "c@x" "émise" ""] in
  let today := mkDatetime (mkDate 2024 3 5) (mkTime 8 0 0 0) in
  exists df, to_frame rows = Some df /\
  filtre_periode "7 derniers jours" today df =
    let t := (toordinal (dt_date today) - 7)%Z in
    if (t <? 1)%Z then None
    else Some (filter (fun r => (t <? toordinal (f_day r))
                                || ((toordinal (f_day r) =? t)
                                    && cmp_le (time_compare (dt_time today) (dt_time (f_date r)))))%Z df).
Proof.
  intros rows today. eexists. split; [vm_compute; reflexivity|].
  apply (filtre_periode_jours "7 derniers jours" 7 today rows); [left; split; reflexivity | reflexivity |].
  vm_compute. reflexivity.
Defined.

Lemma to_frame_append_all_witness :
  table_wf (init_db None) /\ to_frame (select_all (init_db None)) = Some [] /\
  Forall (fun d => dt_valid (d_date_course d) = true) [StoreFacts.exemple_data] /\
  exists df, to_frame (select_all (log_append_all [StoreFacts.exemple_data] (init_db None))) = Some ([] ++ df)
             /\ map f_row df = numbered (seq (init_db None) + 1) [StoreFacts.exemple_data]
             /\ map f_date df = map d_date_course [StoreFacts.exemple_data].
Proof.
  assert (H1 : table_wf (init_db None)) by (apply (StoreFacts.init_db_wf None); exact I).
  assert (H2 : to_frame (select_all (init_db None)) = Some []) by reflexivity.
  assert (H3 : Forall (fun d => dt_valid (d_date_course d) = true) [StoreFacts.exemple_data])
    by (repeat constructor).
  split; [exact H1 | split; [exact H2 | split; [exact H3 | exact (to_frame_append_all _ _ _ H1 H2 H3)]]].
Defined.

End StatsFacts.
