(* ===== verification/History.v ===== *)
(** The history view's filter (app.py lines 255-260): a row is kept when the
    day of its trip lies between the two dates chosen, inclusive, and, unless
    the status chosen is ["Tous"], its status is the one chosen.  The kept
    rows are exported as they are and shown with the total, the distance
    and the duration formatted (lines 263-269). *)

From Stdlib Require Import ZArith QArith Qabs String List Bool Lia Lqa.
From S2P Require Import Prelude PyDatetime Money Store Stats.
Import ListNotations.
Open Scope string_scope.

Module History.
Import Store Stats.

(** [mask] and [df.loc[mask]]. *)
Definition filtre_historique (date_debut date_fin : date) (statut_filter : string)
    (df : list frow) : list frow :=
  let mask := fun r => date_le date_debut (f_day r) && date_le (f_day r) date_fin in
  let mask := if negb (String.eqb statut_filter "Tous")
              then fun r => mask r && String.eqb (statut (f_row r)) statut_filter
              else mask in
  filter mask df.

(** A row as [st.dataframe(df_filtered.style.format({...}))] shows it
    (lines 263-269): every column as stored, with the total, the distance
    and the duration printed by the three format strings. *)
Record ligne := mkLigne {
  l_row : row;
  l_montant_total : string;
  l_kilometrage : string;
  l_duree : string }.

(** ['{:.2f} €'], ['{:.1f} km'] and ['{:.0f} min']. *)
Definition affiche_ligne (r : row) : ligne :=
  mkLigne r (format_fixed 2 (montant_total r) ++ " €") (format_fixed 1 (kilometrage r) ++ " km")
          (format_fixed 0 (inject_Z (duree r)) ++ " min").

End History.

Module HistoryFacts.
Import Store Stats History.

Lemma filtre_historique_mask (d1 d2 : date) (s : string) (r : frow) :
  (if negb (String.eqb s "Tous")
   then fun r => date_le d1 (f_day r) && date_le (f_day r) d2 && String.eqb (statut (f_row r)) s
   else fun r => date_le d1 (f_day r) && date_le (f_day r) d2) r = true
  <-> date_le d1 (f_day r) = true /\ date_le (f_day r) d2 = true /\ (s = "Tous" \/ statut (f_row r) = s).
Proof.
  destruct (String.eqb_spec s "Tous") as [->|Hs]; cbn; rewrite ?andb_true_iff.
  - tauto.
  - rewrite String.eqb_eq. intuition congruence.
Qed.

(** C17. The history view shows exactly the rows whose trip day lies in
    [date_debut, date_fin] (inclusive) and, unless ["Tous"] is chosen, whose
    status is the chosen one. *)
Theorem filtre_historique_spec (d1 d2 : date) (s : string) (df : list frow) (r : frow) :
  In r (filtre_historique d1 d2 s df)
  <-> In r df /\ date_le d1 (f_day r) = true /\ date_le (f_day r) d2 = true
      /\ (s = "Tous" \/ statut (f_row r) = s).
Proof. unfold filtre_historique. rewrite filter_In, filtre_historique_mask. reflexivity. Qed.

(** C18. With the start date after the end date, the history is empty. *)
Theorem filtre_historique_inverted (d1 d2 : date) (s : string) (df : list frow) :
  date_lt d2 d1 -> filtre_historique d1 d2 s df = [].
Proof.
  intros Hlt. destruct (filtre_historique d1 d2 s df) as [|r l] eqn:E; [reflexivity|].
  exfalso. assert (Hin : In r (filtre_historique d1 d2 s df)) by (rewrite E; now left).
  apply filtre_historique_spec in Hin as (_ & H1 & H2 & _).
  apply (date_lt_irrefl d1). eapply date_le_lt_trans; [exact H1|].
  eapply date_le_lt_trans; [exact H2 | exact Hlt].
Qed.

(** C32. Every cell the history table formats (line 264-268) reads back
    within half a unit of its last decimal: the total within half a
    cent, the distance within 0.05 km, and the duration exactly. *)
Theorem affiche_ligne_within (r : row) :
  (0 <= montant_total r)%Q -> (0 <= kilometrage r)%Q -> (0 <= duree r)%Z ->
  (exists c, lire_cellule 2 " €" (l_montant_total (affiche_ligne r)) = Some c
             /\ (Qabs (inject_Z c / 100 - montant_total r) <= 1 # 200)%Q)
  /\ (exists c, lire_cellule 1 " km" (l_kilometrage (affiche_ligne r)) = Some c
                /\ (Qabs (inject_Z c / 10 - kilometrage r) <= 1 # 20)%Q)
  /\ lire_cellule 0 " min" (l_duree (affiche_ligne r)) = Some (duree r).
Proof.
  intros Hm Hk Hd. cbn [affiche_ligne l_montant_total l_kilometrage l_duree].
  split; [exact (lire_cellule_within 2 _ _ Hm) | split; [exact (lire_cellule_within 1 _ _ Hk)|]].
  rewrite lire_cellule_format by (change 0%Q with (inject_Z 0); now rewrite <- Zle_Qle).
  unfold units. rewrite Qabs_pos by (change 0%Q with (inject_Z 0); now rewrite <- Zle_Qle).
  change (inject_Z (10 ^ Z.of_nat 0)) with 1%Q. rewrite Qmult_1_r. f_equal. apply round_half_even_int.
Qed.

Lemma affiche_ligne_within_witness :
  let r := mkRow 1 "VTC-20240315-081245" "2024-03-15 09:30:00" "Gare de Lyon" "Orly" (253 # 10) 35 50 60 10
                 "client@example.com" "émise" "" in
  (exists c, lire_cellule 2 " €" (l_montant_total (affiche_ligne r)) = Some c
             /\ (Qabs (inject_Z c / 100 - montant_total r) <= 1 # 200)%Q)
  /\ (exists c, lire_cellule 1 " km" (l_kilometrage (affiche_ligne r)) = Some c
                /\ (Qabs (inject_Z c / 10 - kilometrage r) <= 1 # 20)%Q)
  /\ lire_cellule 0 " min" (l_duree (affiche_ligne r)) = Some (duree r).
Proof.
  intros r. apply affiche_ligne_within; [apply Qle_bool_imp_le; reflexivity | apply Qle_bool_imp_le; reflexivity | cbn; lia].
Defined.

Lemma filtre_historique_inverted_witness :
  filtre_historique (mkDate 2024 5 2) (mkDate 2024 5 1) "Tous"
    [mkFrow (mkRow 1 "n1" "2024-05-01 09:00:00" "A" "B" 3 10 10 12 2 "c@x" "émise" "")
            (mkDatetime (mkDate 2024 5 1) (mkTime 9 0 0 0))] = [].
Proof. apply filtre_historique_inverted. reflexivity. Defined.

End HistoryFacts.
