(* ===== verification/Pdf.v ===== *)
(** The invoice document of [generer_facture_pdf] (app.py lines 68-128): the
    output path, the flowables handed to reportlab's [SimpleDocTemplate]
    (optional logo, title, the company block, the trip table) and the table
    style.  reportlab's layout engine is not modelled: the document is the
    list of flowables and the page size.  [PdfFacts] shows that the trip
    table prints the three amounts in their labelled rows, each reading
    back within half a cent. *)

From Stdlib Require Import ZArith QArith Qabs String List Lia.
From S2P Require Import Prelude PyDatetime Money Store.
Import ListNotations.
Open Scope vtc_scope.
Open Scope string_scope.

Module Pdf.
Import Store.

(** A paragraph style: [styles['Heading1']] or the [Custom] style of lines
    74-79 (font size 12, space after 30, colour #1E88E5). *)
Inductive pstyle := Heading1 | Custom.

(** A table style command [(name, (c0, r0), (c1, r1), args...)]. *)
Record table_cmd := mkCmd { cmd_name : string; cmd_from : Z * Z; cmd_to : Z * Z; cmd_args : list string }.

Inductive flowable :=
| Image (path : string) (width height : Z)
| Paragraph (text : string) (style : pstyle)
| Spacer (width height : Z)
| Table (cells : list (string * string)) (style : list table_cmd).

Inductive pagesize := letter.

Record document := mkDoc { doc_path : string; doc_pagesize : pagesize; doc_elements : list flowable }.

(** [f"factures/facture_{data['numero_facture']}.pdf"] (lines 69 and 128). *)
Definition chemin_pdf (d : facture_data) : string :=
  "factures/facture_" ++ d_numero_facture d ++ ".pdf".

(** The company block (lines 90-98). *)
Definition company_info (d : facture_data) : list string :=
  [ "🏢 VTC Service Pro"; "📍 123 rue de Paris"; "📮 75000 Paris";
    "📱 +33 6 12 34 56 78"; "📧 contact@vtcpro.fr";
    "📄 Facture N° " ++ d_numero_facture d;
    "📅 Date: " ++ strftime "%d/%m/%Y %H:%M" (d_date_course d) ].

(** The trip table (lines 106-114). *)
Definition details (d : facture_data) : list (string * string) :=
  [ ("🚩 Départ", d_depart d);
    ("🏁 Arrivée", d_arrivee d);
    ("📏 Kilométrage", py_float_repr (d_kilometrage d) ++ " km");
    ("⏱️ Durée", py_str_int (d_duree d) ++ " min");
    ("💰 Tarif de base", format_2f (d_tarif_base d) ++ " €");
    ("📊 TVA (20%)", format_2f (d_tva d) ++ " €");
    ("💶 Montant total TTC", format_2f (d_montant_total d) ++ " €") ].

(** The table style (lines 117-124). *)
Definition table_style : list table_cmd :=
  [ mkCmd "ALIGN" (0, 0) (-1, -1) ["LEFT"];
    mkCmd "FONTNAME" (0, 0) (-1, 0) ["Helvetica-Bold"];
    mkCmd "FONTSIZE" (0, 0) (-1, -1) ["12"];
    mkCmd "BOTTOMPADDING" (0, 0) (-1, -1) ["12"];
    mkCmd "GRID" (0, 0) (-1, -1) ["1"; "#1E88E5"];
    mkCmd "BACKGROUND" (0, 0) (0, -1) ["#F5F5F5"] ]%Z.

(** The flowables, given whether [logo.png] exists (line 82). *)
Definition elements (d : facture_data) (logo_exists : bool) : list flowable :=
  (if logo_exists then [Image "logo.png" 100 100] else [])
  ++ [Paragraph "🚗 FACTURE VTC" Heading1; Spacer 1 20]
  ++ map (fun info => Paragraph info Custom) (company_info d)
  ++ [Spacer 1 20; Table (details d) table_style].

(** The document [doc.build] writes. *)
Definition generer_document (d : facture_data) (logo_exists : bool) : document :=
  mkDoc (chemin_pdf d) letter (elements d logo_exists).

End Pdf.

Module PdfFacts.
Import Store Pdf.

(** The cell of the row labelled [label] in a two-column table. *)
Definition cellule (label : string) (rows : list (string * string)) : option string :=
  option_map snd (List.find (fun p => String.eqb (fst p) label) rows).

(** C15. The invoice table prints the three amounts of the invoice in the
    rows labelled with them (lines 111-113): each cell reads back, in
    hundredths, within half a hundredth of the amount stored (spec:
    tolerance 0.01), and the duration cell (line 110) reads back exactly. *)
Theorem details_montants_within (d : facture_data) :
  (0 <= d_tarif_base d)%Q -> (0 <= d_tva d)%Q -> (0 <= d_montant_total d)%Q -> (0 <= d_duree d)%Z ->
  (forall label x,
      In (label, x) [("💰 Tarif de base", d_tarif_base d); ("📊 TVA (20%)", d_tva d);
                     ("💶 Montant total TTC", d_montant_total d)] ->
      exists c, obind (cellule label (details d)) (lire_cellule 2 " €") = Some c
                /\ (Qabs (inject_Z c / 100 - x) <= 1 # 200)%Q)
  /\ obind (cellule "⏱️ Durée" (details d)) (lire_cellule 0 " min") = Some (d_duree d).
Proof.
  intros Hb Ht Hm Hd. split.
  - intros label x Hin. cbn in Hin.
    destruct Hin as [E|[E|[E|[]]]]; injection E as <- <-; cbn; rewrite format_2f_fixed;
      now apply (lire_cellule_within 2).
  - cbn. now apply lire_cellule_str_int.
Qed.

Lemma details_montants_within_witness :
  (forall label x,
      In (label, x) [("💰 Tarif de base", d_tarif_base StoreFacts.exemple_data);
                     ("📊 TVA (20%)", d_tva StoreFacts.exemple_data);
                     ("💶 Montant total TTC", d_montant_total StoreFacts.exemple_data)] ->
      exists c, obind (cellule label (details StoreFacts.exemple_data)) (lire_cellule 2 " €") = Some c
                /\ (Qabs (inject_Z c / 100 - x) <= 1 # 200)%Q)
  /\ obind (cellule "⏱️ Durée" (details StoreFacts.exemple_data)) (lire_cellule 0 " min")
     = Some (d_duree StoreFacts.exemple_data).
Proof.
  apply details_montants_within; try (apply Qle_bool_imp_le; reflexivity). cbn. lia.
Defined.

End PdfFacts.
