(* ===== verification/Settings.v ===== *)
(** The configuration of the settings view (app.py lines 364-427): the four
    sections of the dictionary written to [config.json], the widgets'
    default values, and the dictionary built from the form.  Saving and
    resetting act on the file system and are in [App.v]. *)

From Stdlib Require Import ZArith QArith String List.
From S2P Require Import Prelude.
Import ListNotations.
Open Scope string_scope.

Module Settings.

(** [company_settings] (lines 369-378). *)
Record company := mkCompany {
  name : string; address : string; postal_code : string; city : string;
  phone : string; email : string; siret : string; tva_number : string }.

(** The [billing] section (lines 415-420). *)
Record billing := mkBilling { default_rate : Q; min_fare : Q; tva_rate : Q; km_rate : Q }.

(** [email_settings] (lines 392-397). *)
Record email_cfg := mkEmail {
  smtp_server : string; smtp_port : Z; email_user : string; email_password : string }.

(** The [appearance] section (lines 422-426). *)
Record appearance := mkAppearance {
  primary_color : string; footer_text : string; invoice_prefix : string }.

Record config := mkConfig {
  cfg_company : company; cfg_billing : billing; cfg_email : email_cfg; cfg_appearance : appearance }.

(** The values the settings widgets show before any edit (their [value=]
    arguments). *)
Definition default_config : config :=
  mkConfig
    (mkCompany "VTC Service Pro" "123 rue de Paris" "75000" "Paris" "+33 6 12 34 56 78"
               "contact@vtcpro.fr" "123 456 789 00000" "FR 12 345678900")
    (mkBilling 45 15 20 (15 # 10))
    (mkEmail "smtp.gmail.com" 587 "" "")
    (mkAppearance "#1E88E5" "Merci de votre confiance!" "VTC-").

(** What the settings form holds in one run: the widgets' values and the
    uploaded logo's bytes, if any. *)
Record settings_form := mkSettingsForm {
  sf_company : company; sf_default_rate : Q; sf_min_fare : Q; sf_tva_rate : Q; sf_km_rate : Q;
  sf_email : email_cfg; sf_primary_color : string; sf_footer_text : string;
  sf_invoice_prefix : string; sf_logo : option string }.

(** The [config] dictionary of lines 413-427. *)
Definition config_of_form (f : settings_form) : config :=
  mkConfig (sf_company f)
           (mkBilling (sf_default_rate f) (sf_min_fare f) (sf_tva_rate f) (sf_km_rate f))
           (sf_email f)
           (mkAppearance (sf_primary_color f) (sf_footer_text f) (sf_invoice_prefix f)).

End Settings.
