(* ===== verification/World.v ===== *)
(** The state the script acts on: the files of its working directory (the
    PDFs, the SQLite database, [config.json], [logo.png], the Excel export),
    the directories that exist, and the directories it may not write to.
    The [os] calls of the script and SQLite's opening and committing are
    operations of the monad [pyM world]. *)

From stdpp Require Import base gmap strings.
From Stdlib Require Import ZArith QArith String Ascii List.
From S2P Require Import Prelude PyDatetime Store Pdf Settings.
Open Scope vtc_scope.
Open Scope string_scope.

(** What a file holds. *)
Inductive blob :=
| BPdf (doc : Pdf.document)
| BDb (t : option Store.table)        (** [None]: no [factures] table *)
| BJson (c : Settings.config)
| BPng (bytes : string)
| BXlsx (rows : list Store.row).

Record world := mkWorld {
  w_dirs : gset string;
  w_files : gmap string blob;
  w_readonly : gset string }.

Definition with_files (w : world) (fs : gmap string blob) : world :=
  mkWorld (w_dirs w) fs (w_readonly w).

(** The part of a path before its last [/], if any. *)
Fixpoint dir_prefix (s : string) : option string :=
  match s with
  | EmptyString => None
  | String c s' =>
      match dir_prefix s' with
      | Some p => Some (String c p)
      | None => if Ascii.eqb c "/"%char then Some EmptyString else None
      end
  end.

(** [os.path.dirname], with ["."] for the working directory. *)
Definition dirname (path : string) : string :=
  match dir_prefix path with Some p => p | None => "." end.

Definition dir_exists (w : world) (d : string) : bool :=
  bool_decide (d = ".") || bool_decide (d ∈ w_dirs w).

(** A file can be created or replaced when its directory exists and is not
    read-only. *)
Definition writable (w : world) (path : string) : bool :=
  dir_exists w (dirname path) && negb (bool_decide (dirname path ∈ w_readonly w)).

(** [os.path.exists(path)]. *)
Definition path_exists (path : string) (w : world) : bool :=
  bool_decide (is_Some (w_files w !! path)) || bool_decide (path ∈ w_dirs w).

Definition write_file (path : string) (b : blob) (w : world) : option world :=
  if writable w path then Some (with_files w (<[path := b]> (w_files w))) else None.

Definition remove_file (path : string) (w : world) : option world :=
  if writable w path && bool_decide (is_Some (w_files w !! path))
  then Some (with_files w (delete path (w_files w))) else None.

(** [os.makedirs(path)]: [FileExistsError] when the path exists. *)
Definition make_dir (path : string) (w : world) : option world :=
  if writable w path && negb (path_exists path w)
  then Some (mkWorld ({[path]} ∪ w_dirs w) (w_files w) (w_readonly w)) else None.

(** ** The calls, in the monad *)

Definition os_path_exists (path : string) : pyM world bool :=
  w <- py_get ;; py_ret (path_exists path w).

Definition os_makedirs (path : string) : pyM world unit := py_lift (OSError path) (make_dir path).
Definition os_remove (path : string) : pyM world unit := py_lift (OSError path) (remove_file path).
Definition write (path : string) (b : blob) : pyM world unit := py_lift (OSError path) (write_file path b).

Definition DB_PATH : string := "data/vtc_factures.db".

(** [sqlite3.connect(DB_PATH)]: opens the database, creating an empty one
    when the file is absent; fails when the directory is missing. *)
Definition sqlite_connect : pyM world (option Store.table) :=
  w <- py_get ;;
  match w_files w !! DB_PATH with
  | Some (BDb t) => py_ret t
  | Some _ => py_raise (OperationalError "file is not a database")
  | None =>
      if writable w DB_PATH then py_put (with_files w (<[DB_PATH := BDb None]> (w_files w))) ;;; py_ret None
      else py_raise (OperationalError "unable to open database file")
  end.

(** Commit a new state of the table. *)
Definition sqlite_commit (t : Store.table) : pyM world unit :=
  py_lift (OperationalError "attempt to write a readonly database") (write_file DB_PATH (BDb (Some t))).

(** The table as a full scan sees it ([None]: no such table). *)
Definition db_table (w : world) : option Store.table :=
  match w_files w !! DB_PATH with Some (BDb t) => t | _ => None end.

(** ** How each operation runs *)

Section WorldFacts.
Implicit Types (w : world) (p : string) (b : blob).

Lemma os_path_exists_run p w : os_path_exists p w = (Ok (path_exists p w), w).
Proof. reflexivity. Qed.

Lemma write_run p b w :
  writable w p = true -> write p b w = (Ok tt, with_files w (<[p := b]> (w_files w))).
Proof. intros H. apply py_lift_ok. unfold write_file. now rewrite H. Qed.

Lemma write_fail p b w : writable w p = false -> write p b w = (Raise (OSError p), w).
Proof. intros H. apply py_lift_fail. unfold write_file. now rewrite H. Qed.

Lemma os_remove_run p w b :
  writable w p = true -> w_files w !! p = Some b ->
  os_remove p w = (Ok tt, with_files w (delete p (w_files w))).
Proof. intros H1 H2. apply py_lift_ok. unfold remove_file. rewrite H1, H2. reflexivity. Qed.

Lemma sqlite_connect_run w (t : option Store.table) :
  w_files w !! DB_PATH = Some (BDb t) -> sqlite_connect w = (Ok t, w).
Proof. intros H. unfold sqlite_connect, py_bind, py_get. now rewrite H. Qed.

Lemma sqlite_commit_run (t : Store.table) w :
  writable w DB_PATH = true ->
  sqlite_commit t w = (Ok tt, with_files w (<[DB_PATH := BDb (Some t)]> (w_files w))).
Proof. intros H. apply py_lift_ok. unfold write_file. now rewrite H. Qed.

Lemma sqlite_commit_fail (t : Store.table) w :
  writable w DB_PATH = false ->
  sqlite_commit t w = (Raise (OperationalError "attempt to write a readonly database"), w).
Proof. intros H. apply py_lift_fail. unfold write_file. now rewrite H. Qed.

(** Writing files changes neither the directories nor their permissions. *)
Lemma writable_with_files w (fs : gmap string blob) p :
  writable w p = true -> writable (with_files w fs) p = true.
Proof. trivial. Qed.

Lemma writable_with_files_false w (fs : gmap string blob) p :
  writable w p = false -> writable (with_files w fs) p = false.
Proof. trivial. Qed.

Lemma lookup_with_files_ne w p q b (v : option blob) :
  p <> q -> w_files w !! q = v -> w_files (with_files w (<[p := b]> (w_files w))) !! q = v.
Proof. intros Hne H. cbn. rewrite lookup_insert_ne by exact Hne. exact H. Qed.

Lemma chemin_pdf_ne_DB (d : Store.facture_data) : Pdf.chemin_pdf d <> DB_PATH.
Proof. unfold Pdf.chemin_pdf, DB_PATH. cbn. discriminate. Qed.

Lemma db_table_insert w (t : Store.table) :
  db_table (with_files w (<[DB_PATH := BDb (Some t)]> (w_files w))) = Some t.
Proof. unfold db_table. cbn. now rewrite lookup_insert_eq. Qed.

(** Writing a file keeps every existing path, and leaves the existence
    of the other paths unchanged. *)
Lemma path_exists_insert p k b w (fs : gmap string blob) :
  path_exists p (with_files w fs) = true -> path_exists p (with_files w (<[k := b]> fs)) = true.
Proof.
  unfold path_exists. cbn [with_files w_files w_dirs].
  destruct (decide (k = p)) as [->|Hne].
  - rewrite lookup_insert_eq. intros _. now rewrite bool_decide_eq_true_2 by eauto.
  - now rewrite lookup_insert_ne by exact Hne.
Qed.

Lemma path_exists_insert_ne p k b w (fs : gmap string blob) :
  k <> p -> path_exists p (with_files w (<[k := b]> fs)) = path_exists p (with_files w fs).
Proof. intros Hne. unfold path_exists. cbn [with_files w_files w_dirs]. now rewrite lookup_insert_ne. Qed.

End WorldFacts.

#[export] Hint Resolve os_path_exists_run os_remove_run write_run write_fail sqlite_connect_run
  sqlite_commit_run sqlite_commit_fail writable_with_files writable_with_files_false
  lookup_with_files_ne chemin_pdf_ne_DB : vtc_py.
