(* ===== verification/Imports.v ===== *)
(** The name [datetime] as the imports of app.py bind it (lines 4 and
    16), the calls made through it ([datetime.combine], [datetime.now],
    [datetime.datetime.now]) and what a run of the script shows ([ui]).
    The two bindings the lines can produce are [module_namespace] (the
    source order: the module wins) and [intended_namespace] (line 4
    alone, the binding the rest of the code is written for). *)

From stdpp Require Import base gmap strings.
From Stdlib Require Import ZArith QArith String Ascii List.
From S2P Require Import Prelude PyDatetime Store Stats History World.
Import ListNotations.
Open Scope vtc_scope.
Open Scope string_scope.

(** ** The name [datetime] (lines 4 and 16) *)

(** [datetime] names the class ([from datetime import datetime]) or the
    module ([import datetime]). *)
Inductive datetime_binding := DatetimeClass | DatetimeModule.

Record namespace := mkNamespace { ns_datetime : option datetime_binding }.

(** Line 4: [from datetime import datetime, timedelta]. *)
Definition from_datetime_import (ns : namespace) : namespace := mkNamespace (Some DatetimeClass).

(** Line 16: [import datetime]. *)
Definition import_datetime (ns : namespace) : namespace := mkNamespace (Some DatetimeModule).

(** The module namespace after the imports, in the order of the source. *)
Definition module_namespace : namespace :=
  import_datetime (from_datetime_import (mkNamespace None)).

(** The namespace the code is written for: line 4 alone. *)
Definition intended_namespace : namespace := from_datetime_import (mkNamespace None).

(** [datetime.<attr>]: the class has [combine] and [now]; the module has
    the class [datetime] but neither [combine] nor [now]. *)
Definition datetime_attr (ns : namespace) (attr : string) : pyM world unit :=
  match ns_datetime ns with
  | Some DatetimeClass =>
      if String.eqb attr "combine" || String.eqb attr "now" then py_ret tt
      else py_raise (AttributeError attr)
  | Some DatetimeModule =>
      if String.eqb attr "datetime" then py_ret tt else py_raise (AttributeError attr)
  | None => py_raise (NameError "datetime")
  end.

(** [datetime.combine(d, t)]. *)
Definition datetime_combine (ns : namespace) (d : date) (t : time) : pyM world datetime :=
  datetime_attr ns "combine" ;;; py_ret (combine d t).

(** [datetime.now()], the instant being [clock]. *)
Definition datetime_now (ns : namespace) (clock : datetime) : pyM world datetime :=
  datetime_attr ns "now" ;;; py_ret clock.

(** [datetime.datetime.now()] (line 457). *)
Definition datetime_datetime_now (ns : namespace) (clock : datetime) : pyM world datetime :=
  datetime_attr ns "datetime" ;;; py_ret clock.

(** ** What a run shows *)

Inductive ui :=
| UiError (msg : string)
| UiSuccess (msg : string)
| UiBalloons
| UiDataframe (rows : list History.ligne)
| UiKpis (s : Stats.stats)
| UiLineCA (serie : list (date * Q))
| UiBarCourses (serie : list (date * Z))
| UiRerun
| UiSidebar (msg : string).

(** [st.experimental_rerun()] (line 452) raises Streamlit's
    [RerunException], a [BaseException] that [except Exception] does not
    catch: the run stops there and Streamlit starts the script again.  A
    run that ends this way shows [UiRerun] last. *)
Definition rerun_requested (u : list ui) : bool :=
  existsb (fun x => match x with UiRerun => true | _ => false end) u.

(** ** The calls under each binding *)

Section ImportsFacts.
Implicit Types (w : world).

Lemma datetime_combine_module (d : date) (t : time) w :
  datetime_combine module_namespace d t w = (Raise (AttributeError "combine"), w).
Proof. reflexivity. Qed.

Lemma datetime_now_module (c : datetime) w :
  datetime_now module_namespace c w = (Raise (AttributeError "now"), w).
Proof. reflexivity. Qed.

Lemma datetime_datetime_now_module (c : datetime) w :
  datetime_datetime_now module_namespace c w = (Ok c, w).
Proof. reflexivity. Qed.

Lemma datetime_combine_intended (d : date) (t : time) w :
  datetime_combine intended_namespace d t w = (Ok (combine d t), w).
Proof. reflexivity. Qed.

Lemma datetime_now_intended (c : datetime) w :
  datetime_now intended_namespace c w = (Ok c, w).
Proof. reflexivity. Qed.

Lemma datetime_datetime_now_intended (c : datetime) w :
  datetime_datetime_now intended_namespace c w = (Raise (AttributeError "datetime"), w).
Proof. reflexivity. Qed.

End ImportsFacts.

#[export] Hint Resolve datetime_combine_module datetime_now_module datetime_datetime_now_module
  datetime_combine_intended datetime_now_intended datetime_datetime_now_intended : vtc_py.
