(* ===== verification/Creation.v ===== *)
(** The invoice creation flow of app.py (lines 167-229): the form and its
    validation ([all([...])], line 186), the record built from it, the PDF
    ([generer_facture_pdf], lines 68-128), the append to the table
    ([df.to_sql], lines 219-223) and the handler of the button
    ([nouvelle_facture]).  The theorems give the handler's outcome on
    every branch: refusal of the form, success, the partial failure that
    leaves a PDF without its row, and two invoices whose numbers
    collide. *)

From stdpp Require Import base gmap strings.
From Stdlib Require Import ZArith QArith String Ascii List.
From S2P Require Import Prelude PyDatetime Money Numbering Store Pdf World Imports.
Import ListNotations.
Open Scope vtc_scope.
Open Scope string_scope.

(** ** Creating an invoice (lines 167-229) *)

Record form_facture := mkForm {
  date_course_in : date; heure_course_in : time; depart_in : string; arrivee_in : string;
  kilometrage_in : Q; duree_in : Z; tarif_base_in : Q; email_client_in : string; notes_in : string }.

(** Python truthiness of the values [all([...])] tests (line 186). *)
Definition truthy_str (s : string) : bool := negb (String.eqb s "").

Definition truthy_q (q : Q) : bool := negb (Qeq_bool q 0).

Definition truthy_int (z : Z) : bool := negb (Z.eqb z 0).

Definition champs_remplis (f : form_facture) : bool :=
  truthy_str (depart_in f) && truthy_str (arrivee_in f) && truthy_q (kilometrage_in f)
  && truthy_int (duree_in f) && truthy_q (tarif_base_in f) && truthy_str (email_client_in f).

(** [generer_facture_pdf(data)] (lines 68-128): the document is written
    when [doc.build] runs; its path is returned. *)
Definition generer_facture_pdf (data : Store.facture_data) : pyM world string :=
  logo <- os_path_exists "logo.png" ;;
  write (Pdf.chemin_pdf data) (BPdf (Pdf.generer_document data logo)) ;;;
  py_ret (Pdf.chemin_pdf data).

(** Lines 220-223: append the record.  On a database without the table,
    pandas would create one from the frame's columns; the model gives it
    [init_db]'s schema, a difference [main] never reaches since it runs
    [init_db] first. *)
Definition sauvegarder_facture (data : Store.facture_data) : pyM world unit :=
  t <- sqlite_connect ;;
  sqlite_commit (Store.to_sql data (Store.init_db t)).

Definition form_data (f : form_facture) (datetime_course now : datetime) : Store.facture_data :=
  let tva := Fare.tva (tarif_base_in f) in
  let montant_total := Fare.montant_total (tarif_base_in f) tva in
  Store.mkData (numero_facture datetime_course now) datetime_course (depart_in f) (arrivee_in f)
               (kilometrage_in f) (duree_in f) (tarif_base_in f) tva montant_total
               (email_client_in f) (notes_in f) "émise".

(** The button's handler.  The boolean returned is [true] when the handler
    leaves [main] by its [return] (line 188). *)
Definition nouvelle_facture (ns : namespace) (f : form_facture) (clicked : bool) (clock : datetime)
    : pyM world (list ui * bool) :=
  if negb clicked then py_ret ([], false)
  else if negb (champs_remplis f)
  then py_ret ([UiError "⚠️ Veuillez remplir tous les champs obligatoires!"], true)
  else
    datetime_course <- datetime_combine ns (date_course_in f) (heure_course_in f) ;;
    now <- datetime_now ns clock ;;
    let data := form_data f datetime_course now in
    ex <- os_path_exists "factures" ;;
    (if ex then py_ret tt else os_makedirs "factures") ;;;
    py_try (fichier_pdf <- generer_facture_pdf data ;;
            sauvegarder_facture data ;;;
            py_ret ([UiSuccess "✅ Facture générée avec succès!"; UiBalloons], false))
           (fun e => py_ret ([UiError ("❌ Erreur lors de la génération de la facture: " ++ exc_str e)], false)).

(** The record the creation flow builds from the form, the trip instant
    and the wall-clock instant. *)
Definition data_of (f : form_facture) (clock : datetime) : Store.facture_data :=
  form_data f (combine (date_course_in f) (heure_course_in f)) clock.

(** ** Lemmas *)

Section CreationFacts.
Implicit Types (w : world).

Lemma generer_facture_pdf_run (data : Store.facture_data) w :
  writable w (Pdf.chemin_pdf data) = true ->
  generer_facture_pdf data w =
    (Ok (Pdf.chemin_pdf data),
     with_files w (<[Pdf.chemin_pdf data := BPdf (Pdf.generer_document data (path_exists "logo.png" w))]>
                    (w_files w))).
Proof. intros H. unfold generer_facture_pdf. py_step. py_step. reflexivity. Qed.

Lemma sauvegarder_facture_run (data : Store.facture_data) w (t : Store.table) :
  w_files w !! DB_PATH = Some (BDb (Some t)) -> writable w DB_PATH = true ->
  sauvegarder_facture data w = (Ok tt, with_files w (<[DB_PATH := BDb (Some (Store.to_sql data t))]> (w_files w))).
Proof. intros H1 H2. unfold sauvegarder_facture. py_step. cbn [Store.init_db]. eauto with vtc_py. Qed.

Lemma sauvegarder_facture_fail (data : Store.facture_data) w (t : Store.table) :
  w_files w !! DB_PATH = Some (BDb (Some t)) -> writable w DB_PATH = false ->
  sauvegarder_facture data w = (Raise (OperationalError "attempt to write a readonly database"), w).
Proof. intros H1 H2. unfold sauvegarder_facture. py_step. cbn [Store.init_db]. eauto with vtc_py. Qed.

Lemma champs_remplis_zero (f : form_facture) :
  (kilometrage_in f == 0 \/ duree_in f = 0%Z \/ tarif_base_in f == 0)%Q -> champs_remplis f = false.
Proof.
  unfold champs_remplis, truthy_q, truthy_int.
  intros [H|[H|H]]; [rewrite (proj2 (Qeq_bool_iff _ _) H) | rewrite H | rewrite (proj2 (Qeq_bool_iff _ _) H)];
  rewrite ?andb_false_r, ?andb_false_l; cbn; rewrite ?andb_false_r; reflexivity.
Qed.

Lemma chemin_pdf_ne_logo (data : Store.facture_data) : Pdf.chemin_pdf data <> "logo.png".
Proof. unfold Pdf.chemin_pdf. cbn. discriminate. Qed.

End CreationFacts.

#[export] Hint Resolve generer_facture_pdf_run sauvegarder_facture_run sauvegarder_facture_fail : vtc_py.

Section CreationTheorems.
Implicit Types (w : world).

(** With the class binding, a validated form, [factures/] present and
    the PDF written, the creation flow's outcome is that of appending the
    record. *)
Lemma nouvelle_facture_validated (f : form_facture) (clock : datetime) w :
  champs_remplis f = true -> path_exists "factures" w = true ->
  writable w (Pdf.chemin_pdf (data_of f clock)) = true ->
  nouvelle_facture intended_namespace f true clock w =
  match sauvegarder_facture (data_of f clock)
          (with_files w (<[Pdf.chemin_pdf (data_of f clock) :=
                             BPdf (Pdf.generer_document (data_of f clock) (path_exists "logo.png" w))]>
                           (w_files w))) with
  | (Ok _, s) => (Ok ([UiSuccess "✅ Facture générée avec succès!"; UiBalloons], false), s)
  | (Raise e, s) => (Ok ([UiError ("❌ Erreur lors de la génération de la facture: " ++ exc_str e)], false), s)
  end.
Proof.
  intros Hf Hdir Hpdf. unfold nouvelle_facture. rewrite Hf. cbn [negb].
  py_step. py_step. py_step. rewrite Hdir. py_step. unfold py_try. py_step.
  unfold py_bind. now destruct (sauvegarder_facture _ _) as [[] ?].
Qed.

(** C2. With [datetime] bound to the class (line 4 alone, as the code is
    written for), a validated form whose files can be written produces
    exactly two effects, in this order: the PDF at
    [factures/facture_<numero>.pdf] (with the logo when [logo.png] exists)
    and the table extended by the record; the page shows the success. *)
Theorem nouvelle_facture_stores (f : form_facture) (clock : datetime) w (t : Store.table) :
  champs_remplis f = true ->
  path_exists "factures" w = true ->
  writable w (Pdf.chemin_pdf (data_of f clock)) = true ->
  writable w DB_PATH = true ->
  w_files w !! DB_PATH = Some (BDb (Some t)) ->
  nouvelle_facture intended_namespace f true clock w =
    (Ok ([UiSuccess "✅ Facture générée avec succès!"; UiBalloons], false),
     with_files w
       (<[DB_PATH := BDb (Some (Store.to_sql (data_of f clock) t))]>
        (<[Pdf.chemin_pdf (data_of f clock) :=
             BPdf (Pdf.generer_document (data_of f clock) (path_exists "logo.png" w))]> (w_files w)))).
Proof.
  intros Hf Hdir Hpdf Hdb Ht. rewrite nouvelle_facture_validated by assumption.
  now rewrite (sauvegarder_facture_run _ _ t) by eauto with vtc_py.
Qed.

(** C7. When the PDF can be written but the database cannot, the creation
    flow reports an error yet leaves the PDF of an invoice that is in no
    row of the table: the failed action is not undone. *)
Theorem nouvelle_facture_partial (f : form_facture) (clock : datetime) w (t : Store.table) :
  champs_remplis f = true ->
  path_exists "factures" w = true ->
  writable w (Pdf.chemin_pdf (data_of f clock)) = true ->
  writable w DB_PATH = false ->
  w_files w !! DB_PATH = Some (BDb (Some t)) ->
  nouvelle_facture intended_namespace f true clock w =
    (Ok ([UiError ("❌ Erreur lors de la génération de la facture: " ++ "attempt to write a readonly database")], false),
     with_files w
       (<[Pdf.chemin_pdf (data_of f clock) :=
            BPdf (Pdf.generer_document (data_of f clock) (path_exists "logo.png" w))]> (w_files w))).
Proof.
  intros Hf Hdir Hpdf Hdb Ht. rewrite nouvelle_facture_validated by assumption.
  now rewrite (sauvegarder_facture_fail _ _ t) by eauto with vtc_py.
Qed.

(** C8. A trip of zero kilometres, zero minutes or a zero fare is refused
    as a missing field ([all()] tests truthiness, line 186), although the
    widgets accept 0 and the spec asks only for non-negative values; the
    handler returns from [main] and nothing is written. *)
Theorem nouvelle_facture_rejects_zero (ns : namespace) (f : form_facture) (clock : datetime) w :
  (kilometrage_in f == 0 \/ duree_in f = 0%Z \/ tarif_base_in f == 0)%Q ->
  nouvelle_facture ns f true clock w
  = (Ok ([UiError "⚠️ Veuillez remplir tous les champs obligatoires!"], true), w).
Proof. intros H. unfold nouvelle_facture. now rewrite champs_remplis_zero by exact H. Qed.

(** C24. Invoice numbers are not unique (C6) and nothing checks them: two
    successful creations whose numbers coincide both add a row to the
    table, with the same [numero_facture], but write the same PDF path, so
    the second invoice's document replaces the first one's. *)
Theorem nouvelle_facture_collision (f1 f2 : form_facture) (c1 c2 : datetime) w (t : Store.table) :
  champs_remplis f1 = true -> champs_remplis f2 = true -> path_exists "factures" w = true ->
  writable w (Pdf.chemin_pdf (data_of f1 c1)) = true -> writable w DB_PATH = true ->
  w_files w !! DB_PATH = Some (BDb (Some t)) ->
  Store.d_numero_facture (data_of f1 c1) = Store.d_numero_facture (data_of f2 c2) ->
  let r1 := nouvelle_facture intended_namespace f1 true c1 w in
  let r2 := nouvelle_facture intended_namespace f2 true c2 (snd r1) in
  fst r1 = Ok ([UiSuccess "✅ Facture générée avec succès!"; UiBalloons], false)
  /\ fst r2 = Ok ([UiSuccess "✅ Facture générée avec succès!"; UiBalloons], false)
  /\ w_files (snd r2) !! Pdf.chemin_pdf (data_of f1 c1)
     = Some (BPdf (Pdf.generer_document (data_of f2 c2) (path_exists "logo.png" w)))
  /\ db_table (snd r2) = Some (Store.to_sql (data_of f2 c2) (Store.to_sql (data_of f1 c1) t)).
Proof.
  intros H1 H2 Hdir Hpdf Hdb Ht Hnum r1 r2.
  assert (Hp : Pdf.chemin_pdf (data_of f2 c2) = Pdf.chemin_pdf (data_of f1 c1))
    by (unfold Pdf.chemin_pdf; now rewrite Hnum).
  set (d1 := data_of f1 c1) in *. set (d2 := data_of f2 c2) in *.
  set (w1 := with_files w (<[DB_PATH := BDb (Some (Store.to_sql d1 t))]>
                            (<[Pdf.chemin_pdf d1 := BPdf (Pdf.generer_document d1 (path_exists "logo.png" w))]>
                               (w_files w)))).
  assert (E1 : r1 = (Ok ([UiSuccess "✅ Facture générée avec succès!"; UiBalloons], false), w1))
    by (subst r1; rewrite nouvelle_facture_validated by assumption;
        now rewrite (sauvegarder_facture_run _ _ t) by eauto with vtc_py).
  assert (Hdb1 : w_files w1 !! DB_PATH = Some (BDb (Some (Store.to_sql d1 t)))) by apply lookup_insert_eq.
  assert (Hpdf1 : writable w1 (Pdf.chemin_pdf d2) = true) by (rewrite Hp; exact Hpdf).
  assert (Hdir1 : path_exists "factures" w1 = true) by (apply path_exists_insert, path_exists_insert; exact Hdir).
  assert (Hl1 : path_exists "logo.png" w1 = path_exists "logo.png" w)
    by (unfold w1; rewrite !path_exists_insert_ne by (discriminate || apply chemin_pdf_ne_logo); reflexivity).
  subst r2. rewrite E1. cbn [fst snd]. rewrite nouvelle_facture_validated by assumption.
  rewrite (sauvegarder_facture_run _ _ (Store.to_sql d1 t)) by eauto with vtc_py. cbn [fst snd].
  split; [reflexivity|]. split; [reflexivity|]. split.
  - cbn [with_files w_files]. rewrite lookup_insert_ne by (apply not_eq_sym, chemin_pdf_ne_DB).
    now rewrite <- Hp, lookup_insert_eq, Hl1.
  - apply db_table_insert.
Qed.

End CreationTheorems.

(** ** Concrete runs *)

Definition exemple_table : Store.table := Store.mkTable [] 0.

(** A working directory with [data/] and [factures/] and an empty table. *)
Definition exemple_monde : world :=
  mkWorld (list_to_set ["data"; "factures"]) {[DB_PATH := BDb (Some exemple_table)]} ∅.

(** The same with [data/] read-only. *)
Definition exemple_monde_ro : world :=
  mkWorld (list_to_set ["data"; "factures"]) {[DB_PATH := BDb (Some exemple_table)]} {["data"]}.

Definition exemple_form : form_facture :=
  mkForm (mkDate 2024 3 15) (mkTime 9 30 0 0) "Gare de Lyon" "Orly" 25 35 50 "client@example.com" "".

Definition exemple_clock : datetime := mkDatetime (mkDate 2024 3 15) (mkTime 8 12 45 0).

Lemma nouvelle_facture_stores_witness :
  fst (nouvelle_facture intended_namespace exemple_form true exemple_clock exemple_monde)
  = Ok ([UiSuccess "✅ Facture générée avec succès!"; UiBalloons], false).
Proof.
  rewrite (nouvelle_facture_stores exemple_form exemple_clock exemple_monde exemple_table);
  [reflexivity | reflexivity | reflexivity | vm_compute; reflexivity | reflexivity | reflexivity].
Defined.

Lemma nouvelle_facture_partial_witness :
  fst (nouvelle_facture intended_namespace exemple_form true exemple_clock exemple_monde_ro)
  = Ok ([UiError ("❌ Erreur lors de la génération de la facture: " ++ "attempt to write a readonly database")], false).
Proof.
  rewrite (nouvelle_facture_partial exemple_form exemple_clock exemple_monde_ro exemple_table);
  [reflexivity | reflexivity | reflexivity | vm_compute; reflexivity | reflexivity | reflexivity].
Defined.

Lemma nouvelle_facture_rejects_zero_witness :
  nouvelle_facture intended_namespace
    (mkForm (mkDate 2024 3 15) (mkTime 9 30 0 0) "Gare de Lyon" "Orly" 25 35 0 "client@example.com" "")
    true exemple_clock exemple_monde
  = (Ok ([UiError "⚠️ Veuillez remplir tous les champs obligatoires!"], true), exemple_monde).
Proof. apply nouvelle_facture_rejects_zero. right; right. reflexivity. Defined.

(** A second trip on the same day, to another destination, created the
    next day at the same time of day as [exemple_clock]. *)
Definition exemple_form_2 : form_facture :=
  mkForm (mkDate 2024 3 15) (mkTime 18 0 0 0) "Gare de Lyon" "Roissy" 32 45 65 "autre@example.com" "".

Definition exemple_clock_2 : datetime := mkDatetime (mkDate 2024 3 16) (mkTime 8 12 45 0).

Lemma nouvelle_facture_collision_witness :
  let r1 := nouvelle_facture intended_namespace exemple_form true exemple_clock exemple_monde in
  let r2 := nouvelle_facture intended_namespace exemple_form_2 true exemple_clock_2 (snd r1) in
  fst r1 = Ok ([UiSuccess "✅ Facture générée avec succès!"; UiBalloons], false)
  /\ fst r2 = Ok ([UiSuccess "✅ Facture générée avec succès!"; UiBalloons], false)
  /\ w_files (snd r2) !! Pdf.chemin_pdf (data_of exemple_form exemple_clock)
     = Some (BPdf (Pdf.generer_document (data_of exemple_form_2 exemple_clock_2)
                                        (path_exists "logo.png" exemple_monde)))
  /\ db_table (snd r2)
     = Some (Store.to_sql (data_of exemple_form_2 exemple_clock_2)
                          (Store.to_sql (data_of exemple_form exemple_clock) exemple_table)).
Proof.
  apply (nouvelle_facture_collision exemple_form exemple_form_2 exemple_clock exemple_clock_2
           exemple_monde exemple_table); vm_compute; reflexivity.
Defined.
