(* ===== verification/Views.v ===== *)
(** The views of app.py that read the table: the history with its
    Excel export (lines 231-273), the dashboard (lines 276-362), and the
    settings view with its save and reset buttons (lines 364-455).  The
    theorems give each view's outcome: what it shows, the files it
    writes, and the exceptions that stop it. *)

From stdpp Require Import base gmap strings.
From Stdlib Require Import ZArith QArith String Ascii List.
From S2P Require Import Prelude PyDatetime Store Stats History Pdf Settings World Imports Creation.
Import ListNotations.
Open Scope vtc_scope.
Open Scope string_scope.

(** ** Reading the table (lines 247-252 and 287-292) *)

(** [pd.read_sql_query("SELECT * FROM factures", conn)]. *)
Definition lire_factures : pyM world (list Store.row) :=
  t <- sqlite_connect ;;
  match t with
  | Some t => py_ret (Store.select_all t)
  | None => py_raise (OperationalError "no such table: factures")
  end.

(** [df['date_course'] = pd.to_datetime(df['date_course'])]. *)
Definition to_frame_py (rows : list Store.row) : pyM world (list Stats.frow) :=
  match Stats.to_frame rows with
  | Some df => py_ret df
  | None => py_raise (ValueError "date_course")
  end.

(** ** The history view (lines 231-273) *)

Definition historique (date_debut date_fin : date) (statut_filter : string) (export_clicked : bool)
    : pyM world (list ui) :=
  rows <- lire_factures ;;
  match rows with
  | [] => py_ret []
  | _ =>
      df <- to_frame_py rows ;;
      let df_filtered := History.filtre_historique date_debut date_fin statut_filter df in
      if export_clicked
      then write "export_factures.xlsx" (BXlsx (map Stats.f_row df_filtered)) ;;;
           py_ret [UiDataframe (map History.affiche_ligne (map Stats.f_row df_filtered));
                   UiSuccess "✅ Export réalisé avec succès!"]
      else py_ret [UiDataframe (map History.affiche_ligne (map Stats.f_row df_filtered))]
  end.

(** ** The dashboard (lines 276-362) *)

Definition tableau_de_bord (ns : namespace) (periode : string) (clock : datetime) : pyM world (list ui) :=
  rows <- lire_factures ;;
  match rows with
  | [] => py_ret []
  | _ =>
      df <- to_frame_py rows ;;
      today <- datetime_now ns clock ;;
      df <- (match Stats.filtre_periode periode today df with
             | Some df => py_ret df
             | None => py_raise (OverflowError "date value out of range")
             end) ;;
      match Stats.calculer_statistiques df with
      | None => py_raise (KeyError "total_courses")
      | Some s => py_ret [UiKpis s; UiLineCA (Stats.serie_ca df); UiBarCourses (Stats.serie_courses df)]
      end
  end.

(** ** The settings view (lines 364-455) *)

Definition sauvegarder_parametres (f : Settings.settings_form) : pyM world (list ui) :=
  py_try ((match Settings.sf_logo f with
           | Some bytes => write "logo.png" (BPng bytes)
           | None => py_ret tt
           end) ;;;
          write "config.json" (BJson (Settings.config_of_form f)) ;;;
          py_ret [UiSuccess "✅ Paramètres sauvegardés avec succès!"; UiBalloons])
         (fun e => py_ret [UiError ("❌ Erreur lors de la sauvegarde des paramètres: " ++ exc_str e)]).

Definition reinitialiser_parametres : pyM world (list ui) :=
  py_try (c <- os_path_exists "config.json" ;;
          (if c then os_remove "config.json" else py_ret tt) ;;;
          l <- os_path_exists "logo.png" ;;
          (if l then os_remove "logo.png" else py_ret tt) ;;;
          py_ret [UiSuccess "✅ Paramètres réinitialisés avec succès!"; UiRerun])
         (fun e => py_ret [UiError ("❌ Erreur lors de la réinitialisation: " ++ exc_str e)]).

Definition parametres (f : Settings.settings_form) (save_clicked reset_clicked : bool) : pyM world (list ui) :=
  u1 <- (if save_clicked then sauvegarder_parametres f else py_ret []) ;;
  u2 <- (if reset_clicked then reinitialiser_parametres else py_ret []) ;;
  py_ret (u1 ++ u2)%list.

(** ** Lemmas *)

Section ViewsFacts.
Implicit Types (w : world).

Lemma lire_factures_run w (t : Store.table) :
  w_files w !! DB_PATH = Some (BDb (Some t)) -> lire_factures w = (Ok (Store.select_all t), w).
Proof. intros H. unfold lire_factures. py_step. reflexivity. Qed.

Lemma to_frame_py_run (rows : list Store.row) (df : list Stats.frow) w :
  Stats.to_frame rows = Some df -> to_frame_py rows w = (Ok df, w).
Proof. intros H. unfold to_frame_py. now rewrite H. Qed.

(** [if os.path.exists(p): os.remove(p)] on a path that is not a
    directory and can be written. *)
Lemma remove_if_exists_run {A} (p : string) (k : unit -> pyM world A) w :
  writable w p = true -> p ∉ w_dirs w ->
  py_bind (os_path_exists p) (fun c => py_bind (if c then os_remove p else py_ret tt) k) w
  = k tt (with_files w (delete p (w_files w))).
Proof.
  intros Hw Hd. py_step. unfold path_exists.
  rewrite (bool_decide_eq_false_2 (p ∈ w_dirs w)) by exact Hd. rewrite orb_false_r.
  destruct (w_files w !! p) as [b|] eqn:E.
  - rewrite bool_decide_eq_true_2 by eauto. py_step. reflexivity.
  - rewrite bool_decide_eq_false_2 by apply is_Some_None. py_step.
    rewrite delete_id by exact E. now destruct w.
Qed.

(** The files of the working directory share one directory. *)
Lemma writable_cwd w (p q : string) : dirname p = "." -> dirname q = "." -> writable w p = writable w q.
Proof. unfold writable. now intros -> ->. Qed.

End ViewsFacts.

#[export] Hint Resolve lire_factures_run to_frame_py_run : vtc_py.

Section ViewsTheorems.
Implicit Types (w : world).

(** C9. With the namespace the imports build, the dashboard stops on
    [AttributeError] for [datetime.now] (line 295) whenever the table has a
    row: no statistics are ever shown. *)
Theorem tableau_de_bord_module_raises (periode : string) (clock : datetime) w (t : Store.table)
    (df : list Stats.frow) :
  w_files w !! DB_PATH = Some (BDb (Some t)) -> Store.select_all t <> [] ->
  Stats.to_frame (Store.select_all t) = Some df ->
  tableau_de_bord module_namespace periode clock w = (Raise (AttributeError "now"), w).
Proof.
  intros Hdb Hne Hfr. unfold tableau_de_bord. py_step.
  destruct (Store.select_all t) as [|r rs]; [contradiction|]. py_step. py_step. reflexivity.
Qed.

(** C10. With [datetime] bound to the class, a period that leaves no row
    makes [calculer_statistiques] return the empty dictionary and the
    dashboard stops on [KeyError] for ['total_courses'] (line 315),
    instead of showing an empty state. *)
Theorem tableau_de_bord_keyerror (periode : string) (clock : datetime) w (t : Store.table)
    (df : list Stats.frow) :
  w_files w !! DB_PATH = Some (BDb (Some t)) -> Store.select_all t <> [] ->
  Stats.to_frame (Store.select_all t) = Some df -> Stats.filtre_periode periode clock df = Some [] ->
  tableau_de_bord intended_namespace periode clock w = (Raise (KeyError "total_courses"), w).
Proof.
  intros Hdb Hne Hfr Hp. unfold tableau_de_bord. py_step.
  destruct (Store.select_all t) as [|r rs]; [contradiction|]. py_step. py_step. rewrite Hp.
  py_step. reflexivity.
Qed.

(** C19. Resetting the settings removes [config.json] and [logo.png] and
    touches no other file; the next invoice rendered has no logo. *)
Theorem reinitialiser_parametres_spec w :
  writable w "config.json" = true -> writable w "logo.png" = true ->
  "config.json" ∉ w_dirs w -> "logo.png" ∉ w_dirs w ->
  exists w', reinitialiser_parametres w = (Ok [UiSuccess "✅ Paramètres réinitialisés avec succès!"; UiRerun], w')
  /\ w_files w' !! "config.json" = None /\ w_files w' !! "logo.png" = None
  /\ (forall k, k <> "config.json" -> k <> "logo.png" -> w_files w' !! k = w_files w !! k)
  /\ (forall data, Pdf.generer_document data (path_exists "logo.png" w') = Pdf.generer_document data false).
Proof.
  intros H1 H2 H3 H4. unfold reinitialiser_parametres, py_try.
  rewrite remove_if_exists_run by assumption. rewrite remove_if_exists_run by assumption.
  eexists; split; [reflexivity|]. cbn [w_files with_files w_dirs].
  split; [rewrite lookup_delete_ne by discriminate; apply lookup_delete_eq|].
  split; [apply lookup_delete_eq|]. split.
  - intros k Hk1 Hk2. rewrite !lookup_delete_ne by congruence. reflexivity.
  - intros data. unfold path_exists. cbn [w_files w_dirs with_files].
    rewrite lookup_delete_eq, (bool_decide_eq_false_2 ("logo.png" ∈ w_dirs w)) by exact H4.
    reflexivity.
Qed.

(** C21. With the table present and parsed, the history view shows the
    rows the filter keeps.  When the export button is clicked it writes
    exactly those rows to [export_factures.xlsx] and changes no other
    file; the write is outside any [try] (line 271), so a working
    directory that cannot be written makes the run stop on [OSError]. *)
Theorem historique_spec (d1 d2 : date) (statut : string) (export : bool) w (t : Store.table)
    (df : list Stats.frow) :
  w_files w !! DB_PATH = Some (BDb (Some t)) -> Store.select_all t <> [] ->
  Stats.to_frame (Store.select_all t) = Some df ->
  let shown := map Stats.f_row (History.filtre_historique d1 d2 statut df) in
  historique d1 d2 statut export w
  = if negb export then (Ok [UiDataframe (map History.affiche_ligne shown)], w)
    else if writable w "export_factures.xlsx"
    then (Ok [UiDataframe (map History.affiche_ligne shown); UiSuccess "✅ Export réalisé avec succès!"],
          with_files w (<["export_factures.xlsx" := BXlsx shown]> (w_files w)))
    else (Raise (OSError "export_factures.xlsx"), w).
Proof.
  intros Hdb Hne Hfr shown. unfold historique. py_step.
  destruct (Store.select_all t) as [|r rs]; [contradiction|]. py_step.
  destruct export; [|reflexivity]. cbn [negb].
  destruct (writable w "export_factures.xlsx") eqn:Hw; py_step; reflexivity.
Qed.

(** C22. Saving the settings writes [config.json] with the dictionary of
    the form and, when a logo was uploaded, [logo.png] with its bytes,
    touching no other file; when the working directory cannot be written,
    the error is shown and no file changes (the logo is written first, and
    fails the same way). *)
Theorem sauvegarder_parametres_spec (f : Settings.settings_form) w :
  sauvegarder_parametres f w
  = if writable w "config.json"
    then (Ok [UiSuccess "✅ Paramètres sauvegardés avec succès!"; UiBalloons],
          with_files w (<["config.json" := BJson (Settings.config_of_form f)]>
                          (match Settings.sf_logo f with
                           | Some b => <["logo.png" := BPng b]> (w_files w)
                           | None => w_files w
                           end)))
    else (Ok [UiError ("❌ Erreur lors de la sauvegarde des paramètres: "
                       ++ exc_str (OSError (match Settings.sf_logo f with
                                            | Some _ => "logo.png" | None => "config.json" end)))], w).
Proof.
  unfold sauvegarder_parametres, py_try.
  assert (Hcw : writable w "config.json" = writable w "logo.png") by (apply writable_cwd; reflexivity).
  rewrite Hcw. destruct (writable w "logo.png") eqn:Hw; pose proof Hw as Hc; rewrite <- Hcw in Hc;
  destruct (Settings.sf_logo f) as [b|]; repeat py_step; reflexivity.
Qed.

(** C23. With [datetime] bound to the class, a period that keeps some
    rows makes the dashboard show its indicators and its two charts, and
    they agree: the revenue indicator is the sum of the revenue chart and
    the number of trips is the sum of the trips chart. *)
Theorem tableau_de_bord_success (periode : string) (clock : datetime) w (t : Store.table)
    (df df' : list Stats.frow) :
  w_files w !! DB_PATH = Some (BDb (Some t)) -> Store.select_all t <> [] ->
  Stats.to_frame (Store.select_all t) = Some df -> Stats.filtre_periode periode clock df = Some df' ->
  df' <> [] ->
  exists s, tableau_de_bord intended_namespace periode clock w
            = (Ok [UiKpis s; UiLineCA (Stats.serie_ca df'); UiBarCourses (Stats.serie_courses df')], w)
    /\ (Stats.ca_total s == sumQ (map snd (Stats.serie_ca df')))%Q
    /\ (inject_Z (Stats.total_courses s) == sumQ (map (fun p => inject_Z (snd p)) (Stats.serie_courses df')))%Q.
Proof.
  intros Hdb Hne Hfr Hp Hne'. unfold tableau_de_bord. py_step.
  destruct (Store.select_all t) as [|r rs]; [contradiction|]. py_step. py_step. rewrite Hp.
  py_step. destruct df' as [|r' rs']; [contradiction|].
  eexists; split; [reflexivity|]. cbn [Stats.ca_total Stats.total_courses Stats.calculer_statistiques].
  split.
  - unfold Stats.serie_ca, Stats.groupby_date. rewrite !map_map. cbn [fst snd].
    symmetry. apply StatsFacts.sum_over_group_keys.
  - rewrite <- (StatsFacts.courses_par_jour_sum (r' :: rs')).
    unfold Stats.serie_courses, Stats.courses_par_jour. rewrite map_map. reflexivity.
Qed.

End ViewsTheorems.

(** ** Concrete runs *)

(** A table with one trip of 2023. *)
Definition exemple_table_2023 : Store.table :=
  Store.to_sql (Store.mkData "VTC-20230610-101500" (mkDatetime (mkDate 2023 6 10) (mkTime 10 0 0 0))
                  "A" "B" 12 20 30 6 36 "c@x" "" "émise") exemple_table.

Definition exemple_monde_2023 : world :=
  mkWorld (list_to_set ["data"; "factures"]) {[DB_PATH := BDb (Some exemple_table_2023)]} ∅.

Lemma tableau_de_bord_module_raises_witness :
  tableau_de_bord module_namespace "Tout" exemple_clock exemple_monde_2023
  = (Raise (AttributeError "now"), exemple_monde_2023).
Proof.
  apply (tableau_de_bord_module_raises "Tout" exemple_clock exemple_monde_2023 exemple_table_2023
           [Stats.mkFrow (hd (Store.mkRow 0 "" "" "" "" 0 0 0 0 0 "" "" "") (Store.select_all exemple_table_2023))
                         (mkDatetime (mkDate 2023 6 10) (mkTime 10 0 0 0))]);
  [reflexivity | discriminate | reflexivity].
Defined.

Lemma tableau_de_bord_keyerror_witness :
  tableau_de_bord intended_namespace "Cette année" exemple_clock exemple_monde_2023
  = (Raise (KeyError "total_courses"), exemple_monde_2023).
Proof.
  apply (tableau_de_bord_keyerror "Cette année" exemple_clock exemple_monde_2023 exemple_table_2023
           [Stats.mkFrow (hd (Store.mkRow 0 "" "" "" "" 0 0 0 0 0 "" "" "") (Store.select_all exemple_table_2023))
                         (mkDatetime (mkDate 2023 6 10) (mkTime 10 0 0 0))]);
  [reflexivity | discriminate | reflexivity | reflexivity].
Defined.

(** A working directory holding a logo and a configuration. *)
Definition exemple_monde_logo : world :=
  mkWorld (list_to_set ["data"; "factures"])
          (<["logo.png" := BPng "png"]> (<["config.json" := BJson Settings.default_config]>
             {[DB_PATH := BDb (Some exemple_table)]})) ∅.

Lemma reinitialiser_parametres_spec_witness :
  exists w', reinitialiser_parametres exemple_monde_logo
             = (Ok [UiSuccess "✅ Paramètres réinitialisés avec succès!"; UiRerun], w')
  /\ w_files w' !! "logo.png" = None.
Proof.
  destruct (reinitialiser_parametres_spec exemple_monde_logo eq_refl eq_refl
              ltac:(apply (bool_decide_unpack _); vm_compute; exact I)
              ltac:(apply (bool_decide_unpack _); vm_compute; exact I)) as (w' & H & _ & Hl & _).
  exists w'. split; assumption.
Defined.

(** The frame parsed from [exemple_table_2023]. *)
Definition exemple_frame_2023 : list Stats.frow :=
  [Stats.mkFrow (hd (Store.mkRow 0 "" "" "" "" 0 0 0 0 0 "" "" "") (Store.select_all exemple_table_2023))
                (mkDatetime (mkDate 2023 6 10) (mkTime 10 0 0 0))].

Lemma historique_spec_witness :
  historique (mkDate 2023 6 1) (mkDate 2023 6 30) "Tous" true exemple_monde_2023
  = (Ok [UiDataframe (map History.affiche_ligne (Store.select_all exemple_table_2023)); UiSuccess "✅ Export réalisé avec succès!"],
     with_files exemple_monde_2023
       (<["export_factures.xlsx" := BXlsx (Store.select_all exemple_table_2023)]> (w_files exemple_monde_2023))).
Proof.
  pose proof (historique_spec (mkDate 2023 6 1) (mkDate 2023 6 30) "Tous" true exemple_monde_2023
                exemple_table_2023 exemple_frame_2023 eq_refl ltac:(discriminate) eq_refl) as E.
  cbv zeta in E. rewrite E. vm_compute. reflexivity.
Defined.

Lemma tableau_de_bord_success_witness :
  exists s, tableau_de_bord intended_namespace "Tout" exemple_clock exemple_monde_2023
            = (Ok [UiKpis s; UiLineCA (Stats.serie_ca exemple_frame_2023);
                   UiBarCourses (Stats.serie_courses exemple_frame_2023)], exemple_monde_2023)
    /\ (Stats.ca_total s == sumQ (map snd (Stats.serie_ca exemple_frame_2023)))%Q
    /\ (inject_Z (Stats.total_courses s)
        == sumQ (map (fun p => inject_Z (snd p)) (Stats.serie_courses exemple_frame_2023)))%Q.
Proof.
  apply (tableau_de_bord_success "Tout" exemple_clock exemple_monde_2023 exemple_table_2023
           exemple_frame_2023 exemple_frame_2023); [reflexivity | discriminate | reflexivity | reflexivity | discriminate].
Defined.
