(* ===== verification/App.v ===== *)
(** The script's entry point (app.py): [init_db] (lines 45-65), the widget
    values of one Streamlit run and [main] (lines 146-164, 457-458), which
    dispatches on the page chosen in the menu to the handlers of
    [Creation.v] and [Views.v] and ends with the footer. *)

From stdpp Require Import base gmap strings.
From Stdlib Require Import ZArith QArith String Ascii List.
From S2P Require Import Prelude PyDatetime Store Settings World Imports Creation Views.
Import ListNotations.
Open Scope vtc_scope.
Open Scope string_scope.

(** ** [init_db] (lines 45-65) and [main] (lines 146-164, 457-458) *)

Definition init_db : pyM world unit :=
  t <- sqlite_connect ;;
  match t with
  | Some _ => py_ret tt
  | None => sqlite_commit (Store.init_db None)
  end.

(** The widget values of one run. *)
Record run_input := mkRun {
  selected : string;
  ri_form : form_facture; ri_create : bool;
  ri_date_debut : date; ri_date_fin : date; ri_statut : string; ri_export : bool;
  ri_periode : string;
  ri_settings : Settings.settings_form; ri_save : bool; ri_reset : bool;
  ri_clock : datetime }.

(** The run ends early on the creation handler's [return] (line 188) and
    on the reset button's [st.experimental_rerun()] (line 452); otherwise
    the footer (lines 457-458) runs. *)
Definition main (ns : namespace) (i : run_input) : pyM world (list ui) :=
  init_db ;;;
  r <- (if String.eqb (selected i) "Nouvelle Facture"
        then nouvelle_facture ns (ri_form i) (ri_create i) (ri_clock i)
        else if String.eqb (selected i) "Historique"
        then u <- historique (ri_date_debut i) (ri_date_fin i) (ri_statut i) (ri_export i) ;; py_ret (u, false)
        else if String.eqb (selected i) "Tableau de Bord"
        then u <- tableau_de_bord ns (ri_periode i) (ri_clock i) ;; py_ret (u, false)
        else if String.eqb (selected i) "Paramètres"
        then u <- parametres (ri_settings i) (ri_save i) (ri_reset i) ;; py_ret (u, false)
        else py_ret ([], false)) ;;
  if snd r || rerun_requested (fst r) then py_ret (fst r)
  else now <- datetime_datetime_now ns (ri_clock i) ;;
       py_ret (app (fst r) [UiSidebar ("© " ++ py_str_int (year (dt_date now)) ++ " VTC MEJRI ")]).

(** ** Lemmas *)

Section AppFacts.
Implicit Types (w : world).

(** With the table present, [init_db] changes nothing. *)
Lemma init_db_run w (t : Store.table) :
  w_files w !! DB_PATH = Some (BDb (Some t)) -> init_db w = (Ok tt, w).
Proof. intros H. unfold init_db. py_step. reflexivity. Qed.

End AppFacts.

#[export] Hint Resolve init_db_run : vtc_py.

Section AppTheorems.
Implicit Types (w : world).

(** C1. With the namespace the imports build ([datetime] is the module
    after line 16), every run of the creation page whose button is clicked
    on a form that passes validation stops on [AttributeError] for
    [datetime.combine] (line 190), and nothing is written: no invoice can
    ever be created. *)
Theorem main_nouvelle_facture_raises (i : run_input) w (t : Store.table) :
  selected i = "Nouvelle Facture" -> ri_create i = true -> champs_remplis (ri_form i) = true ->
  w_files w !! DB_PATH = Some (BDb (Some t)) ->
  main module_namespace i w = (Raise (AttributeError "combine"), w).
Proof.
  intros Hs Hc Hf Hdb. unfold main. py_step. rewrite Hs, String.eqb_refl.
  unfold nouvelle_facture. rewrite Hc, Hf. cbn [negb]. py_step. reflexivity.
Qed.

(** C11. The footer's [datetime.datetime.now()] (line 457) needs the module
    binding: with it, a settings page run with no button clicked shows
    only the footer; with the class binding the code elsewhere assumes, the
    same run stops on [AttributeError].  No binding of [datetime] makes
    both line 190 and line 457 work. *)
Theorem main_footer_binding (i : run_input) w (t : Store.table) :
  selected i = "Paramètres" -> ri_save i = false -> ri_reset i = false ->
  w_files w !! DB_PATH = Some (BDb (Some t)) ->
  main module_namespace i w
    = (Ok [UiSidebar ("© " ++ py_str_int (year (dt_date (ri_clock i))) ++ " VTC MEJRI ")], w)
  /\ main intended_namespace i w = (Raise (AttributeError "datetime"), w).
Proof.
  intros Hs Hsv Hrs Hdb. unfold main, parametres. rewrite Hs, Hsv, Hrs.
  cbn [String.eqb Ascii.eqb Bool.eqb andb]. split; repeat (py_step; cbn [fst snd app]); reflexivity.
Qed.

(** C12. Nothing creates the directory [data/]: when it is missing (and the
    database with it), [init_db] at the start of [main] stops every run on
    [sqlite3.OperationalError], whatever the page. *)
Theorem main_without_data_dir (ns : namespace) (i : run_input) w :
  w_files w !! DB_PATH = None -> writable w DB_PATH = false ->
  main ns i w = (Raise (OperationalError "unable to open database file"), w).
Proof.
  intros H1 H2. unfold main, init_db, sqlite_connect, py_bind, py_get.
  rewrite H1, H2. reflexivity.
Qed.

End AppTheorems.

(** ** Concrete runs *)

Definition exemple_settings : Settings.settings_form :=
  let c := Settings.default_config in
  Settings.mkSettingsForm (Settings.cfg_company c) 45 15 20 (15 # 10) (Settings.cfg_email c)
    "#1E88E5" "Merci de votre confiance!" "VTC-" None.

Definition exemple_run (page : string) : run_input :=
  mkRun page exemple_form true (mkDate 2024 3 1) (mkDate 2024 3 31) "Tous" false "Tout"
        exemple_settings false false exemple_clock.

Lemma main_without_data_dir_witness :
  main module_namespace (exemple_run "Historique") (mkWorld ∅ ∅ ∅)
  = (Raise (OperationalError "unable to open database file"), mkWorld ∅ ∅ ∅).
Proof. apply main_without_data_dir; reflexivity. Defined.

Lemma main_nouvelle_facture_raises_witness :
  main module_namespace (exemple_run "Nouvelle Facture") exemple_monde
  = (Raise (AttributeError "combine"), exemple_monde).
Proof.
  apply (main_nouvelle_facture_raises (exemple_run "Nouvelle Facture") exemple_monde exemple_table);
  reflexivity.
Defined.

Lemma main_footer_binding_witness :
  main intended_namespace (exemple_run "Paramètres") exemple_monde
  = (Raise (AttributeError "datetime"), exemple_monde).
Proof.
  apply (main_footer_binding (exemple_run "Paramètres") exemple_monde exemple_table); reflexivity.
Defined.
