(* ===== verification/Session.v ===== *)
(** Successive runs of the script.  Streamlit reruns [main] from the top on
    every interaction; the only thing one run hands to the next is the
    working directory (the database, the PDFs, [config.json], [logo.png],
    the export).  [app_step] is one run, with the widget values of that
    run, and the worlds reachable from a starting one are its reflexive
    transitive closure ([rtc]).

    The rule of each handler of [Creation.v], [Views.v] and [App.v]
    (section [Handlers]) is proved once for any invariant of the world
    that the primitive writes of [World.v] keep.  Two families of invariants instantiate it:
    - properties of the database file, [db_inv P]: [P] holds of what
      [data/vtc_factures.db] contains.  Instances: [db_ok] (the table
      satisfies [table_wf] and every [date_course] text parses back with
      [pd.to_datetime]); the file holding a fixed table, which with the
      imports as written no run ever changes; the file holding a table;
    - the [frame]: the directories only grow and the read-only set never
      changes.
    Together they give progress: with [datetime] bound to the class, a
    creation run appends its record in every reachable world. *)

From stdpp Require Import base gmap strings.
From Stdlib Require Import ZArith QArith String List Lia.
From S2P Require Import Prelude PyLogic PyDatetime Store Stats History Pdf Settings World Imports Creation Views App.
Import ListNotations.
Open Scope vtc_scope.
Open Scope string_scope.

(** The widget values Streamlit can hand to a run: [st.date_input] and
    [st.time_input] return a valid date and time. *)
Definition input_ok (i : run_input) : bool :=
  dt_valid (combine (date_course_in (ri_form i)) (heure_course_in (ri_form i))).

(** One run of [main] with the values of its widgets. *)
Inductive app_step (ns : namespace) : world -> world -> Prop :=
| step_run (i : run_input) (w : world) : input_ok i = true -> app_step ns w (snd (main ns i w)).

(** An invariant of the database file. *)
Definition db_inv (P : option blob -> Prop) (w : world) : Prop := P (w_files w !! DB_PATH).

(** The table's invariant and the type of its date column: every stored
    text is a timestamp [pd.to_datetime] reads. *)
Definition table_ok (t : Store.table) : Prop :=
  Store.table_wf t /\ Forall (fun r => is_Some (to_datetime (Store.date_course r))) (Store.rows t).

Definition ok_entry (e : option blob) : Prop :=
  match e with
  | Some (BDb (Some t)) => table_ok t
  | _ => True
  end.

Definition db_ok : world -> Prop := db_inv ok_entry.

(** ** The rule of each operation *)

(** The calls that do not change the world keep every invariant. *)
Section Pure.
Variable Inv : world -> Prop.

Lemma triple_os_path_exists (p : string) : triple Inv (os_path_exists p) (fun _ => True).
Proof. apply triple_pure. intros w. now split. Qed.

Lemma triple_datetime_combine (ns : namespace) (d : date) (t : time) :
  triple Inv (datetime_combine ns d t) (fun a => a = combine d t).
Proof.
  apply triple_pure. intros w. unfold datetime_combine, datetime_attr, py_bind.
  destruct (ns_datetime ns) as [[|]|]; cbn; auto.
Qed.

(** With the module binding, [datetime.combine] never returns. *)
Lemma triple_datetime_combine_module (d : date) (t : time) :
  triple Inv (datetime_combine module_namespace d t) (fun _ => False).
Proof. apply triple_pure. intros w. reflexivity. Qed.

Lemma triple_datetime_now (ns : namespace) (c : datetime) :
  triple Inv (datetime_now ns c) (fun a => a = c).
Proof.
  apply triple_pure. intros w. unfold datetime_now, datetime_attr, py_bind.
  destruct (ns_datetime ns) as [[|]|]; cbn; auto.
Qed.

Lemma triple_datetime_datetime_now (ns : namespace) (c : datetime) :
  triple Inv (datetime_datetime_now ns c) (fun _ => True).
Proof.
  apply triple_pure. intros w. unfold datetime_datetime_now, datetime_attr, py_bind.
  destruct (ns_datetime ns) as [[|]|]; cbn; auto.
Qed.

End Pure.

(** The calls that write keep an invariant of the database file as long
    as they do not write it, or write what the invariant allows. *)
Section Rules.
Variable P : option blob -> Prop.

Lemma db_inv_insert_ne (w : world) (p : string) (b : blob) :
  p <> DB_PATH -> db_inv P w -> db_inv P (with_files w (<[p := b]> (w_files w))).
Proof. intros Hp. unfold db_inv. cbn [with_files w_files]. now rewrite lookup_insert_ne by congruence. Qed.

Lemma db_inv_delete_ne (w : world) (p : string) :
  p <> DB_PATH -> db_inv P w -> db_inv P (with_files w (delete p (w_files w))).
Proof. intros Hp. unfold db_inv. cbn [with_files w_files]. now rewrite lookup_delete_ne by congruence. Qed.

Lemma triple_os_makedirs (p : string) : triple (db_inv P) (os_makedirs p) (fun _ => True).
Proof.
  apply triple_lift. intros w w' Hw. unfold make_dir.
  destruct (_ && _); [|discriminate]. intros [= <-]. exact Hw.
Qed.

Lemma triple_write (p : string) (b : blob) : p <> DB_PATH -> triple (db_inv P) (write p b) (fun _ => True).
Proof.
  intros Hp. apply triple_lift. intros w w' Hw. unfold write_file.
  destruct (writable w p); [|discriminate]. intros [= <-]. exact (db_inv_insert_ne w p b Hp Hw).
Qed.

Lemma triple_os_remove (p : string) : p <> DB_PATH -> triple (db_inv P) (os_remove p) (fun _ => True).
Proof.
  intros Hp. apply triple_lift. intros w w' Hw. unfold remove_file.
  destruct (_ && _); [|discriminate]. intros [= <-]. exact (db_inv_delete_ne w p Hp Hw).
Qed.

(** Opening the database returns what the file holds; a missing file is
    created empty. *)
Lemma triple_sqlite_connect :
  (P None -> P (Some (BDb None))) -> triple (db_inv P) sqlite_connect (fun t => P (Some (BDb t))).
Proof.
  intros HP w Hw. unfold sqlite_connect, py_bind, py_get. unfold db_inv in *.
  destruct (w_files w !! DB_PATH) as [[| t | | |]|] eqn:E; cbn; rewrite ?E in *; try exact Hw.
  - now split.
  - destruct (writable w DB_PATH); cbn; [|now rewrite E].
    cbn [with_files w_files]. rewrite lookup_insert_eq. auto.
Qed.

Lemma triple_sqlite_commit (t : Store.table) :
  P (Some (BDb (Some t))) -> triple (db_inv P) (sqlite_commit t) (fun _ => True).
Proof.
  intros Ht. apply triple_lift. intros w w' Hw. unfold write_file.
  destruct (writable w DB_PATH); [|discriminate]. intros [= <-].
  unfold db_inv. cbn [with_files w_files]. now rewrite lookup_insert_eq.
Qed.

End Rules.

(** The directories of the world only grow and its read-only set never
    changes: [frame w0 w] says that [w] has every directory of [w0] and
    the same read-only directories. *)
Definition frame (w0 w : world) : Prop := w_dirs w0 ⊆ w_dirs w /\ w_readonly w = w_readonly w0.

#[export] Instance frame_preorder : PreOrder frame.
Proof.
  split; [intros w; split; [set_solver | reflexivity]|].
  intros w1 w2 w3 [H12 R12] [H23 R23]. split; [etransitivity; eassumption | congruence].
Qed.

Lemma writable_frame (w0 w : world) (p : string) : frame w0 w -> writable w0 p = true -> writable w p = true.
Proof.
  intros [Hd Hr]. unfold writable, dir_exists. rewrite Hr.
  destruct (bool_decide (dirname p = ".")); cbn; [easy|].
  rewrite !andb_true_iff, !bool_decide_eq_true. intros [Hp Hn]. split; [exact (Hd _ Hp) | exact Hn].
Qed.

Section Frame.
Variable w0 : world.

Lemma triple_frame_makedirs (p : string) : triple (frame w0) (os_makedirs p) (fun _ => True).
Proof.
  apply triple_lift. intros w w' [Hd Hr]. unfold make_dir.
  destruct (_ && _); [|discriminate]. intros [= <-]. split; cbn; [etransitivity; [exact Hd | apply union_subseteq_r] | exact Hr].
Qed.

Lemma frame_write_file (p : string) (b : blob) (w w' : world) :
  frame w0 w -> write_file p b w = Some w' -> frame w0 w'.
Proof. intros Hw. unfold write_file. destruct (writable w p); [|discriminate]. intros [= <-]. exact Hw. Qed.

Lemma triple_frame_write (p : string) (b : blob) : triple (frame w0) (write p b) (fun _ => True).
Proof. apply triple_lift, frame_write_file. Qed.

Lemma triple_frame_remove (p : string) : triple (frame w0) (os_remove p) (fun _ => True).
Proof.
  apply triple_lift. intros w w' Hw. unfold remove_file.
  destruct (_ && _); [|discriminate]. intros [= <-]. exact Hw.
Qed.

Lemma triple_frame_connect : triple (frame w0) sqlite_connect (fun _ => True).
Proof.
  intros w Hw. unfold sqlite_connect, py_bind, py_get.
  destruct (w_files w !! DB_PATH) as [[| t | | |]|]; cbn; try exact Hw; [now split|].
  destruct (writable w DB_PATH); cbn; [now split | exact Hw].
Qed.

Lemma triple_frame_commit (t : Store.table) : triple (frame w0) (sqlite_commit t) (fun _ => True).
Proof. apply triple_lift, frame_write_file. Qed.

End Frame.

#[export] Hint Resolve triple_os_path_exists triple_os_makedirs triple_write triple_os_remove
  triple_sqlite_connect triple_sqlite_commit triple_datetime_combine triple_datetime_now
  triple_datetime_datetime_now chemin_pdf_ne_DB
  triple_frame_makedirs triple_frame_write triple_frame_remove triple_frame_connect triple_frame_commit : vtc_inv.
#[export] Hint Extern 1 (_ <> DB_PATH) => discriminate : vtc_inv.

(** ** The rule of each handler *)

(** Every handler keeps an invariant of the world that the primitive
    writes keep, provided the invariant survives [init_db]; [main] keeps
    it as soon as the creation flow of the run does. *)
Section Handlers.
Variable Inv : world -> Prop.
Hypothesis H_init : triple Inv init_db (fun _ => True).
Hypothesis H_connect : triple Inv sqlite_connect (fun _ => True).
Hypothesis H_write : forall p b, p <> DB_PATH -> triple Inv (write p b) (fun _ => True).
Hypothesis H_remove : forall p, p <> DB_PATH -> triple Inv (os_remove p) (fun _ => True).
Hypothesis H_makedirs : forall p, triple Inv (os_makedirs p) (fun _ => True).

Lemma triple_historique (d1 d2 : date) (s : string) (export : bool) :
  triple Inv (historique d1 d2 s export) (fun _ => True).
Proof. unfold historique, lire_factures, to_frame_py. triple_auto. Qed.

Lemma triple_tableau_de_bord (ns : namespace) (periode : string) (clock : datetime) :
  triple Inv (tableau_de_bord ns periode clock) (fun _ => True).
Proof. unfold tableau_de_bord, lire_factures, to_frame_py. triple_auto. Qed.

Lemma triple_parametres (f : Settings.settings_form) (save reset : bool) :
  triple Inv (parametres f save reset) (fun _ => True).
Proof. unfold parametres, sauvegarder_parametres, reinitialiser_parametres. triple_auto. Qed.

Lemma triple_generer_facture_pdf (d : Store.facture_data) :
  triple Inv (generer_facture_pdf d) (fun _ => True).
Proof. unfold generer_facture_pdf. triple_auto. Qed.

(** The creation flow keeps the invariant when appending its record
    does. *)
Lemma triple_nouvelle_facture_gen (ns : namespace) (f : form_facture) (clicked : bool) (clock : datetime) :
  triple Inv (sauvegarder_facture (data_of f clock)) (fun _ => True) ->
  triple Inv (nouvelle_facture ns f clicked clock) (fun _ => True).
Proof. intros Hs. unfold nouvelle_facture. triple_auto. apply triple_generer_facture_pdf. Qed.

Lemma triple_main_gen (ns : namespace) (i : run_input) :
  triple Inv (nouvelle_facture ns (ri_form i) (ri_create i) (ri_clock i)) (fun _ => True) ->
  triple Inv (main ns i) (fun _ => True).
Proof.
  intros Hnf. unfold main.
  eapply triple_bind; [exact H_init | intros _ _].
  apply (triple_bind _ _ _ (fun _ => True)); [|intros r _; triple_auto].
  apply triple_if; [exact Hnf|].
  repeat apply triple_if; try (apply triple_ret; exact I);
    (eapply triple_bind; [|intros ? _; apply triple_ret; exact I]);
  auto using triple_historique, triple_tableau_de_bord, triple_parametres.
Qed.

End Handlers.

(** ** Invariants of the database file *)

Section DbHandlers.
Variable P : option blob -> Prop.
Hypothesis HP_connect : P None -> P (Some (BDb None)).
Hypothesis HP_init : P (Some (BDb None)) -> P (Some (BDb (Some (Store.init_db None)))).

Lemma triple_init_db : triple (db_inv P) init_db (fun _ => True).
Proof. unfold init_db. triple_auto. Qed.

Lemma triple_sauvegarder_facture_gen (d : Store.facture_data) :
  (forall t, P (Some (BDb t)) -> P (Some (BDb (Some (Store.to_sql d (Store.init_db t)))))) ->
  triple (db_inv P) (sauvegarder_facture d) (fun _ => True).
Proof.
  intros Hs. unfold sauvegarder_facture.
  eapply triple_bind; [apply triple_sqlite_connect, HP_connect | intros t Ht; apply triple_sqlite_commit; auto].
Qed.

Lemma triple_sqlite_connect_db : triple (db_inv P) sqlite_connect (fun _ => True).
Proof. eapply triple_weaken; [apply triple_sqlite_connect, HP_connect | trivial]. Qed.

Lemma triple_nouvelle_facture_db (ns : namespace) (f : form_facture) (clicked : bool) (clock : datetime) :
  (forall t, P (Some (BDb t)) -> P (Some (BDb (Some (Store.to_sql (data_of f clock) (Store.init_db t)))))) ->
  triple (db_inv P) (nouvelle_facture ns f clicked clock) (fun _ => True).
Proof.
  intros Hs. apply triple_nouvelle_facture_gen; auto using triple_init_db, triple_sqlite_connect_db with vtc_inv.
  apply triple_sauvegarder_facture_gen, Hs.
Qed.

Lemma triple_main_db (ns : namespace) (i : run_input) :
  triple (db_inv P) (nouvelle_facture ns (ri_form i) (ri_create i) (ri_clock i)) (fun _ => True) ->
  triple (db_inv P) (main ns i) (fun _ => True).
Proof. apply triple_main_gen; auto using triple_init_db, triple_sqlite_connect_db with vtc_inv. Qed.

End DbHandlers.

Lemma table_ok_init : table_ok (Store.init_db None).
Proof. split; [apply (StoreFacts.init_db_wf None); exact I | constructor]. Qed.

Lemma table_ok_to_sql (d : Store.facture_data) (t : Store.table) :
  dt_valid (Store.d_date_course d) = true -> table_ok t -> table_ok (Store.to_sql d t).
Proof.
  intros Hd [Hwf Hp]. rewrite (StoreFacts.to_sql_eq d t Hwf). split.
  - apply (StoreFacts.table_wf_snoc t (Store.row_of_data (Store.seq t + 1) d) Hwf). cbn. lia.
  - cbn [Store.rows]. apply Forall_app. split; [exact Hp|]. constructor; [|constructor].
    rewrite (StoreFacts.date_course_row_of_data _ _ Hd). eauto.
Qed.

(** Every run with valid widget values keeps [db_ok]. *)
Lemma triple_main (ns : namespace) (i : run_input) :
  input_ok i = true -> triple db_ok (main ns i) (fun _ => True).
Proof.
  intros Hi. apply (triple_main_db ok_entry); [trivial | intros _; exact table_ok_init |].
  apply triple_nouvelle_facture_db; try solve [trivial | intros _; exact table_ok_init].
  intros [t|] Ht; apply table_ok_to_sql; auto using table_ok_init.
Qed.

(** With the imports as written the creation flow raises before it
    touches anything. *)
Lemma triple_nouvelle_facture_module (P : option blob -> Prop) (f : form_facture) (clicked : bool) (clock : datetime) :
  triple (db_inv P) (nouvelle_facture module_namespace f clicked clock) (fun _ => True).
Proof.
  unfold nouvelle_facture. destruct clicked, (champs_remplis f); cbn [negb]; try (apply triple_ret; exact I).
  eapply triple_bind; [apply triple_datetime_combine_module | intros ? []].
Qed.

(** ** The frame *)

Lemma triple_main_frame (w0 : world) (ns : namespace) (i : run_input) :
  triple (frame w0) (main ns i) (fun _ => True).
Proof.
  apply triple_main_gen; try solve [eauto with vtc_inv | unfold init_db; triple_auto].
  apply triple_nouvelle_facture_gen; solve [eauto with vtc_inv | unfold init_db, sauvegarder_facture; triple_auto].
Qed.

(** ** Reachable worlds *)

(** An invariant every run keeps holds in every reachable world. *)
Lemma inv_reachable (ns : namespace) (Inv : world -> Prop) (w0 w : world) :
  (forall i, input_ok i = true -> triple Inv (main ns i) (fun _ => True)) ->
  Inv w0 -> rtc (app_step ns) w0 w -> Inv w.
Proof.
  intros Hm H0 Hr. induction Hr as [w|w1 w2 w3 Hs _ IH]; [exact H0|]. apply IH.
  destruct Hs as [i w Hi]. exact (triple_run Inv _ _ _ (Hm i Hi) H0).
Qed.

Lemma db_ok_reachable (ns : namespace) (w0 w : world) : db_ok w0 -> rtc (app_step ns) w0 w -> db_ok w.
Proof. apply inv_reachable. exact (triple_main ns). Qed.

Lemma to_frame_parses (rows : list Store.row) :
  Forall (fun r => is_Some (to_datetime (Store.date_course r))) rows -> exists df, Stats.to_frame rows = Some df.
Proof.
  induction 1 as [|r rows [dt Hdt] _ [df Hdf]]; [exists []; reflexivity|].
  exists (Stats.mkFrow r dt :: df). cbn. now rewrite Hdt, Hdf.
Qed.

(** The directories only grow and the read-only set never changes. *)
Lemma frame_reachable (ns : namespace) (w0 w : world) : rtc (app_step ns) w0 w -> frame w0 w.
Proof. apply inv_reachable; [intros i _; apply triple_main_frame | reflexivity]. Qed.

(** Once the database file holds the table, it holds a table in every
    reachable world. *)
Lemma table_reachable (ns : namespace) (w0 w : world) (t0 : Store.table) :
  w_files w0 !! DB_PATH = Some (BDb (Some t0)) -> rtc (app_step ns) w0 w ->
  exists t, w_files w !! DB_PATH = Some (BDb (Some t)).
Proof.
  intros H0. apply (inv_reachable ns (db_inv (fun e => exists t, e = Some (BDb (Some t))))); [|exists t0; exact H0].
  intros i _. apply triple_main_db; [intros [? ?]; discriminate | intros [? ?]; discriminate |].
  apply triple_nouvelle_facture_db; first [intros [? ?]; discriminate | intros; eauto].
Qed.

(** The table of a reachable world satisfies [table_ok]. *)
Lemma table_ok_reachable (ns : namespace) (w0 w : world) (t : Store.table) :
  db_ok w0 -> rtc (app_step ns) w0 w -> w_files w !! DB_PATH = Some (BDb (Some t)) -> table_ok t.
Proof.
  intros H0 Hr Ht. pose proof (db_ok_reachable ns w0 w H0 Hr) as Hw.
  unfold db_ok, db_inv in Hw. rewrite Ht in Hw. exact Hw.
Qed.

(** C27. Whatever the pages visited and the values entered, every world
    reachable by runs of the script from one whose table satisfies its
    invariant has a table whose ids are positive, strictly increasing in
    row order and bounded by the AUTOINCREMENT counter. *)
Theorem reachable_table_wf (ns : namespace) (w0 w : world) (t : Store.table) :
  db_ok w0 -> rtc (app_step ns) w0 w -> w_files w !! DB_PATH = Some (BDb (Some t)) -> Store.table_wf t.
Proof. intros H0 Hr Ht. exact (proj1 (table_ok_reachable ns w0 w t H0 Hr Ht)). Qed.

(** C28. The [date_course] column is well typed in every reachable world:
    every stored text is a timestamp [pd.to_datetime] parses, so reading
    the table never fails and the history view never stops on the
    [ValueError] of an unparsable date. *)
Theorem reachable_dates_parse (ns : namespace) (w0 w : world) (t : Store.table) :
  db_ok w0 -> rtc (app_step ns) w0 w -> w_files w !! DB_PATH = Some (BDb (Some t)) ->
  (exists df, Stats.to_frame (Store.select_all t) = Some df)
  /\ forall d1 d2 s export, fst (historique d1 d2 s export w) <> Raise (ValueError "date_course").
Proof.
  intros H0 Hr Ht. destruct (table_ok_reachable ns w0 w t H0 Hr Ht) as [_ Hp].
  destruct (to_frame_parses _ Hp) as [df Hdf]. change (Store.rows t) with (Store.select_all t) in Hdf.
  split; [exists df; exact Hdf|]. intros d1 d2 s export. unfold historique.
  rewrite (py_bind_ok _ _ _ _ _ (lire_factures_run w t Ht)).
  destruct (Store.select_all t) as [|r rs]; [discriminate|].
  rewrite (py_bind_ok _ _ _ _ _ (to_frame_py_run _ _ w Hdf)).
  destruct export; [|discriminate]. destruct (writable w "export_factures.xlsx") eqn:E.
  - rewrite (py_bind_ok _ _ _ _ _ (write_run _ _ w E)). discriminate.
  - rewrite (py_bind_raise _ _ _ _ _ (write_fail _ _ w E)). discriminate.
Qed.

(** C29. With [import datetime] as the script writes it, the database
    file never changes once it holds the table: whatever the pages
    visited and the values entered, no run ever stores an invoice. *)
Theorem module_table_constant (w0 w : world) (t0 : Store.table) :
  w_files w0 !! DB_PATH = Some (BDb (Some t0)) -> rtc (app_step module_namespace) w0 w ->
  w_files w !! DB_PATH = Some (BDb (Some t0)).
Proof.
  apply (inv_reachable module_namespace (db_inv (fun e => e = Some (BDb (Some t0))))).
  intros i _. apply triple_main_db; [discriminate | discriminate | apply triple_nouvelle_facture_module].
Qed.

(** C30. With [datetime] bound to the class (line 4 alone), creating an
    invoice stays possible forever: in every world reachable by runs of
    the script from one where [data/] and [factures/] exist and can be
    written and the table exists, a run on the creation page with a
    validated form appends exactly its record to the table of that
    world. *)
Theorem creation_progress (w0 w : world) (t0 : Store.table) (i : run_input) :
  rtc (app_step intended_namespace) w0 w ->
  w_files w0 !! DB_PATH = Some (BDb (Some t0)) ->
  writable w0 DB_PATH = true ->
  "factures" ∈ w_dirs w0 ->
  writable w0 (Pdf.chemin_pdf (data_of (ri_form i) (ri_clock i))) = true ->
  selected i = "Nouvelle Facture" -> ri_create i = true -> champs_remplis (ri_form i) = true ->
  exists t, w_files w !! DB_PATH = Some (BDb (Some t))
    /\ w_files (snd (main intended_namespace i w)) !! DB_PATH
       = Some (BDb (Some (Store.to_sql (data_of (ri_form i) (ri_clock i)) t))).
Proof.
  intros Hr H0 Hdb Hdir Hpdf Hsel Hc Hf.
  destruct (table_reachable _ _ _ _ H0 Hr) as [t Ht]. pose proof (frame_reachable _ _ _ Hr) as Hfr.
  exists t. split; [exact Ht|]. unfold main.
  rewrite (py_bind_ok _ _ _ _ _ (init_db_run w t Ht)), Hsel, Hc. cbn [String.eqb Ascii.eqb Bool.eqb].
  unfold py_bind at 1.
  assert (Hpe : path_exists "factures" w = true).
  { unfold path_exists. apply orb_true_iff. right. apply bool_decide_eq_true. destruct Hfr as [Hd _]. set_solver. }
  rewrite nouvelle_facture_validated by eauto using writable_frame.
  rewrite (sauvegarder_facture_run _ _ t) by
    (auto using lookup_with_files_ne, chemin_pdf_ne_DB || apply writable_with_files; eauto using writable_frame).
  cbn [fst snd orb rerun_requested existsb]. rewrite (py_bind_raise _ _ _ _ _ (datetime_datetime_now_intended _ _)).
  cbn [snd with_files w_files]. apply lookup_insert_eq.
Qed.

(** ** Witnesses: runs from the example world *)

Lemma db_ok_exemple_monde : db_ok exemple_monde.
Proof. unfold db_ok, db_inv, exemple_monde. cbn [w_files]. rewrite lookup_singleton_eq. exact table_ok_init. Qed.

Lemma exemple_step (ns : namespace) (page : string) (w : world) :
  rtc (app_step ns) w (snd (main ns (exemple_run page) w)).
Proof. apply rtc_once. constructor. reflexivity. Qed.

Lemma reachable_table_wf_witness :
  Store.table_wf (Store.to_sql (data_of exemple_form exemple_clock) exemple_table).
Proof.
  apply (reachable_table_wf intended_namespace exemple_monde
           (snd (main intended_namespace (exemple_run "Nouvelle Facture") exemple_monde))).
  - exact db_ok_exemple_monde.
  - apply exemple_step.
  - vm_compute. reflexivity.
Defined.

Lemma reachable_dates_parse_witness :
  (exists df, Stats.to_frame (Store.select_all (Store.to_sql (data_of exemple_form exemple_clock) exemple_table))
              = Some df)
  /\ forall d1 d2 s export,
       fst (historique d1 d2 s export
              (snd (main intended_namespace (exemple_run "Nouvelle Facture") exemple_monde)))
       <> Raise (ValueError "date_course").
Proof.
  apply (reachable_dates_parse intended_namespace exemple_monde).
  - exact db_ok_exemple_monde.
  - apply exemple_step.
  - vm_compute. reflexivity.
Defined.

(** Two runs with the imports as written: a creation, then the settings
    page saving new values. *)
Definition exemple_deux_runs : world :=
  let w1 := snd (main module_namespace (exemple_run "Nouvelle Facture") exemple_monde) in
  let i2 := mkRun "Paramètres" exemple_form false (mkDate 2024 3 1) (mkDate 2024 3 31) "Tous" false "Tout"
                  exemple_settings true false exemple_clock in
  snd (main module_namespace i2 w1).

Lemma module_table_constant_witness :
  w_files exemple_monde !! DB_PATH = Some (BDb (Some exemple_table))
  /\ w_files exemple_deux_runs !! DB_PATH = Some (BDb (Some exemple_table)).
Proof.
  assert (H0 : w_files exemple_monde !! DB_PATH = Some (BDb (Some exemple_table))) by reflexivity.
  split; [exact H0|]. apply (module_table_constant exemple_monde); [exact H0|].
  unfold exemple_deux_runs. cbv zeta.
  eapply rtc_l; [exact (step_run _ (exemple_run "Nouvelle Facture") exemple_monde eq_refl)|].
  apply rtc_once. constructor. reflexivity.
Defined.

(** A second creation, of another trip, after a first one. *)
Definition exemple_run_2 : run_input :=
  mkRun "Nouvelle Facture" exemple_form_2 true (mkDate 2024 3 1) (mkDate 2024 3 31) "Tous" false "Tout"
        exemple_settings false false exemple_clock_2.

Lemma creation_progress_witness :
  exists t, w_files (snd (main intended_namespace (exemple_run "Nouvelle Facture") exemple_monde)) !! DB_PATH
            = Some (BDb (Some t))
    /\ w_files (snd (main intended_namespace exemple_run_2
                        (snd (main intended_namespace (exemple_run "Nouvelle Facture") exemple_monde)))) !! DB_PATH
       = Some (BDb (Some (Store.to_sql (data_of exemple_form_2 exemple_clock_2) t))).
Proof.
  apply (creation_progress exemple_monde _ exemple_table exemple_run_2).
  - apply exemple_step.
  - reflexivity.
  - vm_compute. reflexivity.
  - unfold exemple_monde. cbn [w_dirs]. set_solver.
  - vm_compute. reflexivity.
  - reflexivity.
  - reflexivity.
  - vm_compute. reflexivity.
Defined.
