(* ===== verification/Rerun.v ===== *)
(** Streamlit's rerun loop.  The reset button of the settings view ends its
    handler with [st.experimental_rerun()] (line 452): the run stops there
    and Streamlit starts the script again at once, with the same widget
    values except the buttons, which read [True] only in the run that
    follows their click.  [streamlit_session] is that loop, with fuel; the
    theorem of this file is that it needs at most two runs, so the fuel
    is never the limit: the rerun that the reset button asks for asks for
    no further one. *)

From stdpp Require Import base.
From Stdlib Require Import ZArith String List Lia.
From S2P Require Import Prelude PyLogic PyDatetime Settings World Imports Creation Views App.
Import ListNotations.
Open Scope string_scope.

(** The widget values of the run that follows a rerun, started at [next]:
    the four buttons (lines 185, 272, 410, 446) read [False]; the menu,
    the form, the filters and the file uploader keep their values. *)
Definition released (i : run_input) (next : datetime) : run_input :=
  mkRun (selected i) (ri_form i) false (ri_date_debut i) (ri_date_fin i) (ri_statut i) false
        (ri_periode i) (ri_settings i) false false next.

(** A user action: the run of [main] with the values [i], followed by the
    reruns it asks for, each started at [next]; [None] when [fuel] runs
    are not enough. *)
Fixpoint streamlit_session (fuel : nat) (ns : namespace) (i : run_input) (next : datetime) (w : world)
    : option (outcome (list ui) * world) :=
  match fuel with
  | O => None
  | S fuel' =>
      let r := main ns i w in
      match fst r with
      | Ok u => if rerun_requested u then streamlit_session fuel' ns (released i next) next (snd r) else Some r
      | Raise _ => Some r
      end
  end.

(** ** No page other than the reset button asks for a rerun *)

Lemma rerun_requested_app (u1 u2 : list ui) :
  rerun_requested (u1 ++ u2) = rerun_requested u1 || rerun_requested u2.
Proof. apply existsb_app. Qed.

(** What a run shows asks for no rerun. *)
Definition no_rerun (u : list ui) : Prop := rerun_requested u = false.

#[export] Hint Extern 1 (no_rerun _) => reflexivity : vtc_inv.

Section NoRerun.
Let Inv : world -> Prop := fun _ => True.

Lemma triple_nouvelle_facture_nr (ns : namespace) (f : form_facture) (clicked : bool) (clock : datetime) :
  triple Inv (nouvelle_facture ns f clicked clock) (fun r => no_rerun (fst r)).
Proof. unfold nouvelle_facture. triple_auto. Qed.

Lemma triple_historique_nr (d1 d2 : date) (s : string) (export : bool) :
  triple Inv (historique d1 d2 s export) no_rerun.
Proof. unfold historique, lire_factures, to_frame_py. triple_auto. Qed.

Lemma triple_tableau_de_bord_nr (ns : namespace) (periode : string) (clock : datetime) :
  triple Inv (tableau_de_bord ns periode clock) no_rerun.
Proof. unfold tableau_de_bord, lire_factures, to_frame_py. triple_auto. Qed.

Lemma triple_parametres_nr (f : Settings.settings_form) (save : bool) :
  triple Inv (parametres f save false) no_rerun.
Proof.
  unfold parametres. apply triple_bind with (R1 := no_rerun); [|intros u1 H1].
  - destruct save; [unfold sauvegarder_parametres; triple_auto | apply triple_ret; reflexivity].
  - apply triple_bind with (R1 := no_rerun); [apply triple_ret; reflexivity|].
    intros u2 H2. apply triple_ret. unfold no_rerun in *. now rewrite rerun_requested_app, H1, H2.
Qed.

(** A run whose reset button is not clicked asks for no rerun. *)
Lemma triple_main_nr (ns : namespace) (i : run_input) :
  ri_reset i = false -> triple Inv (main ns i) no_rerun.
Proof.
  intros Hr. unfold main. eapply triple_bind; [apply triple_true | intros _ _].
  apply triple_bind with (R1 := fun r => no_rerun (fst r)).
  - apply triple_if; [apply triple_nouvelle_facture_nr|].
    repeat apply triple_if; try (apply triple_ret; reflexivity);
      (eapply triple_bind; [|intros ? H; apply triple_ret; exact H]).
    + apply triple_historique_nr.
    + apply triple_tableau_de_bord_nr.
    + rewrite Hr. apply triple_parametres_nr.
  - intros r Hr'. destruct (_ || _); [apply triple_ret, Hr'|].
    eapply triple_bind; [apply triple_true | intros now _]. apply triple_ret.
    unfold no_rerun in *. now rewrite rerun_requested_app, Hr'.
Qed.

End NoRerun.

Lemma main_released_no_rerun (ns : namespace) (i : run_input) (next : datetime) (w : world) :
  match fst (main ns (released i next) w) with Ok u => rerun_requested u = false | Raise _ => True end.
Proof. exact (triple_result _ _ _ w (triple_main_nr ns (released i next) eq_refl) I). Qed.

Lemma streamlit_session_S (fuel : nat) (ns : namespace) (i : run_input) (next : datetime) (w : world) :
  streamlit_session (S fuel) ns i next w =
  match fst (main ns i w) with
  | Ok u => if rerun_requested u then streamlit_session fuel ns (released i next) next (snd (main ns i w))
            else Some (main ns i w)
  | Raise _ => Some (main ns i w)
  end.
Proof. reflexivity. Qed.

(** The run after a rerun is the last one. *)
Lemma streamlit_session_released (fuel : nat) (ns : namespace) (i : run_input) (next : datetime) (w : world) :
  streamlit_session (S fuel) ns (released i next) next w = Some (main ns (released i next) w).
Proof.
  rewrite streamlit_session_S. pose proof (main_released_no_rerun ns i next w) as H.
  destruct (fst (main ns (released i next) w)) as [u|e]; [now rewrite H | reflexivity].
Qed.

(** C31. The rerun loop terminates: whatever the page, the widget values
    and the world, a user action takes at most two runs of the script
    (the reset button's rerun asks for no other), so [streamlit_session]
    returns with two runs of fuel and any larger fuel gives the same
    result. *)
Theorem streamlit_session_terminates (ns : namespace) (i : run_input) (next : datetime) (w : world) :
  (exists r, streamlit_session 2 ns i next w = Some r)
  /\ forall n : nat, (2 <= n)%nat -> streamlit_session n ns i next w = streamlit_session 2 ns i next w.
Proof.
  split.
  - rewrite streamlit_session_S. destruct (fst (main ns i w)) as [u|e]; [|eauto].
    destruct (rerun_requested u); [rewrite streamlit_session_released|]; eauto.
  - intros [|[|n]] Hn; [lia | lia|]. rewrite (streamlit_session_S (S n)), (streamlit_session_S 1).
    destruct (fst (main ns i w)) as [u|e]; [|reflexivity].
    destruct (rerun_requested u); [now rewrite !streamlit_session_released | reflexivity].
Qed.

(** The reset button clicked on the settings page of a world holding a
    logo and a configuration. *)
Definition exemple_reset_run : run_input :=
  mkRun "Paramètres" exemple_form false (mkDate 2024 3 1) (mkDate 2024 3 31) "Tous" false "Tout"
        exemple_settings false true exemple_clock.

Lemma streamlit_session_terminates_witness :
  match fst (main module_namespace exemple_reset_run exemple_monde_logo) with
  | Ok u => rerun_requested u = true | Raise _ => False end
  /\ (exists r, streamlit_session 2 module_namespace exemple_reset_run exemple_clock exemple_monde_logo = Some r)
  /\ streamlit_session 10 module_namespace exemple_reset_run exemple_clock exemple_monde_logo
     = streamlit_session 2 module_namespace exemple_reset_run exemple_clock exemple_monde_logo.
Proof.
  destruct (streamlit_session_terminates module_namespace exemple_reset_run exemple_clock exemple_monde_logo)
    as [H1 H2].
  split; [vm_compute; reflexivity | split; [exact H1 | apply H2; lia]].
Defined.
